(** * nexo-dual-investment: scoring, support levels, forecast and deal arithmetic

    A shallow embedding of the Python sources

    - [ta_report_feedback.py]  (the decision scorer),
    - [technical_analysis.py]  (Fibonacci levels, RSI divergence, Monte Carlo),
    - [calculator.py]          (interest, breakeven, purchase loss, net gain),
    - [main.py]                (parsing and validation of the deal parameters),

    followed by the properties established about them.

    Numbers.  A Python [float] is a binary64 number; every such number is a
    rational, and a float is modelled by the rational [Q] it denotes (a
    decimal such as [100.1] is the float [Py.binary64 (1001 # 10)], not the
    rational [1001 # 10]).
    Python [int]s are [Z].  Scores are sums of the literals [1] and [0.5]
    and are compared with integer literals, all of which binary64 holds
    exactly, so the rational sums and comparisons of the scorer are the ones
    the interpreter computes.  Where the code compares an input with a
    product by a decimal literal ([min_support * 1.02] in [fibo_fb]), the
    rounding decides the branch taken, and the product is rounded as
    binary64 rounds it ([Py.binary64], [Py.fmul]).  The arithmetic of the
    deal evaluator and of the indicators is kept exact: their figures are
    the ones of the formulas up to the rounding of each operation, and the
    statements about them are limited to what does not depend on it.  The
    exceptions raised by the conversion of an [int] that no float can hold
    are modelled.  The Monte Carlo forecaster needs [log], [exp] and a
    square root and is modelled over the real numbers [R].  Infinite and
    not-a-number values are outside the model, except where a function is
    given an explicit [option] result for them.

    Strings.  A Python [str] is held as the bytes of its UTF-8 encoding;
    [Py.len] counts its characters (code points), not its bytes.

    Exceptions are values of [exn]; a function that may raise returns
    [result A]. *)

From Stdlib Require Import ZArith QArith Qround Qabs Qminmax Qpower Lqa Lia.
From Stdlib Require Import Reals Lra.
From Stdlib Require Import Bool List String Ascii.
Import ListNotations.

Local Open Scope string_scope.
Local Open Scope Q_scope.

(** ** Python builtins used by the sources *)

Module Py.

(** The exceptions the modelled code can raise. *)
Inductive exn : Type :=
| ValueError (msg : string)
| ZeroDivisionError
| IndexError
| OverflowError
| AttributeError.

Definition result (A : Type) : Type := (exn + A)%type.

Definition ret {A : Type} (a : A) : result A := inr a.
Definition raise {A : Type} (e : exn) : result A := inl e.

Definition bind {A B : Type} (c : result A) (k : A -> result B) : result B :=
  match c with
  | inl e => inl e
  | inr a => k a
  end.

(** [x < y] on floats, as a boolean. *)
Definition Qlt_bool (x y : Q) : bool := negb (Qle_bool y x).

(** [min(xs)]: the first smallest element; [ValueError] on an empty list. *)
Definition min (xs : list Q) : result Q :=
  match xs with
  | [] => raise (ValueError "min() arg is an empty sequence")
  | x :: rest =>
      ret (fold_left (fun m y => if Qlt_bool y m then y else m) rest x)
  end.

(** [max(xs)]: the first largest element; [ValueError] on an empty list. *)
Definition max (xs : list Q) : result Q :=
  match xs with
  | [] => raise (ValueError "max() arg is an empty sequence")
  | x :: rest =>
      ret (fold_left (fun m y => if Qlt_bool m y then y else m) rest x)
  end.

(** Rounding to the nearest integer, ties to the even one. *)
Definition round_half_even (x : Q) : Z :=
  let f := Qfloor x in
  let r := x - inject_Z f in
  if Qlt_bool r (1 # 2) then f
  else if Qlt_bool (1 # 2) r then (f + 1)%Z
  else if Z.even f then f else (f + 1)%Z.

(** [round(x, ndigits)] on the exact value of [x]. *)
Definition round (x : Q) (ndigits : nat) : Q :=
  let p := inject_Z (10 ^ Z.of_nat ndigits) in
  inject_Z (round_half_even (x * p)) / p.

(** [xs[-n:]] for [n >= 0]: the last [n] elements, and the whole list when
    [n] is [0] (since [-0] is [0]) or exceeds the length. *)
Definition last_n {A : Type} (n : nat) (xs : list A) : list A :=
  match n with
  | O => xs
  | _ => skipn (List.length xs - n) xs
  end.

(** [xs[-a:-b]] for [a >= b > 0]. *)
Definition slice_from_end {A : Type} (a b : nat) (xs : list A) : list A :=
  let n := List.length xs in
  let lo := (n - a)%nat in
  let hi := (n - b)%nat in
  firstn (hi - lo) (skipn lo xs).

(** [xs.append(x)], on an immutable list. *)
Definition append {A : Type} (xs : list A) (x : A) : list A :=
  (xs ++ [x])%list.

(** *** Binary64

    [pow2 e] is [2 ^ e].  [ilog2 x] is, for a positive [x], the exponent of
    the binade that holds it: [2 ^ ilog2 x <= x < 2 ^ (ilog2 x + 1)]. *)
Definition pow2 (e : Z) : Q := 2 ^ e.

Definition ilog2 (x : Q) : Z :=
  let k := (Z.log2 (Qnum x) - Z.log2 (Zpos (Qden x)))%Z in
  if Qle_bool (pow2 k) x then k else (k - 1)%Z.

(** The binary64 number nearest to [x], ties to the even significand: a
    multiple of [2 ^ (ilog2 |x| - 52)], the spacing of the 53-bit
    significands of the binade of [x], and of [2 ^ -1074] in the subnormal
    range.  The exponent is not bounded above: a result of magnitude
    [2 ^ 1024] or more stands for an overflow. *)
Definition binary64 (x : Q) : Q :=
  if Qeq_bool x 0 then 0
  else
    let e := Z.max (ilog2 (Qabs x) - 52) (-1074) in
    inject_Z (round_half_even (x / pow2 e)) * pow2 e.

(** [x * y] on two floats. *)
Definition fmul (x y : Q) : Q := binary64 (x * y).

(** Whether the float nearest to [x] is finite. *)
Definition in_range (x : Q) : bool :=
  Qlt_bool (Qabs (binary64 x)) (pow2 1024).

(** The integers up to [2 ^ 53] are floats themselves. *)
Definition max_exact_int : Z := 2 ^ 53.

(** The conversion [int -> float] that [n * x] and [x / n] perform on an
    [int] operand: [OverflowError] when no finite float is nearest to [n].
    The value returned is [n] itself (the conversion is exact up to
    [max_exact_int], and its rounding beyond is not modelled). *)
Definition float_of_int (n : Z) : result Q :=
  if in_range (inject_Z n) then ret (inject_Z n) else raise OverflowError.

(** [a / b] on two [int]s: true division, [ZeroDivisionError] on a zero
    divisor and [OverflowError] when no finite float is nearest to the
    quotient.  The value returned is the exact quotient. *)
Definition int_truediv (a b : Z) : result Q :=
  if (b =? 0)%Z then raise ZeroDivisionError
  else if in_range (inject_Z a / inject_Z b) then
    ret (inject_Z a / inject_Z b)
  else raise OverflowError.

(** [len(text)]: the number of characters, that is of the bytes of the
    UTF-8 encoding that do not continue a character ([10xxxxxx]). *)
Definition is_continuation (c : ascii) : bool :=
  let n := nat_of_ascii c in (128 <=? n)%nat && (n <? 192)%nat.

Fixpoint len (text : string) : nat :=
  match text with
  | EmptyString => O
  | String c rest => if is_continuation c then len rest else S (len rest)
  end.

(** [text.split(sep)] for a one-character (ASCII) separator. *)
Fixpoint split (sep : ascii) (text : string) : list string :=
  match text with
  | EmptyString => [EmptyString]
  | String c rest =>
      if Ascii.eqb c sep then EmptyString :: split sep rest
      else match split sep rest with
           | [] => [String c EmptyString]
           | w :: ws => String c w :: ws
           end
  end.

End Py.

Notation "x <- c ;; k" := (Py.bind c (fun x => k))
  (at level 61, c at next level, right associativity).

(** ** The analysis report ([auto_ta_analysis]'s dictionary) *)

Module Report.

(** [fibonacci] lists the items of the level dictionary in insertion order;
    each value is the number the scorer reads with [level[0]]. *)
Record supporti : Type := {
  fibonacci : list (string * Q);
  cluster_minimi : list Q
}.

Record rsi : Type := {
  valore : Q;
  divergenza : string
}.

Record volumi : Type := {
  sopra_media_perc : Q;
  spike_supporto_perc : Q
}.

Record montecarlo : Type := {
  prob_Bx_gt_target : Q;
  bull_case : Q;
  base_case : Q;
  bear_case : Q;
  volatilita_giornaliera : Q
}.

Record t : Type := {
  r_supporti : supporti;
  r_rsi : rsi;
  r_volumi : volumi;
  r_montecarlo : montecarlo
}.

End Report.

(** ** ta_report_feedback.py *)

Module Feedback.

Import Report.

(** The dictionary returned by [ta_report_feedback]. *)
Record decision : Type := {
  score : Q;
  max_score : Q;
  feedback : string;
  warnings : list string;
  suggested_action : string
}.

Definition w_div_pos : string :=
  "Divergenza RSI positiva: possibile inversione rialzista.".
Definition w_div_neg : string :=
  "Divergenza RSI negativa: possibile inversione ribassista.".
Definition w_near_support : string :=
  "Prezzo vicino a un supporto chiave: rischio drawdown limitato.".
Definition w_near_resistance : string :=
  "Prezzo vicino a una resistenza importante: attenzione a possibili ritracciamenti.".
Definition w_vol_above : string :=
  "Volumi sopra la media: conferma di interesse sul mercato.".
Definition w_vol_below : string :=
  "Volumi sotto la media: attenzione a segnali deboli.".
Definition w_vol_spike : string :=
  "Spike di volume recente: possibile fase di accumulazione/distribuzione.".

Definition fb_enter : string :=
  "Condizioni tecniche favorevoli: puoi considerare di entrare nel mercato.".
Definition fb_wait : string :=
  "Condizioni tecniche miste: valuta con cautela, potresti aspettare conferme.".
Definition fb_avoid : string :=
  "Condizioni tecniche sfavorevoli: meglio evitare l'ingresso ora.".

Section Scorer.

(** How an f-string renders a float ([str] of the value). *)
Variable fmt : Q -> string.

Definition w_rsi_high (v : Q) : string :=
  "RSI molto alto (" ++ fmt v ++ "): rischio ipercomprato.".
Definition w_rsi_low (v : Q) : string :=
  "RSI molto basso (" ++ fmt v ++ "): possibile rimbalzo tecnico.".
Definition w_mc_high (p : Q) : string :=
  "Probabilità Monte Carlo di superare il target elevata: " ++ fmt p ++ "%.".
Definition w_mc_low (p : Q) : string :=
  "Probabilità Monte Carlo di superare il target bassa: " ++ fmt p ++ "%.".

(** Each filter receives the running score and the warning list and
    returns both; [warnings.append(w)] becomes [Py.append ws w]. *)

Definition rsi_fb (report : Report.t) (score : Q) (ws : list string)
  : Q * list string :=
  let rsi_val := valore (r_rsi report) in
  let rsi_div := divergenza (r_rsi report) in
  let '(score, ws) :=
    if String.eqb rsi_div "nessuna" then (score + 1, ws)
    else if String.eqb rsi_div "positiva" then (score + 1, Py.append ws (w_div_pos))
    else if String.eqb rsi_div "negativa" then (score, Py.append ws (w_div_neg))
    else (score, ws) in
  if Py.Qlt_bool 70 rsi_val then (score, Py.append ws (w_rsi_high rsi_val))
  else if Py.Qlt_bool rsi_val 30 then (score + (1 # 2), Py.append ws (w_rsi_low rsi_val))
  else (score, ws).

(** The literals [1.02] and [0.98]: the floats nearest to them. *)
Definition f_1_02 : Q := Py.binary64 (102 # 100).
Definition f_0_98 : Q := Py.binary64 (98 # 100).

(** The two products are float products: [Py.fmul]. *)
Definition fibo_fb (current_price : option Q) (report : Report.t)
    (score : Q) (ws : list string) : Py.result (Q * list string) :=
  let fibo_levels := map snd (fibonacci (r_supporti report)) in
  min_support <- Py.min fibo_levels ;;
  max_resistance <- Py.max fibo_levels ;;
  let current_price :=
    match current_price with
    | None => base_case (r_montecarlo report)
    | Some p => p
    end in
  if Qle_bool current_price (Py.fmul min_support f_1_02) then
    Py.ret (score + 1, Py.append ws (w_near_support))
  else if Qle_bool (Py.fmul max_resistance f_0_98) current_price then
    Py.ret (score, Py.append ws (w_near_resistance))
  else Py.ret (score, ws).

Definition volumes_fb (report : Report.t) (score : Q) (ws : list string)
  : Q * list string :=
  let vol_perc := sopra_media_perc (r_volumi report) in
  let vol_spike := spike_supporto_perc (r_volumi report) in
  let '(score, ws) :=
    if Py.Qlt_bool 10 vol_perc then (score + 1, Py.append ws (w_vol_above))
    else if Py.Qlt_bool vol_perc (-10) then (score, Py.append ws (w_vol_below))
    else (score, ws) in
  if Py.Qlt_bool 20 vol_spike then (score, Py.append ws (w_vol_spike))
  else (score, ws).

Definition montecarlo_fb (report : Report.t) (score : Q) (ws : list string)
  : Q * list string :=
  let prob := prob_Bx_gt_target (r_montecarlo report) in
  if Py.Qlt_bool 60 prob then (score + 1, Py.append ws (w_mc_high prob))
  else if Py.Qlt_bool prob 30 then (score, Py.append ws (w_mc_low prob))
  else (score, ws).

(** Returns [(feedback, score_norm_perc, suggested_action)]; the division
    raises when [max_score] is zero. *)
Definition suggestion_fb (max_score score : Q)
  : Py.result (string * Q * string) :=
  if Qeq_bool max_score 0 then Py.raise Py.ZeroDivisionError
  else
    let score_norm_perc := (score / max_score) * 100 in
    if Qle_bool 75 score_norm_perc then
      Py.ret (fb_enter, score_norm_perc, "entra")
    else if Qle_bool 50 score_norm_perc then
      Py.ret (fb_wait, score_norm_perc, "aspetta")
    else Py.ret (fb_avoid, score_norm_perc, "evita").

Definition ta_report_feedback (report : Report.t) (current_price : option Q)
  : Py.result decision :=
  let ws := [] in
  let score := 0 in
  let max_score := 4 in
  let '(score, ws) := rsi_fb report score ws in
  sw <- fibo_fb current_price report score ws ;;
  let '(score, ws) := sw in
  let '(score, ws) := volumes_fb report score ws in
  let '(score, ws) := montecarlo_fb report score ws in
  fs <- suggestion_fb max_score score ;;
  let '(feedback, _, suggested_action) := fs in
  Py.ret {| score := Py.round score 2;
            max_score := max_score;
            feedback := feedback;
            warnings := ws;
            suggested_action := suggested_action |}.

End Scorer.

End Feedback.


(** ** technical_analysis.py: support levels and momentum *)

Module TechnicalAnalysis.

(** A float that may be not-a-number ([None]); every comparison with
    not-a-number is false. *)
Definition nanfloat : Type := option Q.

Definition nan_lt (x y : nanfloat) : bool :=
  match x, y with
  | Some a, Some b => Py.Qlt_bool a b
  | _, _ => false
  end.

Definition nan_sub (x y : nanfloat) : nanfloat :=
  match x, y with
  | Some a, Some b => Some (a - b)
  | _, _ => None
  end.

Definition nan_opp (x : nanfloat) : nanfloat :=
  match x with
  | Some a => Some (- a)
  | None => None
  end.

Definition Qsum (xs : list Q) : Q := fold_right Qplus 0 xs.

(** [a.mean()] of a numpy array: not-a-number on an empty array or when an
    entry is not-a-number. *)
Fixpoint all_defined (xs : list nanfloat) : option (list Q) :=
  match xs with
  | [] => Some []
  | None :: _ => None
  | Some x :: rest =>
      match all_defined rest with
      | Some ys => Some (x :: ys)
      | None => None
      end
  end.

Definition np_mean (xs : list nanfloat) : nanfloat :=
  match all_defined xs with
  | Some [] => None
  | Some ys => Some (Qsum ys / inject_Z (Z.of_nat (List.length ys)))
  | None => None
  end.

(** [closes.max()] and [closes.min()] of a pandas column: not-a-number on an
    empty column. *)
Definition series_max (xs : list Q) : nanfloat :=
  match xs with
  | [] => None
  | x :: rest => Some (fold_left Qmax rest x)
  end.

Definition series_min (xs : list Q) : nanfloat :=
  match xs with
  | [] => None
  | x :: rest => Some (fold_left Qmin rest x)
  end.

(** [fibonacci_retracement(df, lookback)], on the column of closes.  The
    result lists the dictionary's items in insertion order; [None] stands for
    the dictionary of not-a-number levels obtained on an empty column. *)
Definition fibonacci_retracement (closes : list Q) (lookback : nat)
  : option (list (string * Q)) :=
  let closes := Py.last_n lookback closes in
  match series_max closes, series_min closes with
  | Some max_price, Some min_price =>
      let diff := max_price - min_price in
      Some [ ("0.0%", max_price);
             ("23.6%", max_price - (236 # 1000) * diff);
             ("38.2%", max_price - (382 # 1000) * diff);
             ("50.0%", max_price - (5 # 10) * diff);
             ("61.8%", max_price - (618 # 1000) * diff);
             ("78.6%", max_price - (786 # 1000) * diff);
             ("100.0%", min_price) ]
  | _, _ => None
  end.

(** The default [lookback=60*24]. *)
Definition default_lookback : nat := 60 * 24.

(** The classification at the end of [rsi_analysis]: the chained comparisons
    [price_trend < 0 < rsi_trend] and [price_trend > 0 > rsi_trend]. *)
Definition divergence (price_trend rsi_trend : nanfloat) : string :=
  if nan_lt price_trend (Some 0) && nan_lt (Some 0) rsi_trend then "positiva"
  else if nan_lt (Some 0) price_trend && nan_lt rsi_trend (Some 0) then "negativa"
  else "nessuna".

(** [a[-5:].mean() - a[-10:-5].mean()]. *)
Definition trend (a : list nanfloat) : nanfloat :=
  nan_sub (np_mean (Py.last_n 5 a)) (np_mean (Py.slice_from_end 10 5 a)).

(** [a[-1]]. *)
Definition last_item {A : Type} (a : list A) : Py.result A :=
  match rev a with
  | [] => Py.raise Py.IndexError
  | x :: _ => Py.ret x
  end.

(** Lines 114 to 117 of [rsi_analysis]: [df['close']] is a one-column frame,
    as in the other indicators; [squeeze()] makes a column of it, but a
    scalar of a frame of one row, on which [to_numpy] does not exist. *)
Definition close_array (closes : list Q) : Py.result (list Q) :=
  match closes with
  | [_] => Py.raise Py.AttributeError
  | _ => Py.ret closes
  end.

Section Momentum.

(** [talib.RSI(close_array, timeperiod)]: one oscillator value per close,
    not-a-number over the warm-up prefix. *)
Variable talib_RSI : list Q -> nat -> list nanfloat.

(** [rsi_analysis] from line 118 on, on the array [close_array] of
    closes. *)
Definition rsi_analysis (closes : list Q) (period : nat)
  : Py.result (nanfloat * string) :=
  let close_array := map (@Some Q) closes in
  let rsi := talib_RSI closes period in
  current_rsi <- last_item rsi ;;
  let price_trend := trend close_array in
  let rsi_trend := trend rsi in
  Py.ret (current_rsi, divergence price_trend rsi_trend).

(** [rsi_analysis(df, period)] as a whole, on the column of closes of the
    frame. *)
Definition rsi_analysis_frame (closes : list Q) (period : nat)
  : Py.result (nanfloat * string) :=
  array <- close_array closes ;;
  rsi_analysis array period.

End Momentum.

End TechnicalAnalysis.


(** ** technical_analysis.py: the Monte Carlo forecaster

    [np.log], [np.exp] and the standard deviation leave the rationals, so
    this part is stated over the real numbers.  The global random generator
    is made explicit: [gauss k] is the [k]-th standard normal variate the
    generator hands out, and [np.random.normal(mu, sigma)] returns
    [mu + sigma * gauss k] and advances the generator. *)

Module Forecast.

Local Open Scope R_scope.

Record forecast : Type := {
  prob : R;
  bull : R;
  base : R;
  bear : R;
  sigma : R
}.

Definition Rsum (xs : list R) : R := fold_right Rplus 0 xs.

(** [s.mean()]. *)
Definition mean (xs : list R) : R := Rsum xs / INR (List.length xs).

(** [s.std()] of a pandas series: the sample deviation (one degree of freedom
    removed). *)
Definition std (xs : list R) : R :=
  let m := mean xs in
  sqrt (Rsum (map (fun x => (x - m) * (x - m)) xs) / (INR (List.length xs) - 1)).

(** [np.log(close / close.shift(1)).dropna()], on positive closes, as
    prices are.  (On a zero or negative ratio numpy yields an infinite or
    not-a-number return, which the reals do not have.) *)
Fixpoint log_returns (closes : list R) : list R :=
  match closes with
  | prev :: (cur :: _) as rest => ln (cur / prev) :: log_returns rest
  | _ => []
  end.

(** [np.isclose(a, b)] with numpy's default tolerances. *)
Definition rtol : R := 1 / 100000.
Definition atol : R := 1 / 100000000.

Definition np_isclose (a b : R) : bool :=
  if Rle_dec (Rabs (a - b)) (atol + rtol * Rabs b) then true else false.

Definition min_sigma : R := 1 / 10000.

(** The floor applied to [sigma] before the simulation. *)
Definition clamp_sigma (s : R) : R :=
  if Rlt_dec s min_sigma then min_sigma else s.

Section Simulation.

Variable gauss : nat -> R.
Variables mu sigma0 S0 : R.

(** [for _ in range(days): price *= np.exp(np.random.normal(mu, sigma))],
    from generator position [k]; returns the price and the new position. *)
Fixpoint path (days : nat) (price : R) (k : nat) : R * nat :=
  match days with
  | O => (price, k)
  | S d => path d (price * exp (mu + sigma0 * gauss k)) (S k)
  end.

(** The outer loop, [results.append(price)] once per simulation. *)
Fixpoint simulate (days n_sim : nat) (k : nat) : list R :=
  match n_sim with
  | O => []
  | S n =>
      let '(price, k') := path days S0 k in
      price :: simulate days n k'
  end.

End Simulation.

(** [np.mean(results > target)]. *)
Definition exceed_fraction (results : list R) (target : R) : R :=
  INR (List.length (filter (fun r => if Rlt_dec target r then true else false) results))
  / INR (List.length results).

Fixpoint insert_sorted (x : R) (xs : list R) : list R :=
  match xs with
  | [] => [x]
  | y :: ys => if Rle_dec x y then x :: y :: ys else y :: insert_sorted x ys
  end.

Definition sort (xs : list R) : list R := fold_right insert_sorted [] xs.

(** [np.percentile(results, q)] for an integer [q], by linear interpolation
    between the two order statistics around position [(n - 1) * q / 100]. *)
Definition np_percentile (results : list R) (q : nat) : R :=
  let a := sort results in
  let pos := ((List.length a - 1) * q)%nat in
  let lo := (pos / 100)%nat in
  let frac := INR (pos mod 100) / 100 in
  let x := nth lo a 0 in
  let y := nth (S lo) a x in
  x + frac * (y - x).

(** [monte_carlo_forecast(df, days, n_sim, target)], on the column of closes.
    [None] stands for the runs whose statistics are not numbers: fewer than
    three closes, or no simulation at all. *)
Definition monte_carlo_forecast (gauss : nat -> R) (closes : list R)
    (days n_sim : nat) (target : R) : option forecast :=
  let lr := log_returns closes in
  match lr, n_sim with
  | _ :: _ :: _, S _ =>
      let mu := mean lr in
      let sigma := clamp_sigma (std lr) in
      let S0 := last closes 0 in
      let results :=
        if np_isclose sigma 0 then repeat S0 n_sim
        else simulate gauss mu sigma S0 days n_sim 0 in
      Some {| prob := exceed_fraction results target;
              bull := np_percentile results 80;
              base := np_percentile results 50;
              bear := np_percentile results 20;
              sigma := sigma |}
  | _, _ => None
  end.

End Forecast.


(** ** calculator.py *)

Module Calculator.

Import Report.

(** The dictionary returned by [calculate_net_gain]. *)
Record net_gain_result : Type := {
  investment_amount : Z;
  apy : Z;
  time_period : Z;
  deal_price : Z;
  interest_rate : Q;
  interest : Q;
  analysis_feedback : Feedback.decision;
  breakeven_price : Q;
  predicted_price : Q;
  purchase_loss : Q;
  net_gain : Q
}.

Section Evaluator.

Variable fmt : Q -> string.

(** [ta.auto_ta_analysis(symbol, timeframe, lookback_days, target)]: fetches
    market data, so its outcome is an input of the model. *)
Variable auto_ta_analysis : string -> string -> Z -> Z -> Py.result Report.t.

(** [calculate_net_gain(s, apy, t, deal, symbol)] on the integers [main]
    passes.  [apy / 100] and [t / 365] are true divisions of [int]s, and
    [s * interest_rate] and [deal * (1 - interest_rate)] convert [s] and
    [deal] to floats: each raises [OverflowError] on an integer beyond the
    floats, before the analysis is called.  The arithmetic itself is exact.
    With [deal = 0] and a forecast that is not positive the code divides a
    numpy float by zero (an infinite or not-a-number loss, with a warning);
    the model has no such value and raises there: every statement below
    takes [deal] positive, as [process_parameters] ensures. *)
Definition calculate_net_gain (s apy t deal : Z) (symbol : string)
  : Py.result net_gain_result :=
  apy_fraction <- Py.int_truediv apy 100 ;;
  t_years <- Py.int_truediv t 365 ;;
  let interest_rate := apy_fraction * t_years in
  s_float <- Py.float_of_int s ;;
  let interest := s_float * interest_rate in
  deal_float <- Py.float_of_int deal ;;
  let breakeven_price := deal_float * (1 - interest_rate) in
  analysis_report <- auto_ta_analysis symbol "1h" (t * 2)%Z deal ;;
  analysis_feedback <- Feedback.ta_report_feedback fmt analysis_report None ;;
  let predicted_price := base_case (r_montecarlo analysis_report) in
  purchase_loss <-
    (if Qle_bool predicted_price deal_float then
       if (deal =? 0)%Z then Py.raise Py.ZeroDivisionError
       else Py.ret (s_float * (1 - predicted_price / deal_float))
     else Py.ret 0) ;;
  let net_gain := interest - purchase_loss in
  Py.ret {| investment_amount := s;
            apy := apy;
            time_period := t;
            deal_price := deal;
            interest_rate := interest_rate;
            interest := interest;
            analysis_feedback := analysis_feedback;
            breakeven_price := breakeven_price;
            predicted_price := predicted_price;
            purchase_loss := purchase_loss;
            net_gain := net_gain |}.

End Evaluator.

End Calculator.

(** ** main.py: the handler of the parameter message *)

Module Main.

(** Conversation states: [AWAITING_PARAMETERS] and [ConversationHandler.END]. *)
Inductive state : Type :=
| AWAITING_PARAMETERS
| END.

(** What [process_parameters] sends back; the rendering of the result
    message is left out, and sending it is taken to succeed. *)
Inductive reply (A : Type) : Type :=
| ErrorReply (msg : string)      (* "Errore: msg ..." *)
| ResultReply (result : A)       (* the formatted result *)
| FailureReply.                  (* the generic failure message *)

Arguments ErrorReply {A} msg.
Arguments ResultReply {A} result.
Arguments FailureReply {A}.

Definition msg_wrong_count : string := "Numero errato di parametri".
Definition msg_invalid : string := "I parametri non sono validi".

(** A reader of signed decimal literals, used to run the handler on
    concrete messages: it returns what [int(text)] returns on the strings
    made of an optional sign and ASCII digits.  It is not [int] on other
    strings (Python's [int] also accepts blanks around the literal,
    underscores between digits and other decimal digits); the handler and
    the statements about it take [int] as a parameter. *)
Definition digit_of (c : ascii) : option Z :=
  let n := nat_of_ascii c in
  if (48 <=? n)%nat && (n <=? 57)%nat then Some (Z.of_nat (n - 48)) else None.

Fixpoint read_digits (acc : Z) (text : string) : option Z :=
  match text with
  | EmptyString => Some acc
  | String c rest =>
      match digit_of c with
      | Some d => read_digits (acc * 10 + d)%Z rest
      | None => None
      end
  end.

Definition int_literal (text : string) : Py.result Z :=
  let invalid := Py.ValueError "invalid literal for int() with base 10" in
  let unsigned (body : string) : option Z :=
    match body with
    | EmptyString => None
    | _ => read_digits 0%Z body
    end in
  let signed :=
    match text with
    | String "-" body => option_map Z.opp (unsigned body)
    | String "+" body => unsigned body
    | _ => unsigned text
    end in
  match signed with
  | Some n => Py.ret n
  | None => Py.raise invalid
  end.

Section Handler.

(** The builtin [int] applied to a string. *)
Variable py_int : string -> Py.result Z.

(** [calculate_net_gain], whatever it computes. *)
Variable A : Type.
Variable calculate_net_gain : Z -> Z -> Z -> Z -> string -> Py.result A.

(** The body of the [try] block up to and including the call. *)
Definition try_block (text : string) : Py.result A :=
  let params := Py.split "," text in
  if negb (List.length params =? 5)%nat then
    Py.raise (Py.ValueError msg_wrong_count)
  else
    s <- py_int (nth 0 params "") ;;
    apy <- py_int (nth 1 params "") ;;
    t <- py_int (nth 2 params "") ;;
    deal <- py_int (nth 3 params "") ;;
    let symbol := nth 4 params "" in
    if (s <=? 0)%Z || (apy <=? 0)%Z || (t <=? 0)%Z || (deal <=? 0)%Z
       || (Py.len symbol <? 3)%nat then
      Py.raise (Py.ValueError msg_invalid)
    else
      calculate_net_gain s apy t deal symbol.

(** [process_parameters]: the [try] block and its two handlers. *)
Definition process_parameters (text : string) : reply A * state :=
  match try_block text with
  | inr result => (ResultReply result, END)
  | inl (Py.ValueError msg) => (ErrorReply msg, AWAITING_PARAMETERS)
  | inl _ => (FailureReply, END)
  end.

End Handler.

End Main.

(** ** technical_analysis.py: support clusters and volumes *)

Module Indicators.

Import TechnicalAnalysis.

(** [set(xs)]: one entry per value, the first one met. *)
Fixpoint set_of (xs : list Q) : list Q :=
  match xs with
  | [] => []
  | x :: rest => x :: filter (fun y => negb (Qeq_bool x y)) (set_of rest)
  end.

(** [sorted(xs)]: ascending and stable. *)
Fixpoint insert (x : Q) (xs : list Q) : list Q :=
  match xs with
  | [] => [x]
  | y :: ys => if Qle_bool x y then x :: y :: ys else y :: insert x ys
  end.

Definition sorted (xs : list Q) : list Q := fold_right insert [] xs.

(** [round(c, -2)]: to the nearest hundred, ties to the even one. *)
Definition round_hundreds (c : Q) : Q :=
  inject_Z (Py.round_half_even (c / 100)) * 100.

(** [np.sum(np.abs(lows - price) < price * tolerance)]. *)
Definition touches (lows : list Q) (price tolerance : Q) : nat :=
  List.length
    (filter (fun low => Py.Qlt_bool (Qabs (low - price)) (price * tolerance))
            lows).

(** [find_support_clusters(df, window, min_touches, tolerance)], on the
    column of lows; the loop that appends the lows with enough touches is a
    [filter]. *)
Definition find_support_clusters (lows : list Q) (window : nat)
    (min_touches : Z) (tolerance : Q) : list Q :=
  let lows := Py.last_n (window * 24) lows in
  let clusters :=
    filter (fun price =>
              (min_touches <=? Z.of_nat (touches lows price tolerance))%Z)
           lows in
  sorted (set_of (map round_hundreds clusters)).

(** [vol.rolling(window=w).mean()]: at each row the mean of the last [w]
    values, not-a-number while fewer than [w] rows are available (and
    throughout when [w] is 0). *)
Definition rolling_mean (w : nat) (xs : list Q) : list nanfloat :=
  map (fun i =>
         if (w =? 0)%nat || (i + 1 <? w)%nat then None
         else Some (Qsum (firstn w (skipn (i + 1 - w) xs))
                    / inject_Z (Z.of_nat w)))
      (seq 0 (List.length xs)).

(** [volume_analysis(df, window)], on the column of volumes.  The means
    and the percentages are the exact ones; the statements about this
    function concern its guards and its zero results, which rounding does
    not touch. *)
Definition volume_analysis (volumes : list Q) (window : nat)
  : Py.result (Q * Q) :=
  let vol := Py.last_n window volumes in
  let ma := rolling_mean (window / 3) vol in
  current_vol <- last_item vol ;;
  current_ma <- last_item ma ;;
  let perc_above_ma :=
    match current_ma with
    | Some m =>
        if Py.Qlt_bool 0 m then 100 * (current_vol - m) / m else 0
    | None => 0
    end in
  let recent_vol := Py.last_n 10 vol in
  let recent_ma := Py.last_n 10 ma in
  let spike :=
    match np_mean recent_ma, series_max recent_vol with
    | Some m, Some top =>
        if Py.Qlt_bool 0 m then 100 * (top - m) / m else 0
    | _, _ => 0
    end in
  Py.ret (perc_above_ma, spike).

End Indicators.


(** ** Properties: vocabulary *)

Module Props.

Import Report.

(** A score contribution of a filter: one of 0, 0.5, 1, 1.5. *)
Definition half_step (x : Q) : Prop :=
  x == 0 \/ x == 1 # 2 \/ x == 1 \/ x == 3 # 2.

(** [x] is [k / 2] for some integer [0 <= k <= n]. *)
Definition half_multiple_upto (n : Z) (x : Q) : Prop :=
  exists k : Z, (0 <= k <= n)%Z /\ x == inject_Z k / 2.

(** A list of prices that never increases from one entry to the next. *)
Fixpoint non_increasing (xs : list Q) : Prop :=
  match xs with
  | x :: (y :: _) as rest => y <= x /\ non_increasing rest
  | _ => True
  end.

(** [m] is the largest (resp. smallest) element of [xs]. *)
Definition is_maximum (m : Q) (xs : list Q) : Prop :=
  In m xs /\ forall x, In x xs -> x <= m.

Definition is_minimum (m : Q) (xs : list Q) : Prop :=
  In m xs /\ forall x, In x xs -> m <= x.

(** The level stored under [label] in a Fibonacci dictionary. *)
Fixpoint level (label : string) (levels : list (string * Q)) : option Q :=
  match levels with
  | [] => None
  | (l, v) :: rest => if String.eqb l label then Some v else level label rest
  end.

(** A report whose seven Fibonacci levels all equal [p]. *)
Definition flat_levels (p : Q) : list (string * Q) :=
  [ ("0.0%", p); ("23.6%", p); ("38.2%", p); ("50.0%", p);
    ("61.8%", p); ("78.6%", p); ("100.0%", p) ].

Definition sample_report (p rsi_val : Q) (div : string) (vol spike prob : Q)
  : Report.t :=
  {| r_supporti := {| fibonacci := flat_levels p; cluster_minimi := [] |};
     r_rsi := {| valore := rsi_val; divergenza := div |};
     r_volumi := {| sopra_media_perc := vol; spike_supporto_perc := spike |};
     r_montecarlo := {| prob_Bx_gt_target := prob; bull_case := p;
                        base_case := p; bear_case := p;
                        volatilita_giornaliera := 1 |} |}.

(** The price the support filter looks at: the one supplied, else the
    forecast's base case. *)
Definition price_used (cp : option Q) (r : Report.t) : Q :=
  match cp with
  | None => base_case (r_montecarlo r)
  | Some p => p
  end.

(** The statement that a report whose smallest and largest Fibonacci levels
    coincide gets no score and no warning from the support filter, whatever
    the price. *)
Definition degenerate_range_is_no_signal : Prop :=
  forall (cp : option Q) (r : Report.t) (s : Q) (ws : list string) (lo hi : Q),
    Py.min (map snd (fibonacci (r_supporti r))) = inr lo ->
    Py.max (map snd (fibonacci (r_supporti r))) = inr hi ->
    lo == hi ->
    Feedback.fibo_fb cp r s ws = inr (s, ws).

(** Exchanges the bullish and the bearish classification. *)
Definition swap_divergence (d : string) : string :=
  if String.eqb d "positiva" then "negativa"
  else if String.eqb d "negativa" then "positiva"
  else d.

(** The sum of the [d] variates a generator hands out from position [k]. *)
Fixpoint gauss_sum (gauss : nat -> R) (k d : nat) : R :=
  match d with
  | O => 0%R
  | S d' => (gauss k + gauss_sum gauss (S k) d')%R
  end.

(** The forecast read off a list of simulated terminal prices. *)
Definition summary (results : list R) (target sigma : R) : Forecast.forecast :=
  {| Forecast.prob := Forecast.exceed_fraction results target;
     Forecast.bull := Forecast.np_percentile results 80;
     Forecast.base := Forecast.np_percentile results 50;
     Forecast.bear := Forecast.np_percentile results 20;
     Forecast.sigma := sigma |}.

(** A rendering of floats for concrete runs. *)
Definition no_fmt (_ : Q) : string := "".

(** Whether the four conversions to float at the head of
    [calculate_net_gain] succeed: [apy / 100], [t / 365], [s] and [deal]
    each have a finite float nearest to them. *)
Definition amounts_fit_floats (s apy t deal : Z) : bool :=
  Py.in_range (inject_Z apy / 100) && Py.in_range (inject_Z t / 365)
  && Py.in_range (inject_Z s) && Py.in_range (inject_Z deal).

End Props.

Module Vocabulary.

(** How often the character [c] occurs in [text]. *)
Fixpoint count_char (c : ascii) (text : string) : nat :=
  match text with
  | EmptyString => O
  | String a rest =>
      if Ascii.eqb a c then S (count_char c rest) else count_char c rest
  end.

(** A list of prices in which every entry is below the next one. *)
Fixpoint strictly_ascending (xs : list Q) : Prop :=
  match xs with
  | x :: (y :: _) as rest => x < y /\ strictly_ascending rest
  | _ => True
  end.

(** A list of prices no two of which have the same value. *)
Fixpoint pairwise_different (xs : list Q) : Prop :=
  match xs with
  | [] => True
  | x :: rest => (forall y, In y rest -> ~ x == y) /\ pairwise_different rest
  end.

(** A list of prices that never decreases from one entry to the next. *)
Fixpoint non_decreasing (xs : list Q) : Prop :=
  match xs with
  | x :: (y :: _) as rest => x <= y /\ non_decreasing rest
  | _ => True
  end.

End Vocabulary.

(** ** Properties of the Python builtins *)

(** Linear arithmetic over the rationals and over the reals. *)
Ltac qinv_consts :=
  repeat match goal with
  | |- context [Qinv (?n # ?d)] =>
      let v := eval vm_compute in (Qinv (n # d)) in
      change (Qinv (n # d)) with v
  | H : context [Qinv (?n # ?d)] |- _ =>
      let v := eval vm_compute in (Qinv (n # d)) in
      change (Qinv (n # d)) with v in H
  end.
Ltac qlra := unfold Qdiv, inject_Z in *; qinv_consts; Lqa.lra.
Ltac rlra := Lra.lra.

(** Runs the closed term [c] and records its value as [E]. *)
Ltac compute_result c E :=
  let v := eval vm_compute in c in
  assert (E : c = v) by (vm_compute; reflexivity).

Lemma Qlt_bool_true (x y : Q) : Py.Qlt_bool x y = true <-> x < y.
Proof.
  unfold Py.Qlt_bool. rewrite negb_true_iff. split; intro H.
  - apply Qnot_le_lt. intro Hle. apply Qle_bool_iff in Hle. congruence.
  - destruct (Qle_bool y x) eqn:E; [|reflexivity].
    apply Qle_bool_iff in E. exfalso. qlra.
Qed.

Lemma Qlt_bool_false (x y : Q) : Py.Qlt_bool x y = false <-> y <= x.
Proof.
  unfold Py.Qlt_bool. rewrite negb_false_iff. apply Qle_bool_iff.
Qed.

Lemma Qle_bool_false (x y : Q) : Qle_bool x y = false <-> y < x.
Proof.
  split; intro H.
  - apply Qnot_le_lt. intro Hle. apply Qle_bool_iff in Hle. congruence.
  - destruct (Qle_bool x y) eqn:E; [|reflexivity].
    apply Qle_bool_iff in E. exfalso. qlra.
Qed.

Lemma round_half_even_integer (x : Q) (n : Z) :
  x == inject_Z n -> Py.round_half_even x = n.
Proof.
  intro Hx. unfold Py.round_half_even.
  rewrite (Qfloor_comp _ _ Hx), Qfloor_Z.
  assert (Hlt : Py.Qlt_bool (x - inject_Z n) (1 # 2) = true)
    by (apply Qlt_bool_true; qlra).
  now rewrite Hlt.
Qed.

(** Rounding to two decimals leaves a multiple of one half unchanged. *)
Lemma round_half_multiple (x : Q) (k : Z) :
  x == inject_Z k / 2 -> Py.round x 2 == x.
Proof.
  intro Hx. unfold Py.round.
  change (inject_Z (10 ^ Z.of_nat 2)) with (inject_Z 100).
  rewrite (round_half_even_integer _ (50 * k)).
  - rewrite Hx, inject_Z_mult. field.
  - rewrite Hx, inject_Z_mult. field.
Qed.

(** Turns every boolean comparison in sight into the inequality it decides. *)
Ltac lt_cases :=
  repeat match goal with
  | |- context [Py.Qlt_bool ?a ?b] =>
      let E := fresh "E" in
      destruct (Py.Qlt_bool a b) eqn:E;
      [apply Qlt_bool_true in E | apply Qlt_bool_false in E]
  end.

(** *** Binary64 rounding *)

Lemma pow2_pos (e : Z) : 0 < Py.pow2 e.
Proof. apply Qpower_0_lt. reflexivity. Qed.

Lemma pow2_le (a b : Z) : (a <= b)%Z -> Py.pow2 a <= Py.pow2 b.
Proof. intro H. apply Qpower_le_compat_l; [exact H | discriminate]. Qed.

Lemma pow2_plus (a b : Z) : Py.pow2 (a + b) == Py.pow2 a * Py.pow2 b.
Proof. apply Qpower_plus. discriminate. Qed.

Lemma pow2_Z (e : Z) : (0 <= e)%Z -> Py.pow2 e == inject_Z (2 ^ e).
Proof. intro H. unfold Py.pow2. now rewrite Zpower_Qpower. Qed.

(** Rounding to the nearest integer never reverses an order. *)
Lemma round_half_even_monotone (x y : Q) :
  x <= y -> (Py.round_half_even x <= Py.round_half_even y)%Z.
Proof.
  intro Hxy.
  pose proof (Qfloor_le x) as Hx1. pose proof (Qlt_floor x) as Hx2.
  pose proof (Qfloor_le y) as Hy1. pose proof (Qlt_floor y) as Hy2.
  pose proof (Qfloor_resp_le _ _ Hxy) as Hf.
  rewrite inject_Z_plus in Hx2, Hy2.
  unfold Py.round_half_even.
  destruct (Z.eq_dec (Qfloor x) (Qfloor y)) as [E | NE].
  - rewrite E in *.
    lt_cases; try lia; try (exfalso; qlra);
      destruct (Z.even (Qfloor y)); lia.
  - assert (Hlt : (Qfloor x + 1 <= Qfloor y)%Z) by lia.
    lt_cases; try lia;
      repeat match goal with
             | |- context [Z.even ?f] => destruct (Z.even f)
             end; lia.
Qed.

Lemma round_half_even_comp (x y : Q) :
  x == y -> Py.round_half_even x = Py.round_half_even y.
Proof.
  intro H. apply Z.le_antisymm; apply round_half_even_monotone;
    rewrite H; apply Qle_refl.
Qed.

(** [ilog2 x] is the exponent of the binade that holds [x]. *)
Lemma ilog2_spec (x : Q) :
  0 < x -> Py.pow2 (Py.ilog2 x) <= x /\ x < Py.pow2 (Py.ilog2 x + 1).
Proof.
  intro Hx. destruct x as [n d].
  assert (Hn : (0 < n)%Z).
  { unfold Qlt in Hx. cbn in Hx. lia. }
  unfold Py.ilog2. cbn [Qnum Qden].
  set (a := Z.log2 n). set (b := Z.log2 (Z.pos d)).
  destruct (Z.log2_spec n Hn) as [Ha1 Ha2]. fold a in Ha1, Ha2.
  destruct (Z.log2_spec (Z.pos d) eq_refl) as [Hb1 Hb2]. fold b in Hb1, Hb2.
  assert (Ha0 : (0 <= a)%Z) by apply Z.log2_nonneg.
  assert (Hb0 : (0 <= b)%Z) by apply Z.log2_nonneg.
  assert (HA : Py.pow2 a <= inject_Z n < Py.pow2 (a + 1)).
  { rewrite !pow2_Z by lia. rewrite <- Zle_Qle, <- Zlt_Qlt.
    replace (a + 1)%Z with (Z.succ a) by lia. lia. }
  assert (HB : Py.pow2 b <= inject_Z (Z.pos d) < Py.pow2 (b + 1)).
  { rewrite !pow2_Z by lia. rewrite <- Zle_Qle, <- Zlt_Qlt.
    replace (b + 1)%Z with (Z.succ b) by lia. lia. }
  assert (Hq : n # d == inject_Z n / inject_Z (Z.pos d)) by apply Qmake_Qdiv.
  pose proof (pow2_pos a) as Pa. pose proof (pow2_pos b) as Pb.
  assert (E1 : Py.pow2 (a + 1) == 2 * Py.pow2 a)
    by (rewrite pow2_plus; change (Py.pow2 1) with 2; ring).
  assert (E2 : Py.pow2 (b + 1) == 2 * Py.pow2 b)
    by (rewrite pow2_plus; change (Py.pow2 1) with 2; ring).
  assert (Ek : Py.pow2 (a - b) * Py.pow2 b == Py.pow2 a).
  { rewrite <- pow2_plus. now replace (a - b + b)%Z with a by lia. }
  assert (Ek1 : Py.pow2 (a - b + 1) == 2 * Py.pow2 (a - b))
    by (rewrite pow2_plus; change (Py.pow2 1) with 2; ring).
  assert (Ek0 : 2 * Py.pow2 (a - b - 1) == Py.pow2 (a - b)).
  { replace (a - b)%Z with ((a - b - 1) + 1)%Z at 2 by lia.
    rewrite pow2_plus. change (Py.pow2 1) with 2. ring. }
  pose proof (pow2_pos (a - b)) as Pk.
  pose proof (pow2_pos (a - b - 1)) as Pk0.
  set (N := inject_Z n) in *. set (D := inject_Z (Z.pos d)) in *.
  set (A := Py.pow2 a) in *. set (B := Py.pow2 b) in *.
  set (K := Py.pow2 (a - b)) in *. set (K0 := Py.pow2 (a - b - 1)) in *.
  assert (HD : 0 < D) by Lqa.lra.
  assert (Hup : N / D < 2 * K).
  { apply Qlt_shift_div_r; [exact HD|]. Lqa.nra. }
  assert (Hlo : K0 <= N / D).
  { apply Qle_shift_div_l; [exact HD|]. Lqa.nra. }
  destruct (Qle_bool K (n # d)) eqn:E.
  - apply Qle_bool_iff in E. split; [exact E|].
    rewrite Ek1, Hq. exact Hup.
  - apply Qle_bool_false in E. split; [rewrite Hq; exact Hlo|].
    replace (a - b - 1 + 1)%Z with (a - b)%Z by lia. exact E.
Qed.

Lemma ilog2_monotone (x y : Q) :
  0 < x -> x <= y -> (Py.ilog2 x <= Py.ilog2 y)%Z.
Proof.
  intros Hx Hxy.
  destruct (ilog2_spec x Hx) as [H1 _].
  destruct (ilog2_spec y) as [_ H2]; [Lqa.lra|].
  destruct (Z_lt_le_dec (Py.ilog2 y) (Py.ilog2 x)) as [H | H]; [|exact H].
  exfalso. assert (H3 : Py.pow2 (Py.ilog2 y + 1) <= Py.pow2 (Py.ilog2 x))
    by (apply pow2_le; lia).
  Lqa.lra.
Qed.

Lemma ilog2_comp (x y : Q) : 0 < x -> x == y -> Py.ilog2 x = Py.ilog2 y.
Proof.
  intros Hx H.
  assert (Hy : 0 < y) by (now rewrite <- H).
  apply Z.le_antisymm; apply ilog2_monotone; try assumption;
    rewrite H; apply Qle_refl.
Qed.

Lemma binary64_zero (x : Q) : x == 0 -> Py.binary64 x = 0.
Proof.
  intro H. unfold Py.binary64.
  apply Qeq_bool_iff in H. now rewrite H.
Qed.

Lemma binary64_nonneg (x : Q) : 0 <= x -> 0 <= Py.binary64 x.
Proof.
  intro Hx. unfold Py.binary64. destruct (Qeq_bool x 0); [apply Qle_refl|].
  set (e := Z.max _ _). pose proof (pow2_pos e) as Pe.
  apply Qmult_le_0_compat; [|Lqa.lra].
  change 0 with (inject_Z 0). rewrite <- Zle_Qle.
  rewrite <- (round_half_even_integer 0 0) by reflexivity.
  apply round_half_even_monotone.
  apply Qle_shift_div_l; [exact Pe | Lqa.lra].
Qed.

(** Rounding to binary64 never reverses the order of two non-negative
    numbers. *)
Lemma binary64_monotone (x y : Q) :
  0 <= x -> x <= y -> Py.binary64 x <= Py.binary64 y.
Proof.
  intros Hx Hxy.
  destruct (Qeq_bool x 0) eqn:Ex.
  { apply Qeq_bool_iff in Ex. rewrite (binary64_zero x Ex).
    apply binary64_nonneg. Lqa.lra. }
  assert (Hx0 : 0 < x).
  { apply Qeq_bool_neq in Ex. apply Qle_lteq in Hx.
    destruct Hx as [H | H]; [exact H | exfalso; apply Ex; now symmetry]. }
  assert (Hy0 : 0 < y) by Lqa.lra.
  assert (Ey : Qeq_bool y 0 = false).
  { destruct (Qeq_bool y 0) eqn:E; [|reflexivity].
    apply Qeq_bool_iff in E. exfalso. Lqa.lra. }
  unfold Py.binary64. rewrite Ex, Ey.
  rewrite (ilog2_comp (Qabs x) x), (ilog2_comp (Qabs y) y);
    try (apply Qabs_pos; Lqa.lra);
    try (rewrite Qabs_pos by Lqa.lra; assumption).
  pose proof (ilog2_monotone x y Hx0 Hxy) as Hl.
  destruct (ilog2_spec x Hx0) as [_ Hxu].
  destruct (ilog2_spec y Hy0) as [Hyl _].
  set (lx := Py.ilog2 x) in *. set (ly := Py.ilog2 y) in *.
  set (ex := Z.max (lx - 52) (-1074)). set (ey := Z.max (ly - 52) (-1074)).
  pose proof (pow2_pos ex) as Pex. pose proof (pow2_pos ey) as Pey.
  destruct (Z.eq_dec ex ey) as [E | NE].
  - rewrite <- E. apply Qmult_le_compat_r; [|Lqa.lra].
    rewrite <- Zle_Qle. apply round_half_even_monotone.
    apply Qmult_le_compat_r; [exact Hxy|].
    apply Qlt_le_weak, Qinv_lt_0_compat, Pex.
  - assert (Hlt : (lx < ly)%Z) by lia.
    assert (Hey : ey = (ly - 52)%Z) by lia.
    assert (Hexly : (ex <= ly)%Z) by lia.
    (* both roundings are separated by the power of two [P] *)
    set (P := Py.pow2 ly).
    assert (HxP : x <= P).
    { apply Qle_trans with (Py.pow2 (lx + 1)); [Lqa.lra|].
      apply pow2_le. lia. }
    assert (HPx : P == inject_Z (2 ^ (ly - ex)) * Py.pow2 ex).
    { rewrite <- pow2_Z by lia. rewrite <- pow2_plus.
      unfold P. now replace (ly - ex + ex)%Z with ly by lia. }
    assert (HPy : P == inject_Z (2 ^ 52) * Py.pow2 ey).
    { rewrite <- pow2_Z by lia. rewrite <- pow2_plus.
      unfold P. rewrite Hey. now replace (52 + (ly - 52))%Z with ly by lia. }
    apply Qle_trans with P.
    + rewrite HPx. apply Qmult_le_compat_r; [|Lqa.lra].
      rewrite <- Zle_Qle.
      rewrite <- (round_half_even_integer (inject_Z (2 ^ (ly - ex)))
                    (2 ^ (ly - ex))) by reflexivity.
      apply round_half_even_monotone.
      apply Qle_shift_div_r; [exact Pex|]. rewrite <- HPx. exact HxP.
    + rewrite HPy. apply Qmult_le_compat_r; [|Lqa.lra].
      rewrite <- Zle_Qle.
      rewrite <- (round_half_even_integer (inject_Z (2 ^ 52)) (2 ^ 52))
        at 1 by reflexivity.
      apply round_half_even_monotone.
      apply Qle_shift_div_l; [exact Pey|]. rewrite <- HPy. exact Hyl.
Qed.

Lemma binary64_comp (x y : Q) : x == y -> Py.binary64 x == Py.binary64 y.
Proof.
  intro H. unfold Py.binary64.
  destruct (Qeq_bool x 0) eqn:Ex.
  - apply Qeq_bool_iff in Ex.
    assert (Ey : Qeq_bool y 0 = true) by (apply Qeq_bool_iff; now rewrite <- H).
    rewrite Ey. reflexivity.
  - assert (Ey : Qeq_bool y 0 = false).
    { destruct (Qeq_bool y 0) eqn:E; [|reflexivity].
      apply Qeq_bool_iff in E. apply Qeq_bool_neq in Ex.
      exfalso. apply Ex. now rewrite H. }
    rewrite Ey.
    assert (Ha : 0 < Qabs x).
    { apply Qeq_bool_neq in Ex.
      destruct (Qlt_le_dec 0 x) as [Hp | Hn].
      - rewrite Qabs_pos by Lqa.lra. exact Hp.
      - rewrite Qabs_neg by exact Hn.
        apply Qle_lteq in Hn. destruct Hn as [Hn | Hn]; [Lqa.lra|].
        contradiction. }
    rewrite (ilog2_comp (Qabs x) (Qabs y) Ha) by (now rewrite H).
    set (e := Z.max _ _).
    rewrite (round_half_even_comp (x / Py.pow2 e) (y / Py.pow2 e))
      by (now rewrite H).
    reflexivity.
Qed.

(** The integers up to [2 ^ 53], and their quotients by a positive integer,
    are within the range of the floats. *)
Lemma in_range_small (x : Q) :
  0 <= x -> x <= inject_Z Py.max_exact_int -> Py.in_range x = true.
Proof.
  intros H0 H1. unfold Py.in_range. apply Qlt_bool_true.
  rewrite Qabs_pos by (apply binary64_nonneg; exact H0).
  apply Qle_lt_trans with (Py.binary64 (inject_Z Py.max_exact_int)).
  - apply binary64_monotone; assumption.
  - vm_compute. reflexivity.
Qed.

Lemma float_of_int_small (n : Z) :
  (0 <= n <= Py.max_exact_int)%Z -> Py.float_of_int n = inr (inject_Z n).
Proof.
  intros [H0 H1]. unfold Py.float_of_int.
  rewrite in_range_small; [reflexivity| |]; rewrite <- ?Zle_Qle.
  - change 0 with (inject_Z 0). now rewrite <- Zle_Qle.
  - exact H1.
Qed.

Lemma int_truediv_small (a b : Z) :
  (0 <= a <= Py.max_exact_int)%Z -> (0 < b)%Z ->
  Py.int_truediv a b = inr (inject_Z a / inject_Z b).
Proof.
  intros [H0 H1] Hb. unfold Py.int_truediv.
  assert (Eb : (b =? 0)%Z = false) by (apply Z.eqb_neq; lia).
  rewrite Eb.
  assert (Ha : 0 <= inject_Z a)
    by (change 0 with (inject_Z 0); now rewrite <- Zle_Qle).
  assert (Hb1 : 1 <= inject_Z b)
    by (change 1 with (inject_Z 1); rewrite <- Zle_Qle; lia).
  assert (Hm : inject_Z a <= inject_Z Py.max_exact_int)
    by (now rewrite <- Zle_Qle).
  rewrite in_range_small; [reflexivity| |].
  - apply Qle_shift_div_l; Lqa.lra.
  - apply Qle_shift_div_r; [Lqa.lra|].
    set (M := inject_Z Py.max_exact_int) in *.
    assert (HM : 0 <= M) by Lqa.lra. Lqa.nra.
Qed.

(** The nearest integer is at most one half away. *)
Lemma round_half_even_error (x : Q) :
  Qabs (inject_Z (Py.round_half_even x) - x) <= 1 # 2.
Proof.
  pose proof (Qfloor_le x) as H1. pose proof (Qlt_floor x) as H2.
  rewrite inject_Z_plus in H2.
  apply Qabs_Qle_condition. unfold Py.round_half_even.
  lt_cases; try destruct (Z.even (Qfloor x));
    rewrite ?inject_Z_plus; split; qlra.
Qed.

(** Above the subnormal range, rounding to binary64 moves a number by at
    most [2 ^ -53] of its value. *)
Lemma binary64_accuracy (x : Q) :
  Py.pow2 (-1022) <= x ->
  Qabs (Py.binary64 x - x) <= x * Py.pow2 (-53).
Proof.
  intro Hx. pose proof (pow2_pos (-1022)) as Hp.
  assert (Hx0 : 0 < x) by Lqa.lra.
  unfold Py.binary64.
  assert (Ex : Qeq_bool x 0 = false).
  { destruct (Qeq_bool x 0) eqn:E; [|reflexivity].
    apply Qeq_bool_iff in E. exfalso. Lqa.lra. }
  rewrite Ex.
  rewrite (ilog2_comp (Qabs x) x);
    [|rewrite Qabs_pos by Lqa.lra; exact Hx0 | apply Qabs_pos; Lqa.lra].
  destruct (ilog2_spec x Hx0) as [Hl Hu].
  set (l := Py.ilog2 x) in *.
  assert (Hl1 : (-1022 <= l)%Z).
  { destruct (Z_lt_le_dec l (-1022)) as [H | H]; [|exact H].
    exfalso. assert (H3 : Py.pow2 (l + 1) <= Py.pow2 (-1022))
      by (apply pow2_le; lia).
    Lqa.lra. }
  replace (Z.max (l - 52) (-1074)) with (l - 52)%Z by lia.
  set (q := Py.pow2 (l - 52)). pose proof (pow2_pos (l - 52)) as Hq.
  fold q in Hq.
  pose proof (round_half_even_error (x / q)) as Herr.
  set (k := inject_Z (Py.round_half_even (x / q))) in *.
  assert (Hxq : x == (x / q) * q) by (field; Lqa.lra).
  assert (Hq2 : q == 2 * (Py.pow2 l * Py.pow2 (-53))).
  { unfold q. rewrite <- pow2_plus.
    replace (l - 52)%Z with (1 + (l + -53))%Z by lia.
    rewrite pow2_plus. reflexivity. }
  pose proof (pow2_pos (-53)) as H53.
  apply Qabs_Qle_condition in Herr. destruct Herr as [He1 He2].
  apply Qabs_Qle_condition.
  set (z := x / q) in *. set (u := Py.pow2 (-53)) in *.
  set (L := Py.pow2 l) in *.
  assert (Hb : q * (1 # 2) <= x * u).
  { rewrite Hq2. Lqa.nra. }
  assert (Ha : k * q - x == (k - z) * q) by (rewrite Hxq at 1; ring).
  rewrite Ha. split; Lqa.nra.
Qed.

(** A float multiplied by a decimal literal between 1/2 and 2: the float
    product is within [2 ^ -51] of the exact product by the decimal. *)
Lemma fmul_literal_accuracy (m c : Q) :
  Py.pow2 (-1021) <= m -> 1 # 2 <= c -> c <= 2 ->
  Qabs (Py.fmul m (Py.binary64 c) - m * c) <= m * c * Py.pow2 (-51).
Proof.
  intros Hm Hc1 Hc2. unfold Py.fmul.
  pose proof (pow2_pos (-1022)) as Hp.
  assert (Hm2 : Py.pow2 (-1021) == 2 * Py.pow2 (-1022))
    by (change (-1021)%Z with (1 + -1022)%Z; rewrite pow2_plus; reflexivity).
  assert (Hc' : 1 # 2 <= Py.binary64 c).
  { apply Qle_trans with (Py.binary64 (1 # 2)).
    - vm_compute. discriminate.
    - apply binary64_monotone; Lqa.lra. }
  assert (Hcp : Py.pow2 (-1022) <= c).
  { apply Qle_trans with (1 # 2); [|exact Hc1]. vm_compute. discriminate. }
  pose proof (binary64_accuracy c Hcp) as Ac.
  set (c' := Py.binary64 c) in *.
  assert (Hmc : Py.pow2 (-1022) <= m * c') by Lqa.nra.
  pose proof (binary64_accuracy (m * c') Hmc) as Am.
  set (f := Py.binary64 (m * c')) in *.
  assert (Hu : Py.pow2 (-51) == 4 * Py.pow2 (-53))
    by (change (-51)%Z with (2 + -53)%Z; rewrite pow2_plus; reflexivity).
  assert (Hu1 : Py.pow2 (-53) <= 1) by (vm_compute; discriminate).
  pose proof (pow2_pos (-53)) as Hu0.
  rewrite Hu. set (u := Py.pow2 (-53)) in *.
  apply Qabs_Qle_condition in Ac, Am. apply Qabs_Qle_condition.
  assert (Hm0 : 0 < m) by Lqa.lra.
  assert (H1 : m * c' <= m * c * (1 + u)) by Lqa.nra.
  assert (H2 : m * c * (1 - u) <= m * c') by Lqa.nra.
  assert (H3 : 0 <= m * c) by Lqa.nra.
  assert (H4 : 0 <= m * c * u) by Lqa.nra.
  assert (H5 : m * c' * u <= m * c * u * 2) by Lqa.nra.
  split; Lqa.lra.
Qed.

(** ** The decision scorer *)

Section ScorerFacts.

Import Report Feedback Props.

Variable fmt : Q -> string.

(** The momentum filter adds 0, 0.5, 1 or 1.5. *)
Lemma rsi_fb_contribution (r : Report.t) (s : Q) (ws : list string) :
  half_step (fst (rsi_fb fmt r s ws) - s).
Proof.
  unfold rsi_fb, half_step.
  destruct (String.eqb (divergenza (r_rsi r)) "nessuna");
    [|destruct (String.eqb (divergenza (r_rsi r)) "positiva");
      [|destruct (String.eqb (divergenza (r_rsi r)) "negativa")]];
    destruct (Py.Qlt_bool 70 (valore (r_rsi r)));
    try destruct (Py.Qlt_bool (valore (r_rsi r)) 30); simpl;
    [> (left; ring) || (right; left; ring) || (right; right; left; ring)
       || (right; right; right; ring) ..].
Qed.

(** The volume filter adds 0 or 1. *)
Lemma volumes_fb_contribution (r : Report.t) (s : Q) (ws : list string) :
  let d := fst (volumes_fb r s ws) - s in d == 0 \/ d == 1.
Proof.
  unfold volumes_fb.
  destruct (Py.Qlt_bool 10 (sopra_media_perc (r_volumi r)));
    [|destruct (Py.Qlt_bool (sopra_media_perc (r_volumi r)) (-10))];
    destruct (Py.Qlt_bool 20 (spike_supporto_perc (r_volumi r))); simpl;
    [> (left; ring) || (right; ring) ..].
Qed.

(** The forecast filter adds 0 or 1. *)
Lemma montecarlo_fb_contribution (r : Report.t) (s : Q) (ws : list string) :
  let d := fst (montecarlo_fb fmt r s ws) - s in d == 0 \/ d == 1.
Proof.
  unfold montecarlo_fb.
  destruct (Py.Qlt_bool 60 (prob_Bx_gt_target (r_montecarlo r)));
    [|destruct (Py.Qlt_bool (prob_Bx_gt_target (r_montecarlo r)) 30)]; simpl;
    [> (left; ring) || (right; ring) ..].
Qed.

Lemma min_nonempty (xs : list Q) : xs <> [] -> exists m, Py.min xs = inr m.
Proof. destruct xs; [congruence | intros _; eexists; reflexivity]. Qed.

Lemma max_nonempty (xs : list Q) : xs <> [] -> exists m, Py.max xs = inr m.
Proof. destruct xs; [congruence | intros _; eexists; reflexivity]. Qed.

(** On a report with at least one Fibonacci level the support filter
    returns, and adds 0 or 1. *)
Lemma fibo_fb_contribution (cp : option Q) (r : Report.t) (s : Q)
    (ws : list string) :
  fibonacci (r_supporti r) <> [] ->
  exists s' ws', fibo_fb cp r s ws = inr (s', ws')
                 /\ (s' - s == 0 \/ s' - s == 1).
Proof.
  intro Hne. unfold fibo_fb.
  assert (Hl : map snd (fibonacci (r_supporti r)) <> [])
    by (destruct (fibonacci (r_supporti r)); [congruence | discriminate]).
  destruct (min_nonempty _ Hl) as [lo ->].
  destruct (max_nonempty _ Hl) as [hi ->]. cbn [Py.bind].
  destruct (Qle_bool _ (Py.fmul lo _));
    [|destruct (Qle_bool (Py.fmul hi _) _)];
    do 2 eexists; (split; [reflexivity|]);
    [> (left; ring) || (right; ring) ..].
Qed.

End ScorerFacts.

(** The decision step returns whenever [max_score] is not zero. *)
Lemma suggestion_fb_returns (max_score score : Q) :
  ~ max_score == 0 ->
  exists out, Feedback.suggestion_fb max_score score = inr out.
Proof.
  intro Hm. unfold Feedback.suggestion_fb.
  destruct (Qeq_bool max_score 0) eqn:E.
  - apply Qeq_bool_iff in E. contradiction.
  - destruct (Qle_bool 75 _); [|destruct (Qle_bool 50 _)];
      eexists; reflexivity.
Qed.

Lemma half_step_from_zero (x : Q) :
  Props.half_step (x - 0) -> Props.half_multiple_upto 3 x.
Proof.
  intros [H | [H | [H | H]]];
    [exists 0%Z | exists 1%Z | exists 2%Z | exists 3%Z];
    (split; [lia | qlra]).
Qed.

Lemma half_multiple_step (n : Z) (x y : Q) :
  Props.half_multiple_upto n x -> (y - x == 0 \/ y - x == 1) ->
  Props.half_multiple_upto (n + 2) y.
Proof.
  intros [k [Hk Hx]] [H | H].
  - exists k. split; [lia | qlra].
  - exists (k + 2)%Z. split; [lia|].
    rewrite inject_Z_plus. qlra.
Qed.

Lemma half_multiple_bounds (n : Z) (x : Q) :
  Props.half_multiple_upto n x -> 0 <= x <= inject_Z n / 2.
Proof.
  intros [k [[Hlo Hhi] Hx]].
  assert (H0 : inject_Z 0 <= inject_Z k) by (rewrite <- Zle_Qle; exact Hlo).
  assert (H1 : inject_Z k <= inject_Z n) by (rewrite <- Zle_Qle; exact Hhi).
  change (inject_Z 0) with 0 in H0. split; qlra.
Qed.

(** On a report with at least one Fibonacci level the scorer returns, and
    its score is a half-integer between 0 and 4.5. *)
Lemma ta_report_feedback_returns (fmt : Q -> string) (r : Report.t)
    (cp : option Q) :
  Report.fibonacci (Report.r_supporti r) <> [] ->
  exists d, Feedback.ta_report_feedback fmt r cp = inr d
            /\ Props.half_multiple_upto 9 (Feedback.score d)
            /\ Feedback.max_score d = 4.
Proof.
  intro Hne. unfold Feedback.ta_report_feedback.
  pose proof (rsi_fb_contribution fmt r 0 []) as H1.
  destruct (Feedback.rsi_fb fmt r 0 []) as [s1 w1]. cbn [fst] in H1.
  destruct (fibo_fb_contribution cp r s1 w1 Hne) as (s2 & w2 & -> & H2).
  cbn [Py.bind].
  pose proof (volumes_fb_contribution r s2 w2) as H3.
  destruct (Feedback.volumes_fb r s2 w2) as [s3 w3]. cbn [fst] in H3.
  pose proof (montecarlo_fb_contribution fmt r s3 w3) as H4.
  destruct (Feedback.montecarlo_fb fmt r s3 w3) as [s4 w4]. cbn [fst] in H4.
  destruct (suggestion_fb_returns 4 s4) as [[[fbk pc] act] ->];
    [discriminate|]. cbn [Py.bind].
  eexists. split; [reflexivity|]. cbn [Feedback.score Feedback.max_score].
  split; [|reflexivity].
  assert (Hm : Props.half_multiple_upto 9 s4).
  { apply half_step_from_zero in H1.
    apply (half_multiple_step 7 s3); [|exact H4].
    apply (half_multiple_step 5 s2); [|exact H3].
    apply (half_multiple_step 3 s1); assumption. }
  destruct Hm as [k [Hk Hx]]. exists k. split; [exact Hk|].
  rewrite (round_half_multiple _ k Hx). exact Hx.
Qed.

(** C10: every filter only adds to the score, by 0, 0.5, 1 or 1.5; on a report
    with at least one Fibonacci level [ta_report_feedback] returns a score
    that is a non-negative multiple of 0.5 and does not exceed 4.5. *)
Theorem score_is_half_multiple_upto_4_5 :
  forall (fmt : Q -> string) (r : Report.t) (cp : option Q)
         (s : Q) (ws : list string),
    Report.fibonacci (Report.r_supporti r) <> [] ->
    Props.half_step (fst (Feedback.rsi_fb fmt r s ws) - s)
    /\ (exists s' ws', Feedback.fibo_fb cp r s ws = inr (s', ws')
                       /\ Props.half_step (s' - s))
    /\ Props.half_step (fst (Feedback.volumes_fb r s ws) - s)
    /\ Props.half_step (fst (Feedback.montecarlo_fb fmt r s ws) - s)
    /\ exists d, Feedback.ta_report_feedback fmt r cp = inr d
                 /\ Props.half_multiple_upto 9 (Feedback.score d)
                 /\ 0 <= Feedback.score d <= 9 # 2.
Proof.
  intros fmt r cp s ws Hne.
  assert (widen : forall d : Q, d == 0 \/ d == 1 -> Props.half_step d)
    by (unfold Props.half_step; intros d [H | H]; tauto).
  split; [apply rsi_fb_contribution|].
  split.
  { destruct (fibo_fb_contribution cp r s ws Hne) as (s' & ws' & E & H).
    exists s', ws'. split; [exact E | exact (widen _ H)]. }
  split; [apply widen, volumes_fb_contribution|].
  split; [apply widen, montecarlo_fb_contribution|].
  destruct (ta_report_feedback_returns fmt r cp Hne) as (d & E & Hm & _).
  exists d. split; [exact E|]. split; [exact Hm|].
  apply (half_multiple_bounds 9), Hm.
Qed.

Lemma score_is_half_multiple_upto_4_5_witness :
  Report.fibonacci
    (Report.r_supporti (Props.sample_report 100 25 "nessuna" 15 0 70)) <> []
  /\ exists d,
       Feedback.ta_report_feedback Props.no_fmt
         (Props.sample_report 100 25 "nessuna" 15 0 70) None = inr d
       /\ Props.half_multiple_upto 9 (Feedback.score d)
       /\ 0 <= Feedback.score d <= 9 # 2.
Proof.
  assert (Hne : Report.fibonacci
    (Report.r_supporti (Props.sample_report 100 25 "nessuna" 15 0 70)) <> [])
    by discriminate.
  split; [exact Hne|].
  exact (proj2 (proj2 (proj2 (proj2
    (score_is_half_multiple_upto_4_5 Props.no_fmt
       (Props.sample_report 100 25 "nessuna" 15 0 70) None 0 [] Hne))))).
Defined.

(** C1: the score is meant to stay within [max_score = 4], yet a report with
    divergence "nessuna", an oscillator of 25, the price on its support, a
    volume 15% above average and a 70% forecast is scored 4.5. *)
Theorem score_exceeds_max_score :
  forall fmt : Q -> string,
    exists d,
      Feedback.ta_report_feedback fmt
        (Props.sample_report 100 25 "nessuna" 15 0 70) None = inr d
      /\ Feedback.score d == 9 # 2
      /\ Feedback.max_score d == 4
      /\ ~ Feedback.score d <= Feedback.max_score d.
Proof.
  intro fmt.
  compute_result
    (Feedback.ta_report_feedback fmt
       (Props.sample_report 100 25 "nessuna" 15 0 70) None) E.
  eexists. split; [exact E|].
  cbn [Feedback.score Feedback.max_score].
  split; [vm_compute; reflexivity|].
  split; [reflexivity|].
  vm_compute. intro H. apply H. reflexivity.
Qed.

(** C2 does not hold as stated: with every Fibonacci level at 100 and the
    price at 100 the support filter adds a point and the near-support
    warning. *)
Lemma degenerate_range_still_scores :
  Py.min (map snd (Props.flat_levels 100)) = inr 100
  /\ Py.max (map snd (Props.flat_levels 100)) = inr 100
  /\ Feedback.fibo_fb (Some 100)
       (Props.sample_report 100 50 "nessuna" 0 0 50) 0 []
     = inr (0 + 1, [Feedback.w_near_support])
  /\ ~ Props.degenerate_range_is_no_signal.
Proof.
  split; [reflexivity|]. split; [reflexivity|]. split; [reflexivity|].
  intro H.
  specialize (H (Some 100) (Props.sample_report 100 50 "nessuna" 0 0 50)
                0 [] 100 100 eq_refl eq_refl (Qeq_refl _)).
  vm_compute in H. discriminate H.
Qed.

(** C2, amended: when the smallest and the largest Fibonacci level coincide
    the support filter has no special case: it runs its two proximity tests
    against that one level [m], with the float products [m * 1.02] and
    [m * 0.98] as thresholds.  A price of at most the first earns a point
    and the near-support warning alone; any other price of at least the
    second earns no point and the near-resistance warning alone; only a
    price passing neither test gets no warning, which cannot happen for a
    level that is not negative.  The two warnings never come together.
    Above the subnormal range the two thresholds are within [2 ^ -51] of
    1.02 and 0.98 times the level. *)
Theorem fibo_fb_degenerate_range :
  forall (cp : option Q) (r : Report.t) (s : Q) (ws : list string) (lo hi : Q),
    Py.min (map snd (Report.fibonacci (Report.r_supporti r))) = inr lo ->
    Py.max (map snd (Report.fibonacci (Report.r_supporti r))) = inr hi ->
    lo == hi ->
    let price := Props.price_used cp r in
    let near_support := Py.fmul lo Feedback.f_1_02 in
    let near_resistance := Py.fmul lo Feedback.f_0_98 in
    (price <= near_support ->
       Feedback.fibo_fb cp r s ws
       = inr (s + 1, Py.append ws Feedback.w_near_support))
    /\ (near_support < price -> near_resistance <= price ->
       Feedback.fibo_fb cp r s ws
       = inr (s, Py.append ws Feedback.w_near_resistance))
    /\ (near_support < price -> price < near_resistance ->
       Feedback.fibo_fb cp r s ws = inr (s, ws))
    /\ (0 <= lo ->
       Feedback.fibo_fb cp r s ws
       = inr (s + 1, Py.append ws Feedback.w_near_support)
       \/ Feedback.fibo_fb cp r s ws
          = inr (s, Py.append ws Feedback.w_near_resistance))
    /\ (Py.pow2 (-1021) <= lo ->
       Qabs (near_support - lo * (102 # 100))
       <= lo * (102 # 100) * Py.pow2 (-51)
       /\ Qabs (near_resistance - lo * (98 # 100))
          <= lo * (98 # 100) * Py.pow2 (-51)).
Proof.
  intros cp r s ws lo hi Hmin Hmax Heq price near_support near_resistance.
  unfold Feedback.fibo_fb. rewrite Hmin, Hmax. cbn [Py.bind].
  fold (Props.price_used cp r). fold price. fold near_support.
  assert (Hth : Py.fmul hi Feedback.f_0_98 == near_resistance).
  { unfold near_resistance, Py.fmul. apply binary64_comp.
    now rewrite Heq. }
  assert (Hhi : forall b, Qle_bool near_resistance price = b ->
                          Qle_bool (Py.fmul hi Feedback.f_0_98) price = b).
  { intros b <-. apply eq_true_iff_eq. rewrite !Qle_bool_iff.
    now rewrite Hth. }
  split; [|split; [|split; [|split]]]; cycle 3.
  { intro Hpos.
    assert (Hord : near_resistance <= near_support).
    { unfold near_resistance, near_support, Py.fmul.
      assert (H98 : 0 <= Feedback.f_0_98) by (vm_compute; discriminate).
      assert (H102 : Feedback.f_0_98 <= Feedback.f_1_02)
        by (vm_compute; discriminate).
      set (a := Feedback.f_0_98) in *. set (b := Feedback.f_1_02) in *.
      apply binary64_monotone; Lqa.nra. }
    destruct (Qlt_le_dec near_support price) as [H | H].
    - right. assert (H' := H). apply Qle_bool_false in H'. rewrite H'.
      rewrite (Hhi true); [reflexivity|]. apply Qle_bool_iff.
      Lqa.lra.
    - left. apply Qle_bool_iff in H. now rewrite H. }
  { intro Hlo. split.
    - apply (fmul_literal_accuracy lo (102 # 100) Hlo); discriminate.
    - apply (fmul_literal_accuracy lo (98 # 100) Hlo); discriminate. }
  - intro H. apply Qle_bool_iff in H. now rewrite H.
  - intros H1 H2. apply Qle_bool_false in H1. rewrite H1.
    rewrite (Hhi true); [reflexivity|]. now apply Qle_bool_iff.
  - intros H1 H2. apply Qle_bool_false in H1. rewrite H1.
    rewrite (Hhi false); [reflexivity|]. now apply Qle_bool_false.
Qed.

Lemma fibo_fb_degenerate_range_witness :
  Feedback.fibo_fb (Some 100)
    (Props.sample_report 100 50 "nessuna" 0 0 50) 0 []
  = inr (0 + 1, Py.append [] Feedback.w_near_support)
  /\ Feedback.fibo_fb (Some 150)
       (Props.sample_report 100 50 "nessuna" 0 0 50) 0 []
     = inr (0, Py.append [] Feedback.w_near_resistance)
  /\ Feedback.fibo_fb (Some (-101))
       (Props.sample_report (-100) 50 "nessuna" 0 0 50) 0 []
     = inr (0, [])
  /\ Feedback.fibo_fb (Some (Py.binary64 (102102 # 1000)))
       (Props.sample_report (Py.binary64 (1001 # 10)) 50 "nessuna" 0 0 50)
       0 []
     = inr (0, Py.append [] Feedback.w_near_resistance)
  /\ Feedback.fibo_fb (Some (Py.binary64 (2686068 # 100)))
       (Props.sample_report 26334 50 "nessuna" 0 0 50) 0 []
     = inr (0 + 1, Py.append [] Feedback.w_near_support).
Proof.
  split; [|split; [|split; [|split]]].
  - apply (proj1 (fibo_fb_degenerate_range (Some 100)
             (Props.sample_report 100 50 "nessuna" 0 0 50) 0 [] 100 100
             eq_refl eq_refl (Qeq_refl _))).
    vm_compute. discriminate.
  - apply (proj1 (proj2 (fibo_fb_degenerate_range (Some 150)
             (Props.sample_report 100 50 "nessuna" 0 0 50) 0 [] 100 100
             eq_refl eq_refl (Qeq_refl _)))).
    + vm_compute. reflexivity.
    + vm_compute. discriminate.
  - apply (proj1 (proj2 (proj2 (fibo_fb_degenerate_range (Some (-101))
             (Props.sample_report (-100) 50 "nessuna" 0 0 50) 0 [] (-100) (-100)
             eq_refl eq_refl (Qeq_refl _))))).
    + vm_compute. reflexivity.
    + vm_compute. reflexivity.
  - (* the floats 100.1 and 102.102: 100.1 * 1.02 rounds below 102.102 *)
    set (level := Py.binary64 (1001 # 10)).
    assert (Hmin : Py.min (map snd (Props.flat_levels level)) = inr level)
      by (vm_compute; reflexivity).
    assert (Hmax : Py.max (map snd (Props.flat_levels level)) = inr level)
      by (vm_compute; reflexivity).
    apply (proj1 (proj2 (fibo_fb_degenerate_range
             (Some (Py.binary64 (102102 # 1000)))
             (Props.sample_report level 50 "nessuna" 0 0 50) 0 []
             level level Hmin Hmax (Qeq_refl _)))).
    + vm_compute. reflexivity.
    + vm_compute. discriminate.
  - (* the floats 26334.0 and 26860.68: 26334.0 * 1.02 rounds up to the
       float 26860.68 *)
    apply (proj1 (fibo_fb_degenerate_range
             (Some (Py.binary64 (2686068 # 100)))
             (Props.sample_report 26334 50 "nessuna" 0 0 50) 0 []
             26334 26334 eq_refl eq_refl (Qeq_refl _))).
    vm_compute. discriminate.
Defined.

(** C8: with no spike above 20, a volume 15% above its average adds exactly
    1 and appends the confirmation warning and nothing else; a volume 15%
    below adds nothing and appends the weak-signal warning and nothing
    else. *)
Theorem volumes_fb_plus_minus_15 :
  forall (r : Report.t) (s : Q) (ws : list string),
    Report.spike_supporto_perc (Report.r_volumi r) <= 20 ->
    (Report.sopra_media_perc (Report.r_volumi r) == 15 ->
       Feedback.volumes_fb r s ws = (s + 1, ws ++ [Feedback.w_vol_above])%list)
    /\ (Report.sopra_media_perc (Report.r_volumi r) == -15 ->
       Feedback.volumes_fb r s ws = (s, ws ++ [Feedback.w_vol_below])%list).
Proof.
  intros r s ws Hspike. unfold Feedback.volumes_fb.
  assert (Hs : Py.Qlt_bool 20 (Report.spike_supporto_perc (Report.r_volumi r))
               = false) by (apply Qlt_bool_false; exact Hspike).
  split; intro Hv.
  - assert (H : Py.Qlt_bool 10 (Report.sopra_media_perc (Report.r_volumi r))
                = true) by (apply Qlt_bool_true; qlra).
    now rewrite H, Hs.
  - assert (H1 : Py.Qlt_bool 10 (Report.sopra_media_perc (Report.r_volumi r))
                 = false) by (apply Qlt_bool_false; qlra).
    assert (H2 : Py.Qlt_bool (Report.sopra_media_perc (Report.r_volumi r)) (-10)
                 = true) by (apply Qlt_bool_true; qlra).
    now rewrite H1, H2, Hs.
Qed.

Lemma volumes_fb_plus_minus_15_witness :
  Feedback.volumes_fb (Props.sample_report 100 50 "nessuna" 15 0 50) 3 ["w"]
  = (3 + 1, ["w"; Feedback.w_vol_above])
  /\ Feedback.volumes_fb (Props.sample_report 100 50 "nessuna" (-15) 20 50) 3 ["w"]
     = (3, ["w"; Feedback.w_vol_below]).
Proof.
  split.
  - apply (volumes_fb_plus_minus_15
             (Props.sample_report 100 50 "nessuna" 15 0 50) 3 ["w"]).
    + vm_compute. discriminate.
    + reflexivity.
  - apply (volumes_fb_plus_minus_15
             (Props.sample_report 100 50 "nessuna" (-15) 20 50) 3 ["w"]).
    + vm_compute. discriminate.
    + reflexivity.
Defined.

(** C4: for a non-zero [max_score] the decision step returns, and the action
    and the feedback depend on the score only through
    [percent = score / max_score * 100]: at least 75 gives "entra" (enter)
    with the favourable feedback, at least 50 and below 75 gives "aspetta"
    (wait) with the mixed feedback, below 50 gives "evita" (avoid) with
    the unfavourable feedback; 75 itself enters and 50 itself waits. *)
Theorem suggestion_fb_thresholds :
  forall max_score score : Q,
    ~ max_score == 0 ->
    let percent := score / max_score * 100 in
    exists feedback action,
      Feedback.suggestion_fb max_score score = inr (feedback, percent, action)
      /\ (75 <= percent ->
           feedback = Feedback.fb_enter /\ action = "entra")
      /\ (50 <= percent -> percent < 75 ->
           feedback = Feedback.fb_wait /\ action = "aspetta")
      /\ (percent < 50 ->
           feedback = Feedback.fb_avoid /\ action = "evita")
      /\ (percent == 75 -> action = "entra")
      /\ (percent == 50 -> action = "aspetta")
      /\ (forall max_score' score' : Q,
            ~ max_score' == 0 ->
            score' / max_score' * 100 == percent ->
            exists percent',
              Feedback.suggestion_fb max_score' score'
              = inr (feedback, percent', action)).
Proof.
  intros max_score score Hm percent.
  assert (Hdef : forall m s, ~ m == 0 ->
            Feedback.suggestion_fb m s
            = let p := s / m * 100 in
              if Qle_bool 75 p then inr (Feedback.fb_enter, p, "entra")
              else if Qle_bool 50 p then inr (Feedback.fb_wait, p, "aspetta")
              else inr (Feedback.fb_avoid, p, "evita")).
  { intros m s H. unfold Feedback.suggestion_fb.
    destruct (Qeq_bool m 0) eqn:E; [|reflexivity].
    apply Qeq_bool_iff in E. contradiction. }
  assert (Hsame : forall m s, ~ m == 0 -> s / m * 100 == percent ->
            Feedback.suggestion_fb m s
            = if Qle_bool 75 percent
              then inr (Feedback.fb_enter, s / m * 100, "entra")
              else if Qle_bool 50 percent
                   then inr (Feedback.fb_wait, s / m * 100, "aspetta")
                   else inr (Feedback.fb_avoid, s / m * 100, "evita")).
  { intros m s H Heq. rewrite (Hdef m s H). cbv zeta.
    assert (E75 : Qle_bool 75 (s / m * 100) = Qle_bool 75 percent)
      by (apply eq_true_iff_eq; rewrite !Qle_bool_iff; now rewrite Heq).
    assert (E50 : Qle_bool 50 (s / m * 100) = Qle_bool 50 percent)
      by (apply eq_true_iff_eq; rewrite !Qle_bool_iff; now rewrite Heq).
    now rewrite E75, E50. }
  pose proof (Hsame max_score score Hm (Qeq_refl _)) as Hout.
  fold percent in Hout.
  destruct (Qle_bool 75 percent) eqn:E75;
    [|destruct (Qle_bool 50 percent) eqn:E50];
    do 2 eexists; (split; [exact Hout|]);
    try apply Qle_bool_iff in E75; try apply Qle_bool_false in E75;
    try apply Qle_bool_iff in E50; try apply Qle_bool_false in E50;
    (repeat split;
     try (intros; exfalso; qlra);
     try (intros m' s' Hm' Heq; eexists; rewrite (Hsame m' s' Hm' Heq)));
    try rewrite E75; try rewrite E50; try reflexivity.
Qed.

Lemma suggestion_fb_thresholds_witness :
  ~ 4 == 0
  /\ exists feedback action,
       Feedback.suggestion_fb 4 3 = inr (feedback, 3 / 4 * 100, action)
       /\ (75 <= 3 / 4 * 100 ->
            feedback = Feedback.fb_enter /\ action = "entra").
Proof.
  assert (H : ~ 4 == 0) by discriminate.
  split; [exact H|].
  destruct (suggestion_fb_thresholds 4 3 H) as (fbk & act & E & H75 & _).
  exists fbk, act. split; [exact E | exact H75].
Defined.

(** ** Fibonacci retracement levels *)

Lemma last_n_nonempty {A : Type} (n : nat) (xs : list A) :
  xs <> [] -> Py.last_n n xs <> [].
Proof.
  intros Hne Hnil. destruct n as [|n]; [exact (Hne Hnil)|].
  apply (f_equal (@List.length A)) in Hnil. cbn [Py.last_n] in Hnil.
  rewrite length_skipn in Hnil. cbn [List.length] in Hnil.
  destruct xs as [|x xs]; [now apply Hne|]. cbn [List.length] in Hnil. lia.
Qed.

Lemma fold_Qmax_is_maximum (xs : list Q) (x : Q) :
  Props.is_maximum (fold_left Qmax xs x) (x :: xs).
Proof.
  revert x. induction xs as [|y ys IH]; intro x; cbn [fold_left].
  - split; [now left|]. intros z [<- | []]. apply Qle_refl.
  - destruct (IH (Qmax x y)) as [Hin Hub]. split.
    + destruct Hin as [Heq | Hin]; [|now right; right].
      rewrite <- Heq. unfold Qmax, GenericMinMax.gmax.
      destruct (x ?= y); [now left | now right; left | now left].
    + intros z [Hz | [Hz | Hz]]; try rewrite <- Hz.
      * apply Qle_trans with (Qmax x y); [apply Q.le_max_l | apply Hub; now left].
      * apply Qle_trans with (Qmax x y); [apply Q.le_max_r | apply Hub; now left].
      * apply Hub. now right.
Qed.

Lemma fold_Qmin_is_minimum (xs : list Q) (x : Q) :
  Props.is_minimum (fold_left Qmin xs x) (x :: xs).
Proof.
  revert x. induction xs as [|y ys IH]; intro x; cbn [fold_left].
  - split; [now left|]. intros z [<- | []]. apply Qle_refl.
  - destruct (IH (Qmin x y)) as [Hin Hlb]. split.
    + destruct Hin as [Heq | Hin]; [|now right; right].
      rewrite <- Heq. unfold Qmin, GenericMinMax.gmin.
      destruct (x ?= y); [now left | now left | now right; left].
    + intros z [Hz | [Hz | Hz]]; try rewrite <- Hz.
      * apply Qle_trans with (Qmin x y); [apply Hlb; now left | apply Q.le_min_l].
      * apply Qle_trans with (Qmin x y); [apply Hlb; now left | apply Q.le_min_r].
      * apply Hlb. now right.
Qed.

(** C5: on a non-empty series the seven levels come out in the order of the
    ratios 0, .236, .382, .5, .618, .786, 1; the 0.0% level is the largest
    close of the lookback window, the 100.0% level the smallest, and the
    levels never increase along the list. *)
Theorem fibonacci_levels_ordered :
  forall (closes : list Q) (lookback : nat),
    closes <> [] ->
    exists (levels : list (string * Q)) (hi lo : Q),
      TechnicalAnalysis.fibonacci_retracement closes lookback = Some levels
      /\ map fst levels
         = ["0.0%"; "23.6%"; "38.2%"; "50.0%"; "61.8%"; "78.6%"; "100.0%"]
      /\ Props.level "0.0%" levels = Some hi
      /\ Props.is_maximum hi (Py.last_n lookback closes)
      /\ Props.level "100.0%" levels = Some lo
      /\ Props.is_minimum lo (Py.last_n lookback closes)
      /\ Props.non_increasing (map snd levels).
Proof.
  intros closes lookback Hne.
  unfold TechnicalAnalysis.fibonacci_retracement.
  pose proof (last_n_nonempty lookback closes Hne) as Hw.
  destruct (Py.last_n lookback closes) as [|x w]; [congruence|]. clear Hw.
  cbn [TechnicalAnalysis.series_max TechnicalAnalysis.series_min].
  pose proof (fold_Qmax_is_maximum w x) as Hmax.
  pose proof (fold_Qmin_is_minimum w x) as Hmin.
  set (hi := fold_left Qmax w x) in *.
  set (lo := fold_left Qmin w x) in *.
  assert (Hle : lo <= hi) by (apply (proj2 Hmax), (proj1 Hmin)).
  eexists. exists hi, lo.
  split; [reflexivity|]. split; [reflexivity|]. split; [reflexivity|].
  split; [exact Hmax|]. split; [reflexivity|]. split; [exact Hmin|].
  cbn [map snd Props.non_increasing]. repeat split; qlra.
Qed.

Lemma fibonacci_levels_ordered_witness :
  [3; 1; 2] <> []
  /\ exists (levels : list (string * Q)) (hi lo : Q),
       TechnicalAnalysis.fibonacci_retracement [3; 1; 2] 2 = Some levels
       /\ map fst levels
          = ["0.0%"; "23.6%"; "38.2%"; "50.0%"; "61.8%"; "78.6%"; "100.0%"]
       /\ Props.level "0.0%" levels = Some hi
       /\ Props.is_maximum hi (Py.last_n 2 [3; 1; 2])
       /\ Props.level "100.0%" levels = Some lo
       /\ Props.is_minimum lo (Py.last_n 2 [3; 1; 2])
       /\ Props.non_increasing (map snd levels).
Proof.
  assert (H : [3; 1; 2] <> []) by discriminate.
  split; [exact H|].
  exact (fibonacci_levels_ordered [3; 1; 2] 2 H).
Defined.

Example fibonacci_retracement_run :
  TechnicalAnalysis.fibonacci_retracement [3; 1; 2] 2
  = Some [ ("0.0%", 2); ("23.6%", 2 - (236 # 1000) * (2 - 1));
           ("38.2%", 2 - (382 # 1000) * (2 - 1));
           ("50.0%", 2 - (5 # 10) * (2 - 1));
           ("61.8%", 2 - (618 # 1000) * (2 - 1));
           ("78.6%", 2 - (786 # 1000) * (2 - 1)); ("100.0%", 1) ].
Proof. reflexivity. Qed.

(** ** The deal evaluator *)



(** ** Divergence classification *)

Lemma divergence_values (p o : TechnicalAnalysis.nanfloat) :
  TechnicalAnalysis.divergence p o = "positiva"
  \/ TechnicalAnalysis.divergence p o = "negativa"
  \/ TechnicalAnalysis.divergence p o = "nessuna".
Proof.
  unfold TechnicalAnalysis.divergence.
  destruct (_ && _); [now left|]. destruct (_ && _); [now right; left|].
  now right; right.
Qed.

(** C7: the classification is "positiva" exactly when the price trend is
    negative and the oscillator trend positive, "negativa" exactly when the
    price trend is positive and the oscillator trend negative, and "nessuna"
    when both trends are zero or have the same sign; negating both trends
    exchanges "positiva" and "negativa".  [rsi_analysis] returns this
    classification of its two trends. *)
Theorem divergence_antisymmetric :
  (forall p o : Q,
     (TechnicalAnalysis.divergence (Some p) (Some o) = "positiva"
      <-> p < 0 /\ 0 < o)
     /\ (TechnicalAnalysis.divergence (Some p) (Some o) = "negativa"
         <-> 0 < p /\ o < 0)
     /\ ((p == 0 /\ o == 0) \/ (0 < p /\ 0 < o) \/ (p < 0 /\ o < 0) ->
         TechnicalAnalysis.divergence (Some p) (Some o) = "nessuna"))
  /\ (forall p o : TechnicalAnalysis.nanfloat,
        TechnicalAnalysis.divergence
          (TechnicalAnalysis.nan_opp p) (TechnicalAnalysis.nan_opp o)
        = Props.swap_divergence (TechnicalAnalysis.divergence p o))
  /\ (forall (talib_RSI : list Q -> nat -> list TechnicalAnalysis.nanfloat)
             (closes : list Q) (period : nat) (current : TechnicalAnalysis.nanfloat),
        TechnicalAnalysis.last_item (talib_RSI closes period) = inr current ->
        TechnicalAnalysis.rsi_analysis talib_RSI closes period
        = inr (current,
               TechnicalAnalysis.divergence
                 (TechnicalAnalysis.trend (map (@Some Q) closes))
                 (TechnicalAnalysis.trend (talib_RSI closes period)))).
Proof.
  split; [|split].
  - intros p o.
    unfold TechnicalAnalysis.divergence, TechnicalAnalysis.nan_lt.
    split; [|split].
    + lt_cases; cbn [andb]; split;
        try discriminate; try (intros [? ?]; exfalso; qlra);
        try (intros _; split; assumption); try reflexivity.
    + lt_cases; cbn [andb]; split;
        try discriminate; try (intros [? ?]; exfalso; qlra);
        try (intros _; split; assumption); try reflexivity.
    + intros [[Hp Ho] | [[Hp Ho] | [Hp Ho]]];
        lt_cases; cbn [andb]; try reflexivity; exfalso; qlra.
  - intros [p|] [o|];
      unfold TechnicalAnalysis.divergence, TechnicalAnalysis.nan_lt,
             TechnicalAnalysis.nan_opp, Props.swap_divergence;
      try reflexivity;
      lt_cases; cbn [andb]; try reflexivity; exfalso; qlra.
  - intros talib closes period current Hlast.
    unfold TechnicalAnalysis.rsi_analysis. now rewrite Hlast.
Qed.

Example divergence_runs :
  TechnicalAnalysis.divergence (Some (-1)) (Some 2) = "positiva"
  /\ TechnicalAnalysis.divergence (Some 1) (Some (-2)) = "negativa"
  /\ TechnicalAnalysis.divergence (Some 0) (Some 0) = "nessuna"
  /\ TechnicalAnalysis.divergence (Some 1) (Some 2) = "nessuna"
  /\ TechnicalAnalysis.divergence None (Some 2) = "nessuna"
  /\ TechnicalAnalysis.trend
       (map (@Some Q) [1; 2; 3; 4; 5; 6; 7; 8; 9; 10; 11; 12])
     = Some ((8 + (9 + (10 + (11 + (12 + 0))))) / 5
             - (3 + (4 + (5 + (6 + (7 + 0))))) / 5).
Proof. repeat split; reflexivity. Qed.

(** ** Validation of the deal parameters *)

(** C9: once the message splits into five fields whose first four read as
    integers, a zero amount, a zero rate, a zero term, a zero deal price or
    a two-character symbol is each answered with the validation error,
    whatever [calculate_net_gain] would do; the calculation is called
    exactly when the four numbers are positive and the symbol has at least
    three characters.  Characters are counted as [len] counts them: a
    symbol of two characters is rejected however many bytes encode it. *)
Theorem invalid_parameters_rejected :
  forall (py_int : string -> Py.result Z) (A : Type)
         (calculate_net_gain : Z -> Z -> Z -> Z -> string -> Py.result A)
         (text p0 p1 p2 p3 symbol : string) (s apy t deal : Z),
    Py.split "," text = [p0; p1; p2; p3; symbol] ->
    py_int p0 = inr s -> py_int p1 = inr apy ->
    py_int p2 = inr t -> py_int p3 = inr deal ->
    let valid :=
      (0 < s)%Z /\ (0 < apy)%Z /\ (0 < t)%Z /\ (0 < deal)%Z
      /\ (3 <= Py.len symbol)%nat in
    let rejected :=
      Main.process_parameters py_int A calculate_net_gain text
      = (Main.ErrorReply Main.msg_invalid, Main.AWAITING_PARAMETERS) in
    (s = 0%Z -> rejected) /\ (apy = 0%Z -> rejected)
    /\ (t = 0%Z -> rejected) /\ (deal = 0%Z -> rejected)
    /\ (Py.len symbol = 2%nat -> rejected)
    /\ (~ valid -> rejected)
    /\ (valid ->
        Main.try_block py_int A calculate_net_gain text
        = calculate_net_gain s apy t deal symbol).
Proof.
  intros py_int A calc text p0 p1 p2 p3 symbol s apy t deal
         Hsplit H0 H1 H2 H3 valid rejected.
  assert (Htry : Main.try_block py_int A calc text
                 = if (s <=? 0)%Z || (apy <=? 0)%Z || (t <=? 0)%Z
                      || (deal <=? 0)%Z || (Py.len symbol <? 3)%nat
                   then Py.raise (Py.ValueError Main.msg_invalid)
                   else calc s apy t deal symbol).
  { unfold Main.try_block. rewrite Hsplit. cbn [List.length Nat.eqb negb nth].
    rewrite H0, H1, H2, H3. reflexivity. }
  assert (Hbad : ~ valid -> rejected).
  { intro Hnv. unfold rejected, Main.process_parameters. rewrite Htry.
    destruct ((s <=? 0)%Z || (apy <=? 0)%Z || (t <=? 0)%Z
              || (deal <=? 0)%Z || (Py.len symbol <? 3)%nat) eqn:E;
      [reflexivity|].
    exfalso. apply Hnv. unfold valid.
    repeat (apply orb_false_iff in E; destruct E as [E ?]).
    repeat match goal with
           | H : (_ <=? _)%Z = false |- _ => apply Z.leb_gt in H
           | H : (_ <? _)%nat = false |- _ => apply Nat.ltb_ge in H
           end.
    repeat split; assumption. }
  repeat split; try (intro H; apply Hbad; unfold valid; intro; lia).
  - exact Hbad.
  - intros (Hs & Ha & Ht & Hd & Hl). rewrite Htry.
    apply Z.leb_gt in Hs, Ha, Ht, Hd. apply Nat.ltb_ge in Hl.
    now rewrite Hs, Ha, Ht, Hd, Hl.
Qed.

Lemma invalid_parameters_rejected_witness :
  let calc := fun (s apy t deal : Z) (_ : string) =>
                @inr Py.exn _ (s + apy + t + deal)%Z in
  Main.process_parameters Main.int_literal Z calc "0,57,3,1800,ETH-USD"
  = (Main.ErrorReply Main.msg_invalid, Main.AWAITING_PARAMETERS)
  /\ Main.process_parameters Main.int_literal Z calc "1000,57,3,1800,ET"
     = (Main.ErrorReply Main.msg_invalid, Main.AWAITING_PARAMETERS)
  /\ Main.process_parameters Main.int_literal Z calc "1000,57,3,1800,€U"
     = (Main.ErrorReply Main.msg_invalid, Main.AWAITING_PARAMETERS)
  /\ Main.try_block Main.int_literal Z calc "1000,57,3,1800,ETH-USD"
     = inr 2860%Z.
Proof.
  intro calc. split; [|split; [|split]].
  - exact (proj1
      (invalid_parameters_rejected Main.int_literal Z calc
         "0,57,3,1800,ETH-USD" "0" "57" "3" "1800" "ETH-USD" 0 57 3 1800
         eq_refl eq_refl eq_refl eq_refl eq_refl) eq_refl).
  - exact (proj1 (proj2 (proj2 (proj2 (proj2
      (invalid_parameters_rejected Main.int_literal Z calc
         "1000,57,3,1800,ET" "1000" "57" "3" "1800" "ET" 1000 57 3 1800
         eq_refl eq_refl eq_refl eq_refl eq_refl))))) eq_refl).
  - exact (proj1 (proj2 (proj2 (proj2 (proj2
      (invalid_parameters_rejected Main.int_literal Z calc
         "1000,57,3,1800,€U" "1000" "57" "3" "1800" "€U" 1000 57 3 1800
         eq_refl eq_refl eq_refl eq_refl eq_refl))))) eq_refl).
  - rewrite (proj2 (proj2 (proj2 (proj2 (proj2 (proj2
      (invalid_parameters_rejected Main.int_literal Z calc
         "1000,57,3,1800,ETH-USD" "1000" "57" "3" "1800" "ETH-USD"
         1000 57 3 1800 eq_refl eq_refl eq_refl eq_refl eq_refl))))))).
    + reflexivity.
    + repeat split; try reflexivity. vm_compute. lia.
Defined.

Example process_parameters_runs :
  let calc := fun (s apy t deal : Z) (_ : string) =>
                @inr Py.exn _ (s + apy + t + deal)%Z in
  Main.process_parameters Main.int_literal Z calc "1000,0,3,1800,ETH-USD"
  = (Main.ErrorReply Main.msg_invalid, Main.AWAITING_PARAMETERS)
  /\ Main.process_parameters Main.int_literal Z calc "1000,57,0,1800,ETH-USD"
     = (Main.ErrorReply Main.msg_invalid, Main.AWAITING_PARAMETERS)
  /\ Main.process_parameters Main.int_literal Z calc "1000,57,3,0,ETH-USD"
     = (Main.ErrorReply Main.msg_invalid, Main.AWAITING_PARAMETERS)
  /\ Main.process_parameters Main.int_literal Z calc "1000,57,3,1800"
     = (Main.ErrorReply Main.msg_wrong_count, Main.AWAITING_PARAMETERS)
  /\ Main.process_parameters Main.int_literal Z calc "1000,57,3,1800,ETH-USD"
     = (Main.ResultReply 2860%Z, Main.END).
Proof. repeat split; reflexivity. Qed.

(** ** The Monte Carlo forecaster *)

Section ForecastFacts.

Import Forecast.
Local Open Scope R_scope.

Example log_returns_run (a b c : R) :
  log_returns [a; b; c] = [ln (b / a); ln (c / b)].
Proof. reflexivity. Qed.

Lemma log_returns_cons (a b : R) (l : list R) :
  log_returns (a :: b :: l) = ln (b / a) :: log_returns (b :: l).
Proof. reflexivity. Qed.

Lemma log_returns_constant (S0 : R) (n : nat) :
  S0 <> 0 -> log_returns (repeat S0 (S n)) = repeat 0 n.
Proof.
  intro HS. induction n as [|n IH]; [reflexivity|].
  change (repeat S0 (S (S n))) with (S0 :: S0 :: repeat S0 n).
  rewrite log_returns_cons.
  change (S0 :: repeat S0 n) with (repeat S0 (S n)).
  rewrite IH. cbn [repeat]. f_equal.
  replace (S0 / S0) with 1 by (field; exact HS). apply ln_1.
Qed.

Lemma Rsum_repeat_zero (n : nat) : Rsum (repeat 0 n) = 0.
Proof.
  induction n as [|n IH]; [reflexivity|].
  cbn [repeat Rsum fold_right]. fold (Rsum (repeat 0 n)). rewrite IH. ring.
Qed.

Lemma mean_repeat_zero (n : nat) : mean (repeat 0 n) = 0.
Proof. unfold mean. rewrite Rsum_repeat_zero. unfold Rdiv. ring. Qed.

Lemma std_repeat_zero (n : nat) : std (repeat 0 n) = 0.
Proof.
  unfold std. rewrite mean_repeat_zero, map_repeat.
  replace ((0 - 0) * (0 - 0)) with 0 by ring.
  rewrite Rsum_repeat_zero. unfold Rdiv. rewrite Rmult_0_l. apply sqrt_0.
Qed.

Lemma min_sigma_pos : 0 < min_sigma.
Proof. unfold min_sigma. rlra. Qed.

Lemma clamp_sigma_floor (s : R) : min_sigma <= clamp_sigma s.
Proof.
  unfold clamp_sigma. destruct (Rlt_dec s min_sigma); rlra.
Qed.

(** After the floor, [sigma] is never close to zero: the branch that would
    fill the results with the starting price cannot be taken. *)
Lemma clamped_sigma_not_close_to_zero (s : R) :
  np_isclose (clamp_sigma s) 0 = false.
Proof.
  unfold np_isclose. destruct (Rle_dec _ _) as [H | H]; [|reflexivity].
  exfalso. pose proof (clamp_sigma_floor s) as Hf.
  rewrite Rminus_0_r, Rabs_R0 in H.
  rewrite Rabs_pos_eq in H by (pose proof min_sigma_pos; rlra).
  unfold atol, rtol, min_sigma in *. rlra.
Qed.

(** With at least three closes and one simulation the forecaster always
    simulates. *)
Lemma monte_carlo_forecast_simulates
    (gauss : nat -> R) (closes : list R) (days n_sim : nat) (target : R)
    (f : forecast) :
  monte_carlo_forecast gauss closes days n_sim target = Some f ->
  let lr := log_returns closes in
  let results :=
    simulate gauss (mean lr) (clamp_sigma (std lr)) (last closes 0)
             days n_sim 0 in
  f = {| prob := exceed_fraction results target;
         bull := np_percentile results 80;
         base := np_percentile results 50;
         bear := np_percentile results 20;
         sigma := clamp_sigma (std lr) |}.
Proof.
  unfold monte_carlo_forecast.
  destruct (log_returns closes) as [|r1 [|r2 lr]]; try discriminate.
  destruct n_sim as [|n]; try discriminate.
  rewrite clamped_sigma_not_close_to_zero. intro H. now inversion H.
Qed.

Lemma clamp_sigma_zero : clamp_sigma 0 = min_sigma.
Proof.
  unfold clamp_sigma. destruct (Rlt_dec 0 min_sigma) as [_ | H];
    [reflexivity | exfalso; apply H, min_sigma_pos].
Qed.

Lemma last_repeat (S0 : R) (n : nat) : last (repeat S0 (S n)) 0 = S0.
Proof.
  induction n as [|n IH]; [reflexivity|].
  change (repeat S0 (S (S n))) with (S0 :: repeat S0 (S n)).
  change (last (S0 :: repeat S0 (S n)) 0) with (last (repeat S0 (S n)) 0).
  exact IH.
Qed.

(** A generator that always hands out [z] multiplies the price by the same
    factor at every step. *)
Lemma path_constant (z mu sg : R) (days : nat) (price : R) (k : nat) :
  path (fun _ => z) mu sg days price k
  = (price * exp (INR days * (mu + sg * z)), (k + days)%nat).
Proof.
  revert price k. induction days as [|d IH]; intros price k.
  - cbn [path INR]. rewrite Rmult_0_l, exp_0, Rmult_1_r, Nat.add_0_r.
    reflexivity.
  - cbn [path]. rewrite IH, S_INR, Rmult_plus_distr_r, Rmult_1_l.
    rewrite (exp_plus (INR d * (mu + sg * z)) (mu + sg * z)).
    f_equal; [ring | lia].
Qed.

(** Under any generator a path multiplies the price by the exponential of
    the drift plus the scaled sum of the variates it consumed. *)
Lemma path_general (gauss : nat -> R) (mu sg : R) (days : nat) (price : R)
    (k : nat) :
  path gauss mu sg days price k
  = (price * exp (INR days * mu + sg * Props.gauss_sum gauss k days),
     (k + days)%nat).
Proof.
  revert price k. induction days as [|d IH]; intros price k.
  - cbn [path INR Props.gauss_sum].
    rewrite Rmult_0_l, Rmult_0_r, Rplus_0_r, exp_0, Rmult_1_r, Nat.add_0_r.
    reflexivity.
  - cbn [path Props.gauss_sum]. rewrite IH, S_INR.
    replace ((INR d + 1) * mu + sg * (gauss k + Props.gauss_sum gauss (S k) d))
      with ((mu + sg * gauss k)
            + (INR d * mu + sg * Props.gauss_sum gauss (S k) d)) by ring.
    rewrite (exp_plus (mu + sg * gauss k)
                      (INR d * mu + sg * Props.gauss_sum gauss (S k) d)).
    f_equal; [ring | lia].
Qed.

Lemma simulate_head (gauss : nat -> R) (mu sg S0 : R) (days n : nat) :
  exists rest,
    simulate gauss mu sg S0 days (S n) 0
    = S0 * exp (INR days * mu + sg * Props.gauss_sum gauss 0 days) :: rest.
Proof.
  cbn [simulate]. rewrite path_general. eexists. reflexivity.
Qed.

(** The forecast of a series of at least two equal non-zero closes after the
    first, under any generator: drift 0, [sigma] floored, and the simulation
    run. *)
Lemma constant_series_simulation (gauss : nat -> R) (S0 target : R)
    (n days n_sim : nat) :
  S0 <> 0 -> (3 <= n)%nat -> (0 < n_sim)%nat ->
  monte_carlo_forecast gauss (repeat S0 n) days n_sim target
  = Some (Props.summary (simulate gauss 0 min_sigma S0 days n_sim 0)
                        target min_sigma).
Proof.
  intros HS Hn Hsim.
  destruct n as [|[|[|m]]]; try lia. destruct n_sim as [|j]; [lia|].
  unfold monte_carlo_forecast.
  rewrite (log_returns_constant S0 (S (S m)) HS), last_repeat.
  change (repeat 0 (S (S m))) with (0 :: 0 :: repeat 0 m).
  cbv iota beta.
  change (0 :: 0 :: repeat 0 m) with (repeat 0 (S (S m))).
  rewrite mean_repeat_zero, std_repeat_zero, clamp_sigma_zero.
  pose proof (clamped_sigma_not_close_to_zero 0) as Hc.
  rewrite clamp_sigma_zero in Hc. rewrite !Hc. reflexivity.
Qed.

Lemma simulate_constant (z mu sg S0 : R) (days n_sim k : nat) :
  simulate (fun _ => z) mu sg S0 days n_sim k
  = repeat (S0 * exp (INR days * (mu + sg * z))) n_sim.
Proof.
  revert k. induction n_sim as [|n IH]; intro k; [reflexivity|].
  cbn [simulate]. rewrite path_constant, IH. reflexivity.
Qed.

Lemma sort_repeat (v : R) (n : nat) : sort (repeat v n) = repeat v n.
Proof.
  induction n as [|n IH]; [reflexivity|].
  cbn [repeat]. unfold sort in *. cbn [fold_right]. rewrite IH.
  destruct n as [|n]; [reflexivity|]. cbn [repeat insert_sorted].
  destruct (Rle_dec v v) as [_ | H]; [reflexivity|].
  exfalso. apply H, Rle_refl.
Qed.

Lemma nth_repeat_inside (v d : R) (n k : nat) :
  (k < n)%nat -> nth k (repeat v n) d = v.
Proof.
  revert k. induction n as [|n IH]; intros k Hk; [lia|].
  destruct k as [|k]; [reflexivity|]. cbn [repeat nth]. apply IH. lia.
Qed.

Lemma np_percentile_repeat (v : R) (n q : nat) :
  (0 < n)%nat -> (q <= 100)%nat -> np_percentile (repeat v n) q = v.
Proof.
  intros Hn Hq. unfold np_percentile.
  rewrite sort_repeat, repeat_length.
  assert (Hlo : ((n - 1) * q / 100 < n)%nat).
  { apply Nat.Div0.div_lt_upper_bound. nia. }
  rewrite (nth_repeat_inside v 0 n _ Hlo), nth_repeat. ring.
Qed.

Lemma exceed_fraction_repeat_above (v target : R) (n : nat) :
  (0 < n)%nat -> target < v -> exceed_fraction (repeat v n) target = 1.
Proof.
  intros Hn Hv. unfold exceed_fraction.
  assert (Hf : filter (fun r => if Rlt_dec target r then true else false)
                      (repeat v n) = repeat v n).
  { clear Hn. induction n as [|m IH]; [reflexivity|].
    cbn [repeat filter]. destruct (Rlt_dec target v) as [_ | H];
      [now rewrite IH | contradiction]. }
  rewrite Hf, repeat_length. field. apply not_0_INR. lia.
Qed.

(** The forecast of a constant series under a generator that always hands
    out [z]. *)
Lemma constant_series_forecast (z S0 target : R) (n days n_sim : nat) :
  S0 <> 0 -> (3 <= n)%nat -> (0 < n_sim)%nat ->
  let v := S0 * exp (INR days * (0 + min_sigma * z)) in
  monte_carlo_forecast (fun _ => z) (repeat S0 n) days n_sim target
  = Some {| prob := exceed_fraction (repeat v n_sim) target;
            bull := v; base := v; bear := v; sigma := min_sigma |}.
Proof.
  intros HS Hn Hsim v.
  destruct n as [|[|[|m]]]; try lia. destruct n_sim as [|j]; [lia|].
  unfold monte_carlo_forecast.
  rewrite (log_returns_constant S0 (S (S m)) HS), last_repeat.
  change (repeat 0 (S (S m))) with (0 :: 0 :: repeat 0 m).
  cbv iota beta.
  change (0 :: 0 :: repeat 0 m) with (repeat 0 (S (S m))).
  rewrite mean_repeat_zero, std_repeat_zero, clamp_sigma_zero.
  pose proof (clamped_sigma_not_close_to_zero 0) as Hc.
  rewrite clamp_sigma_zero in Hc. rewrite !Hc, simulate_constant.
  fold v. rewrite !np_percentile_repeat by lia. reflexivity.
Qed.

End ForecastFacts.

(** C3: a constant series does not make the forecaster return the starting
    price.  With three closes of 100, 30 steps and 5000 simulations,
    [sigma] is floored to 0.0001 and the simulation runs under every
    generator: the first terminal price is 100 times the exponential of
    0.0001 times the sum of the first 30 variates.  Under the generator that
    always hands out 1 and with target 100.2, every simulated price is
    [100 * exp 0.003], above 100, so bull, base and bear are that price and
    not 100, and the exceedance fraction is 1 although 100 does not exceed
    100.2. *)
Theorem constant_series_is_still_simulated :
  (forall (gauss : nat -> R) (target : R),
     Forecast.monte_carlo_forecast gauss [100%R; 100%R; 100%R] 30 5000 target
     = Some (Props.summary
               (Forecast.simulate gauss 0%R (1 / 10000)%R 100%R 30 5000 0)
               target (1 / 10000)%R)
     /\ exists rest,
          Forecast.simulate gauss 0%R (1 / 10000)%R 100%R 30 5000 0
          = (100 * exp (1 / 10000 * Props.gauss_sum gauss 0 30))%R :: rest)
  /\ exists f : Forecast.forecast,
       Forecast.monte_carlo_forecast (fun _ => 1%R)
         [100%R; 100%R; 100%R] 30 5000 (1002 / 10)%R = Some f
       /\ Forecast.sigma f = (1 / 10000)%R
       /\ Forecast.base f = (100 * exp (3 / 1000))%R
       /\ Forecast.bull f = Forecast.base f
       /\ Forecast.bear f = Forecast.base f
       /\ (100 < Forecast.base f)%R
       /\ Forecast.base f <> 100%R
       /\ Forecast.prob f = 1%R.
Proof.
  split.
  { intros gauss target. split.
    - apply (constant_series_simulation gauss 100 target 3 30 5000);
        [rlra | lia | lia].
    - change 5000%nat with (S 4999).
      destruct (simulate_head gauss 0 (1 / 10000) 100 30 4999) as [rest E].
      exists rest. rewrite E. f_equal. f_equal. f_equal. ring. }
  pose proof (constant_series_forecast 1 100 (1002 / 10) 3 30 5000) as H.
  cbv zeta in H.
  assert (Hv : (100 * exp (INR 30 * (0 + Forecast.min_sigma * 1))
                = 100 * exp (3 / 1000))%R).
  { f_equal. f_equal. rewrite INR_IZR_INZ. unfold Forecast.min_sigma.
    change (IZR (Z.of_nat 30)) with 30%R. field. }
  rewrite Hv in H.
  assert (Hgt : (1003 / 10 < 100 * exp (3 / 1000))%R).
  { assert (H3 : (3 / 1000 <> 0)%R) by rlra.
    pose proof (exp_ineq1 (3 / 1000) H3). rlra. }
  eexists. split.
  - apply H; [rlra | lia | lia].
  - cbn [Forecast.sigma Forecast.base Forecast.bull Forecast.bear
         Forecast.prob].
    split; [reflexivity|]. split; [reflexivity|].
    split; [reflexivity|]. split; [reflexivity|].
    split; [rlra|]. split; [rlra|].
    apply exceed_fraction_repeat_above; [lia | rlra].
Qed.

(** ** Further properties of the decision scorer *)

Section ScorerStructure.

Import Report Feedback.

Variable fmt : Q -> string.

Lemma append_app {A : Type} (ws : list A) (w : A) :
  Py.append ws w = (ws ++ [w])%list.
Proof. reflexivity. Qed.

(** Each filter adds to the running score and appends to the running
    warnings what it yields from a zero score and no warnings. *)
Lemma rsi_fb_shift (r : Report.t) (s : Q) (ws : list string) :
  fst (rsi_fb fmt r s ws) == s + fst (rsi_fb fmt r 0 [])
  /\ snd (rsi_fb fmt r s ws) = (ws ++ snd (rsi_fb fmt r 0 []))%list.
Proof.
  unfold rsi_fb.
  destruct (String.eqb (divergenza (r_rsi r)) "nessuna");
    [|destruct (String.eqb (divergenza (r_rsi r)) "positiva");
      [|destruct (String.eqb (divergenza (r_rsi r)) "negativa")]];
    destruct (Py.Qlt_bool 70 (valore (r_rsi r)));
    try destruct (Py.Qlt_bool (valore (r_rsi r)) 30);
    cbn [fst snd]; rewrite ?append_app, <- ?app_assoc, ?app_nil_r;
    (split; [ring | reflexivity]).
Qed.

Lemma volumes_fb_shift (r : Report.t) (s : Q) (ws : list string) :
  fst (volumes_fb r s ws) == s + fst (volumes_fb r 0 [])
  /\ snd (volumes_fb r s ws) = (ws ++ snd (volumes_fb r 0 []))%list.
Proof.
  unfold volumes_fb.
  destruct (Py.Qlt_bool 10 (sopra_media_perc (r_volumi r)));
    [|destruct (Py.Qlt_bool (sopra_media_perc (r_volumi r)) (-10))];
    destruct (Py.Qlt_bool 20 (spike_supporto_perc (r_volumi r)));
    cbn [fst snd]; rewrite ?append_app, <- ?app_assoc, ?app_nil_r;
    (split; [ring | reflexivity]).
Qed.

Lemma montecarlo_fb_shift (r : Report.t) (s : Q) (ws : list string) :
  fst (montecarlo_fb fmt r s ws) == s + fst (montecarlo_fb fmt r 0 [])
  /\ snd (montecarlo_fb fmt r s ws)
     = (ws ++ snd (montecarlo_fb fmt r 0 []))%list.
Proof.
  unfold montecarlo_fb.
  destruct (Py.Qlt_bool 60 (prob_Bx_gt_target (r_montecarlo r)));
    [|destruct (Py.Qlt_bool (prob_Bx_gt_target (r_montecarlo r)) 30)];
    cbn [fst snd]; rewrite ?append_app, ?app_nil_r;
    (split; [ring | reflexivity]).
Qed.

Lemma fibo_fb_shift (cp : option Q) (r : Report.t) (s : Q) (ws : list string)
    (s' : Q) (ws' : list string) :
  fibo_fb cp r s ws = inr (s', ws') ->
  exists pf wf,
    fibo_fb cp r 0 [] = inr (pf, wf)
    /\ s' == s + pf /\ ws' = (ws ++ wf)%list.
Proof.
  unfold fibo_fb.
  destruct (Py.min _) as [e | lo]; [discriminate|].
  destruct (Py.max _) as [e | hi]; [discriminate|]. cbn [Py.bind].
  destruct (Qle_bool _ (Py.fmul lo _));
    [|destruct (Qle_bool (Py.fmul hi _) _)];
    intro H; injection H as <- <-; do 2 eexists;
    (split; [reflexivity|]); rewrite ?append_app, ?app_nil_r;
    (split; [ring | reflexivity]).
Qed.

(** The anatomy of a successful run of the scorer. *)
Lemma ta_report_feedback_anatomy (r : Report.t) (cp : option Q)
    (d : decision) :
  ta_report_feedback fmt r cp = inr d ->
  exists (pf raw : Q) (wf : list string) (fbk : string) (pc : Q),
    fibo_fb cp r 0 [] = inr (pf, wf)
    /\ raw == fst (rsi_fb fmt r 0 []) + pf + fst (volumes_fb r 0 [])
              + fst (montecarlo_fb fmt r 0 [])
    /\ suggestion_fb 4 raw = inr (fbk, pc, suggested_action d)
    /\ feedback d = fbk
    /\ score d = Py.round raw 2
    /\ max_score d = 4
    /\ warnings d
       = (snd (rsi_fb fmt r 0 []) ++ wf ++ snd (volumes_fb r 0 [])
          ++ snd (montecarlo_fb fmt r 0 []))%list.
Proof.
  unfold ta_report_feedback.
  destruct (rsi_fb fmt r 0 []) as [s1 w1] eqn:E1.
  destruct (fibo_fb cp r s1 w1) as [e | [s2 w2]] eqn:E2; [discriminate|].
  cbn [Py.bind].
  pose proof (volumes_fb_shift r s2 w2) as [H3 H3'].
  destruct (volumes_fb r s2 w2) as [s3 w3]. cbn [fst snd] in H3, H3'.
  pose proof (montecarlo_fb_shift r s3 w3) as [H4 H4'].
  destruct (montecarlo_fb fmt r s3 w3) as [s4 w4]. cbn [fst snd] in H4, H4'.
  destruct (suggestion_fb 4 s4) as [e | [[fbk pc] act]] eqn:E5;
    [discriminate|]. cbn [Py.bind].
  intro H. injection H as <-.
  destruct (fibo_fb_shift cp r s1 w1 s2 w2 E2) as (pf & wf & Ef & H2 & H2').
  exists pf, s4, wf, fbk, pc.
  cbn [score max_score feedback warnings suggested_action fst snd].
  split; [exact Ef|]. split.
  { rewrite H4, H3, H2. ring. }
  split; [exact E5|]. do 3 (split; [reflexivity|]).
  rewrite H4', H3', H2'. now rewrite <- !app_assoc.
Qed.

End ScorerStructure.

(** The sum of the four filters' points is a half-integer, so rounding it to
    two decimals changes nothing. *)
Lemma raw_score_rounds (fmt : Q -> string) (r : Report.t) (cp : option Q)
    (pf raw : Q) (wf : list string) :
  Feedback.fibo_fb cp r 0 [] = inr (pf, wf) ->
  raw == fst (Feedback.rsi_fb fmt r 0 []) + pf
         + fst (Feedback.volumes_fb r 0 [])
         + fst (Feedback.montecarlo_fb fmt r 0 []) ->
  Py.round raw 2 == raw.
Proof.
  intros Ef Hraw.
  assert (Hne : Report.fibonacci (Report.r_supporti r) <> []).
  { intro Hnil. unfold Feedback.fibo_fb in Ef. rewrite Hnil in Ef.
    discriminate Ef. }
  destruct (fibo_fb_contribution cp r 0 [] Hne) as (pf' & wf' & Ef' & Hpf).
  rewrite Ef in Ef'. injection Ef' as <- <-.
  pose proof (rsi_fb_contribution fmt r 0 []) as H1.
  pose proof (volumes_fb_contribution r 0 []) as H3.
  pose proof (montecarlo_fb_contribution fmt r 0 []) as H4.
  cbv zeta in H3, H4.
  apply half_step_from_zero in H1. destruct H1 as [i [Hi Hx]].
  assert (Hm : exists j : Z, raw == inject_Z j / 2).
  { destruct Hpf as [Hpf | Hpf], H3 as [H3 | H3], H4 as [H4 | H4];
      [exists i | exists (i + 2)%Z | exists (i + 2)%Z | exists (i + 4)%Z
       | exists (i + 2)%Z | exists (i + 4)%Z | exists (i + 4)%Z
       | exists (i + 6)%Z];
      rewrite Hraw, ?inject_Z_plus; qlra. }
  destruct Hm as [j Hj]. exact (round_half_multiple raw j Hj).
Qed.

Lemma suggestion_fb_cases (max_score score : Q) :
  ~ max_score == 0 ->
  let p := score / max_score * 100 in
  (75 <= p /\ Feedback.suggestion_fb max_score score
              = inr (Feedback.fb_enter, p, "entra"))
  \/ (50 <= p /\ p < 75
      /\ Feedback.suggestion_fb max_score score
         = inr (Feedback.fb_wait, p, "aspetta"))
  \/ (p < 50 /\ Feedback.suggestion_fb max_score score
               = inr (Feedback.fb_avoid, p, "evita")).
Proof.
  intros Hm p. unfold Feedback.suggestion_fb. fold p.
  destruct (Qeq_bool max_score 0) eqn:E;
    [apply Qeq_bool_iff in E; contradiction|].
  destruct (Qle_bool 75 p) eqn:E75.
  - left. apply Qle_bool_iff in E75. now split.
  - apply Qle_bool_false in E75. destruct (Qle_bool 50 p) eqn:E50.
    + right; left. apply Qle_bool_iff in E50. now repeat split.
    + right; right. apply Qle_bool_false in E50. now split.
Qed.

(** X1: the action and the feedback sentence can be read off the returned
    score: "entra" with the favourable sentence exactly from 3 points up,
    "aspetta" with the mixed sentence exactly from 2 up to below 3, "evita"
    with the unfavourable sentence exactly below 2. *)
Theorem action_follows_score :
  forall (fmt : Q -> string) (r : Report.t) (cp : option Q)
         (d : Feedback.decision),
    Feedback.ta_report_feedback fmt r cp = inr d ->
    (Feedback.suggested_action d = "entra" <-> 3 <= Feedback.score d)
    /\ (Feedback.suggested_action d = "aspetta"
        <-> 2 <= Feedback.score d /\ Feedback.score d < 3)
    /\ (Feedback.suggested_action d = "evita" <-> Feedback.score d < 2)
    /\ (Feedback.feedback d = Feedback.fb_enter <-> 3 <= Feedback.score d)
    /\ (Feedback.feedback d = Feedback.fb_wait
        <-> 2 <= Feedback.score d /\ Feedback.score d < 3)
    /\ (Feedback.feedback d = Feedback.fb_avoid <-> Feedback.score d < 2).
Proof.
  intros fmt r cp d Hd.
  destruct (ta_report_feedback_anatomy fmt r cp d Hd)
    as (pf & raw & wf & fbk & pc & Ef & Hraw & Hs & Hfb & Hsc & _ & _).
  assert (Hround : Feedback.score d == raw)
    by (rewrite Hsc; exact (raw_score_rounds fmt r cp pf raw wf Ef Hraw)).
  assert (H4 : ~ 4 == 0) by discriminate.
  pose proof (suggestion_fb_cases 4 raw H4) as Hcases. cbv zeta in Hcases.
  rewrite Hs in Hcases. rewrite Hfb. rewrite Hround.
  destruct Hcases as [[Hp E] | [[Hp1 [Hp2 E]] | [Hp E]]];
    injection E as -> _ ->;
    repeat split; intros; try discriminate; try reflexivity;
    try (exfalso; qlra); try qlra.
Qed.

Lemma action_follows_score_witness :
  exists d,
    Feedback.ta_report_feedback Props.no_fmt
      (Props.sample_report 100 50 "negativa" 15 0 70) None = inr d
    /\ (Feedback.suggested_action d = "entra" <-> 3 <= Feedback.score d)
    /\ Feedback.score d == 3.
Proof.
  compute_result
    (Feedback.ta_report_feedback Props.no_fmt
       (Props.sample_report 100 50 "negativa" 15 0 70) None) E.
  eexists. split; [exact E|]. split.
  - exact (proj1 (action_follows_score Props.no_fmt
             (Props.sample_report 100 50 "negativa" 15 0 70) None _ E)).
  - vm_compute. reflexivity.
Defined.

Lemma rsi_fb_warning_count (fmt : Q -> string) (r : Report.t) :
  (List.length (snd (Feedback.rsi_fb fmt r 0 [])) <= 2)%nat.
Proof.
  unfold Feedback.rsi_fb.
  destruct (String.eqb _ "nessuna");
    [|destruct (String.eqb _ "positiva"); [|destruct (String.eqb _ "negativa")]];
    destruct (Py.Qlt_bool 70 _); try destruct (Py.Qlt_bool _ 30);
    cbn; lia.
Qed.

Lemma volumes_fb_warning_count (r : Report.t) :
  (List.length (snd (Feedback.volumes_fb r 0 [])) <= 2)%nat.
Proof.
  unfold Feedback.volumes_fb.
  destruct (Py.Qlt_bool 10 _); [|destruct (Py.Qlt_bool _ (-10))];
    destruct (Py.Qlt_bool 20 _); cbn; lia.
Qed.

Lemma montecarlo_fb_warning_count (fmt : Q -> string) (r : Report.t) :
  (List.length (snd (Feedback.montecarlo_fb fmt r 0 [])) <= 1)%nat.
Proof.
  unfold Feedback.montecarlo_fb.
  destruct (Py.Qlt_bool 60 _); [|destruct (Py.Qlt_bool _ 30)]; cbn; lia.
Qed.

Lemma fibo_fb_warning_count (cp : option Q) (r : Report.t) (pf : Q)
    (wf : list string) :
  Feedback.fibo_fb cp r 0 [] = inr (pf, wf) -> (List.length wf <= 1)%nat.
Proof.
  unfold Feedback.fibo_fb.
  destruct (Py.min _) as [e | lo]; [discriminate|].
  destruct (Py.max _) as [e | hi]; [discriminate|]. cbn [Py.bind].
  destruct (Qle_bool _ (Py.fmul lo _));
    [|destruct (Qle_bool (Py.fmul hi _) _)];
    intro H; injection H as <- <-; cbn; lia.
Qed.

(** X2: the filters do not interfere.  The warnings of a decision are the
    warnings of the momentum, support, volume and forecast filters, in that
    order, each as the filter yields them on its own; there are at most six;
    and the score is the sum of the four filters' own points. *)
Theorem warnings_follow_filter_order :
  forall (fmt : Q -> string) (r : Report.t) (cp : option Q)
         (d : Feedback.decision),
    Feedback.ta_report_feedback fmt r cp = inr d ->
    exists (pf : Q) (wf : list string),
      Feedback.fibo_fb cp r 0 [] = inr (pf, wf)
      /\ Feedback.warnings d
         = (snd (Feedback.rsi_fb fmt r 0 []) ++ wf
            ++ snd (Feedback.volumes_fb r 0 [])
            ++ snd (Feedback.montecarlo_fb fmt r 0 []))%list
      /\ Feedback.score d
         == fst (Feedback.rsi_fb fmt r 0 []) + pf
            + fst (Feedback.volumes_fb r 0 [])
            + fst (Feedback.montecarlo_fb fmt r 0 [])
      /\ (List.length (Feedback.warnings d) <= 6)%nat.
Proof.
  intros fmt r cp d Hd.
  destruct (ta_report_feedback_anatomy fmt r cp d Hd)
    as (pf & raw & wf & fbk & pc & Ef & Hraw & _ & _ & Hsc & _ & Hw).
  exists pf, wf. split; [exact Ef|]. split; [exact Hw|]. split.
  - rewrite Hsc, (raw_score_rounds fmt r cp pf raw wf Ef Hraw). exact Hraw.
  - rewrite Hw, !length_app.
    pose proof (rsi_fb_warning_count fmt r).
    pose proof (fibo_fb_warning_count cp r pf wf Ef).
    pose proof (volumes_fb_warning_count r).
    pose proof (montecarlo_fb_warning_count fmt r). lia.
Qed.

Lemma warnings_follow_filter_order_witness :
  exists d,
    Feedback.ta_report_feedback Props.no_fmt
      (Props.sample_report 100 25 "positiva" 15 30 70) None = inr d
    /\ Feedback.warnings d
       = [ Feedback.w_div_pos; Feedback.w_rsi_low Props.no_fmt 25;
           Feedback.w_near_support; Feedback.w_vol_above;
           Feedback.w_vol_spike; Feedback.w_mc_high Props.no_fmt 70 ]
    /\ (List.length (Feedback.warnings d) <= 6)%nat.
Proof.
  compute_result
    (Feedback.ta_report_feedback Props.no_fmt
       (Props.sample_report 100 25 "positiva" 15 30 70) None) E.
  eexists. split; [exact E|]. split; [vm_compute; reflexivity|].
  destruct (warnings_follow_filter_order Props.no_fmt
              (Props.sample_report 100 25 "positiva" 15 30 70) None _ E)
    as (pf & wf & _ & _ & _ & Hlen).
  exact Hlen.
Defined.

Lemma fibo_fb_points (cp : option Q) (r : Report.t) (pf : Q)
    (wf : list string) :
  Feedback.fibo_fb cp r 0 [] = inr (pf, wf) ->
  exists lo,
    Py.min (map snd (Report.fibonacci (Report.r_supporti r))) = inr lo
    /\ ((Props.price_used cp r <= Py.fmul lo Feedback.f_1_02 /\ pf == 1)
        \/ (Py.fmul lo Feedback.f_1_02 < Props.price_used cp r /\ pf == 0)).
Proof.
  unfold Feedback.fibo_fb.
  destruct (Py.min _) as [e | lo]; [discriminate|].
  destruct (Py.max _) as [e | hi]; [discriminate|]. cbn [Py.bind].
  fold (Props.price_used cp r). intro H. exists lo. split; [reflexivity|].
  destruct (Qle_bool _ (Py.fmul lo _)) eqn:E.
  - injection H as <- _. left. apply Qle_bool_iff in E. split; [exact E | ring].
  - apply Qle_bool_false in E. right.
    destruct (Qle_bool (Py.fmul hi _) _); injection H as <- _;
      (split; [exact E | reflexivity]).
Qed.

(** X3: a lower current price never lowers the score: of two decisions on
    the same report, the one taken at the lower price (supplied, or the
    forecast's base case when none is) has at least the score of the
    other. *)
Theorem cheaper_price_never_lowers_score :
  forall (fmt : Q -> string) (r : Report.t) (cp cp' : option Q)
         (d d' : Feedback.decision),
    Props.price_used cp' r <= Props.price_used cp r ->
    Feedback.ta_report_feedback fmt r cp = inr d ->
    Feedback.ta_report_feedback fmt r cp' = inr d' ->
    Feedback.score d <= Feedback.score d'.
Proof.
  intros fmt r cp cp' d d' Hle Hd Hd'.
  destruct (ta_report_feedback_anatomy fmt r cp d Hd)
    as (pf & raw & wf & fbk & pc & Ef & Hraw & _ & _ & Hsc & _ & _).
  destruct (ta_report_feedback_anatomy fmt r cp' d' Hd')
    as (pf' & raw' & wf' & fbk' & pc' & Ef' & Hraw' & _ & _ & Hsc' & _ & _).
  rewrite Hsc, Hsc'.
  rewrite (raw_score_rounds fmt r cp pf raw wf Ef Hraw).
  rewrite (raw_score_rounds fmt r cp' pf' raw' wf' Ef' Hraw').
  destruct (fibo_fb_points cp r pf wf Ef) as (lo & Hlo & Hp).
  destruct (fibo_fb_points cp' r pf' wf' Ef') as (lo' & Hlo' & Hp').
  rewrite Hlo in Hlo'. injection Hlo' as <-.
  rewrite Hraw, Hraw'.
  destruct Hp as [[H1 H2] | [H1 H2]], Hp' as [[H1' H2'] | [H1' H2']]; qlra.
Qed.

Lemma cheaper_price_never_lowers_score_witness :
  exists d d',
    Feedback.ta_report_feedback Props.no_fmt
      (Props.sample_report 100 50 "nessuna" 0 0 50) (Some 150) = inr d
    /\ Feedback.ta_report_feedback Props.no_fmt
         (Props.sample_report 100 50 "nessuna" 0 0 50) (Some 101) = inr d'
    /\ Feedback.score d <= Feedback.score d'
    /\ Feedback.score d == 1 /\ Feedback.score d' == 2.
Proof.
  compute_result
    (Feedback.ta_report_feedback Props.no_fmt
       (Props.sample_report 100 50 "nessuna" 0 0 50) (Some 150)) E.
  compute_result
    (Feedback.ta_report_feedback Props.no_fmt
       (Props.sample_report 100 50 "nessuna" 0 0 50) (Some 101)) E'.
  eexists. eexists. split; [exact E|]. split; [exact E'|]. split.
  - apply (cheaper_price_never_lowers_score Props.no_fmt
             (Props.sample_report 100 50 "nessuna" 0 0 50)
             (Some 150) (Some 101) _ _);
      [vm_compute; discriminate | exact E | exact E'].
  - split; vm_compute; reflexivity.
Defined.

(** X4: the momentum filter gives its point exactly for the labels
    "nessuna" and "positiva" (any other label, "negativa" included, earns
    none), gives the 0.5 bonus exactly when the oscillator is below 30,
    whatever the label, and never appends the overbought and the oversold
    warning together. *)
Theorem rsi_fb_points_and_warnings :
  forall (fmt : Q -> string) (r : Report.t) (s : Q) (ws : list string),
    let label := Report.divergenza (Report.r_rsi r) in
    let v := Report.valore (Report.r_rsi r) in
    let gain := fst (Feedback.rsi_fb fmt r s ws) - s in
    let added := snd (Feedback.rsi_fb fmt r 0 []) in
    (1 <= gain <-> label = "nessuna" \/ label = "positiva")
    /\ (gain == 1 # 2 \/ gain == 3 # 2 <-> v < 30)
    /\ snd (Feedback.rsi_fb fmt r s ws) = (ws ++ added)%list
    /\ (In (Feedback.w_rsi_high fmt v) added <-> 70 < v)
    /\ (In (Feedback.w_rsi_low fmt v) added <-> v < 30)
    /\ ~ (In (Feedback.w_rsi_high fmt v) added
          /\ In (Feedback.w_rsi_low fmt v) added).
Proof.
  intros fmt r s ws label v gain added.
  assert (Hhigh : In (Feedback.w_rsi_high fmt v) added <-> 70 < v).
  { subst added. unfold Feedback.rsi_fb. fold label. fold v.
    destruct (String.eqb label "nessuna");
      [|destruct (String.eqb label "positiva");
        [|destruct (String.eqb label "negativa")]];
      lt_cases; cbn; unfold Feedback.w_rsi_high, Feedback.w_rsi_low,
                       Feedback.w_div_pos, Feedback.w_div_neg; cbn;
      split; intro H;
      repeat match goal with
             | H : _ \/ _ |- _ => destruct H as [H | H]
             | H : False |- _ => destruct H
             | H : String _ _ = String _ _ |- _ => discriminate H
             end;
      try assumption; try (exfalso; qlra); try (now left);
      try (now right; left). }
  assert (Hlow : In (Feedback.w_rsi_low fmt v) added <-> v < 30).
  { subst added. unfold Feedback.rsi_fb. fold label. fold v.
    destruct (String.eqb label "nessuna");
      [|destruct (String.eqb label "positiva");
        [|destruct (String.eqb label "negativa")]];
      lt_cases; cbn; unfold Feedback.w_rsi_high, Feedback.w_rsi_low,
                       Feedback.w_div_pos, Feedback.w_div_neg; cbn;
      split; intro H;
      repeat match goal with
             | H : _ \/ _ |- _ => destruct H as [H | H]
             | H : False |- _ => destruct H
             | H : String _ _ = String _ _ |- _ => discriminate H
             end;
      try assumption; try (exfalso; qlra); try (now left);
      try (now right; left). }
  split; [|split; [|split; [|split; [exact Hhigh | split; [exact Hlow|]]]]].
  - subst gain. unfold Feedback.rsi_fb. fold label. fold v.
    destruct (String.eqb label "nessuna") eqn:E1;
      [apply String.eqb_eq in E1
      |apply String.eqb_neq in E1;
       destruct (String.eqb label "positiva") eqn:E2;
       [apply String.eqb_eq in E2
       |apply String.eqb_neq in E2;
        destruct (String.eqb label "negativa")]];
      lt_cases; cbn [fst]; split; intro H;
      try (now left); try (now right); try qlra;
      try (exfalso; qlra); try (destruct H; contradiction).
  - subst gain. unfold Feedback.rsi_fb. fold label. fold v.
    destruct (String.eqb label "nessuna");
      [|destruct (String.eqb label "positiva");
        [|destruct (String.eqb label "negativa")]];
      lt_cases; cbn [fst]; split; intro H;
      try assumption; try (exfalso; qlra);
      try (destruct H as [H | H]; exfalso; qlra);
      try (left; qlra); try (right; qlra).
  - exact (proj2 (rsi_fb_shift fmt r s ws)).
  - intros [H1 H2]. apply Hhigh in H1. apply Hlow in H2. qlra.
Qed.

Lemma app_one_neq {A : Type} (ws : list A) (w : A) : (ws ++ [w])%list <> ws.
Proof.
  intro H. apply (f_equal (@List.length A)) in H.
  rewrite length_app in H. cbn in H. lia.
Qed.

(** X5: the forecast filter is silent exactly on the closed band from 30 to
    60: it returns the score and the warnings untouched if and only if the
    probability lies there; it gives its point exactly above 60, and below
    30 it only warns. *)
Theorem montecarlo_fb_silent_band :
  forall (fmt : Q -> string) (r : Report.t) (s : Q) (ws : list string),
    let prob := Report.prob_Bx_gt_target (Report.r_montecarlo r) in
    (Feedback.montecarlo_fb fmt r s ws = (s, ws)
     <-> 30 <= prob /\ prob <= 60)
    /\ (Feedback.montecarlo_fb fmt r s ws
        = (s + 1, ws ++ [Feedback.w_mc_high fmt prob])%list
        <-> 60 < prob)
    /\ (Feedback.montecarlo_fb fmt r s ws
        = (s, ws ++ [Feedback.w_mc_low fmt prob])%list
        <-> prob < 30).
Proof.
  intros fmt r s ws prob. unfold Feedback.montecarlo_fb. fold prob.
  rewrite !append_app.
  assert (Hs : forall w : string, (s + 1, (ws ++ [w])%list) <> (s, ws)).
  { intros w H. injection H as _ H. exact (app_one_neq ws w H). }
  assert (Hw : forall w : string, (s, (ws ++ [w])%list) <> (s, ws)).
  { intros w H. injection H as H. exact (app_one_neq ws w H). }
  assert (Hd : forall w w' : string,
             (s + 1, (ws ++ [w])%list) <> (s, (ws ++ [w'])%list)).
  { intros w w' H. injection H as H _.
    assert (H' : s + 1 == s) by (rewrite H; reflexivity). qlra. }
  assert (Hd' : forall w w' : string,
             (s, (ws ++ [w'])%list) <> (s + 1, (ws ++ [w])%list)).
  { intros w w' H. symmetry in H. exact (Hd w w' H). }
  lt_cases; repeat split; intros;
    try reflexivity; try qlra;
    try (exfalso; qlra);
    try (exfalso; eapply Hs; eassumption);
    try (exfalso; eapply Hw; eassumption);
    try (exfalso; eapply Hd; eassumption);
    try (exfalso; eapply Hd'; eassumption);
    try (exfalso; eapply Hs; symmetry; eassumption);
    try (exfalso; eapply Hw; symmetry; eassumption);
    try (match goal with H : _ /\ _ |- _ => destruct H; exfalso; qlra end).
Qed.

(** ** The support filter on computed Fibonacci levels *)

Lemma py_min_is_minimum (xs : list Q) (m : Q) :
  Py.min xs = inr m -> Props.is_minimum m xs.
Proof.
  destruct xs as [|x rest]; [discriminate|]. intro H. injection H as <-.
  revert x. induction rest as [|y ys IH]; intro x; cbn [fold_left].
  - split; [now left|]. intros z [<- | []]. apply Qle_refl.
  - destruct (Py.Qlt_bool y x) eqn:E.
    + apply Qlt_bool_true in E. destruct (IH y) as [Hin Hlb]. split.
      * destruct Hin as [<- | Hin]; [now right; left | now right; right].
      * intros z [Hz | [Hz | Hz]].
        -- rewrite <- Hz. apply Qle_trans with y; [apply Hlb; now left | qlra].
        -- apply Hlb. now left.
        -- apply Hlb. now right.
    + apply Qlt_bool_false in E. destruct (IH x) as [Hin Hlb]. split.
      * destruct Hin as [<- | Hin]; [now left | now right; right].
      * intros z [Hz | [Hz | Hz]].
        -- apply Hlb. now left.
        -- rewrite <- Hz. apply Qle_trans with x; [apply Hlb; now left | exact E].
        -- apply Hlb. now right.
Qed.

Lemma py_max_is_maximum (xs : list Q) (m : Q) :
  Py.max xs = inr m -> Props.is_maximum m xs.
Proof.
  destruct xs as [|x rest]; [discriminate|]. intro H. injection H as <-.
  revert x. induction rest as [|y ys IH]; intro x; cbn [fold_left].
  - split; [now left|]. intros z [<- | []]. apply Qle_refl.
  - destruct (Py.Qlt_bool x y) eqn:E.
    + apply Qlt_bool_true in E. destruct (IH y) as [Hin Hub]. split.
      * destruct Hin as [<- | Hin]; [now right; left | now right; right].
      * intros z [Hz | [Hz | Hz]].
        -- rewrite <- Hz. apply Qle_trans with y; [qlra | apply Hub; now left].
        -- apply Hub. now left.
        -- apply Hub. now right.
    + apply Qlt_bool_false in E. destruct (IH x) as [Hin Hub]. split.
      * destruct Hin as [<- | Hin]; [now left | now right; right].
      * intros z [Hz | [Hz | Hz]].
        -- apply Hub. now left.
        -- rewrite <- Hz. apply Qle_trans with x; [exact E | apply Hub; now left].
        -- apply Hub. now right.
Qed.

(** X6: fed with the levels [fibonacci_retracement] computes, the support
    filter compares the price with the extreme closes of the lookback
    window: a price of at most the float product of the lowest close by
    1.02 earns the point and the near-support warning; otherwise a price of
    at least the float product of the highest close by 0.98 earns the
    near-resistance warning; otherwise nothing changes. *)
Theorem fibo_fb_on_computed_levels :
  forall (closes : list Q) (lookback : nat) (levels : list (string * Q))
         (r : Report.t) (cp : option Q) (s : Q) (ws : list string),
    TechnicalAnalysis.fibonacci_retracement closes lookback = Some levels ->
    Report.fibonacci (Report.r_supporti r) = levels ->
    exists hi lo : Q,
      Props.is_maximum hi (Py.last_n lookback closes)
      /\ Props.is_minimum lo (Py.last_n lookback closes)
      /\ let price := Props.price_used cp r in
         let near_support := Py.fmul lo Feedback.f_1_02 in
         let near_resistance := Py.fmul hi Feedback.f_0_98 in
         (price <= near_support ->
          Feedback.fibo_fb cp r s ws
          = inr (s + 1, (ws ++ [Feedback.w_near_support])%list))
         /\ (near_support < price -> near_resistance <= price ->
             Feedback.fibo_fb cp r s ws
             = inr (s, (ws ++ [Feedback.w_near_resistance])%list))
         /\ (near_support < price -> price < near_resistance ->
             Feedback.fibo_fb cp r s ws = inr (s, ws)).
Proof.
  intros closes lookback levels r cp s ws Hfib Hr.
  unfold TechnicalAnalysis.fibonacci_retracement in Hfib.
  destruct (Py.last_n lookback closes) as [|x w]; [discriminate|].
  cbn [TechnicalAnalysis.series_max TechnicalAnalysis.series_min] in Hfib.
  pose proof (fold_Qmax_is_maximum w x) as Hmax.
  pose proof (fold_Qmin_is_minimum w x) as Hmin.
  set (hi := fold_left Qmax w x) in *.
  set (lo := fold_left Qmin w x) in *.
  assert (Hle : lo <= hi) by (apply (proj2 Hmax), (proj1 Hmin)).
  injection Hfib as <-.
  exists hi, lo. split; [exact Hmax|]. split; [exact Hmin|].
  unfold Feedback.fibo_fb. rewrite Hr. cbn [map snd].
  fold (Props.price_used cp r).
  match goal with
  | |- context [Py.min ?l] =>
      destruct (Py.min l) as [e | m] eqn:Em; [discriminate Em|];
      destruct (Py.max l) as [e | M] eqn:EM; [discriminate EM|];
      pose proof (py_min_is_minimum l m Em) as [Hmi Hml];
      pose proof (py_max_is_maximum l M EM) as [HMi HMu]
  end.
  assert (Hm : m == lo).
  { apply Qle_antisym.
    - apply Hml. cbn. tauto.
    - cbn in Hmi.
      repeat (destruct Hmi as [<- | Hmi]; [qlra|]). destruct Hmi. }
  assert (HM : M == hi).
  { apply Qle_antisym.
    - cbn in HMi.
      repeat (destruct HMi as [<- | HMi]; [qlra|]). destruct HMi.
    - apply HMu. cbn. tauto. }
  cbn [Py.bind]. rewrite !append_app.
  set (price := Props.price_used cp r).
  assert (Hm' : Py.fmul m Feedback.f_1_02 == Py.fmul lo Feedback.f_1_02)
    by (apply binary64_comp; now rewrite Hm).
  assert (HM' : Py.fmul M Feedback.f_0_98 == Py.fmul hi Feedback.f_0_98)
    by (apply binary64_comp; now rewrite HM).
  cbv zeta. split; [|split].
  - intro H. assert (E : Qle_bool price (Py.fmul m Feedback.f_1_02) = true)
      by (apply Qle_bool_iff; rewrite Hm'; exact H).
    now rewrite E.
  - intros H1 H2.
    assert (E1 : Qle_bool price (Py.fmul m Feedback.f_1_02) = false)
      by (apply Qle_bool_false; rewrite Hm'; exact H1).
    assert (E2 : Qle_bool (Py.fmul M Feedback.f_0_98) price = true)
      by (apply Qle_bool_iff; rewrite HM'; exact H2).
    now rewrite E1, E2.
  - intros H1 H2.
    assert (E1 : Qle_bool price (Py.fmul m Feedback.f_1_02) = false)
      by (apply Qle_bool_false; rewrite Hm'; exact H1).
    assert (E2 : Qle_bool (Py.fmul M Feedback.f_0_98) price = false)
      by (apply Qle_bool_false; rewrite HM'; exact H2).
    now rewrite E1, E2.
Qed.

Lemma fibo_fb_on_computed_levels_witness :
  exists levels,
    TechnicalAnalysis.fibonacci_retracement [3; 1; 2] 0 = Some levels
    /\ exists hi lo : Q,
         Props.is_maximum hi (Py.last_n 0 [3; 1; 2])
         /\ Props.is_minimum lo (Py.last_n 0 [3; 1; 2])
         /\ hi == 3 /\ lo == 1.
Proof.
  eexists. split; [reflexivity|].
  destruct (fibo_fb_on_computed_levels [3; 1; 2] 0 _
              {| Report.r_supporti :=
                   {| Report.fibonacci :=
                        [ ("0.0%", 3); ("23.6%", 3 - (236 # 1000) * (3 - 1));
                          ("38.2%", 3 - (382 # 1000) * (3 - 1));
                          ("50.0%", 3 - (5 # 10) * (3 - 1));
                          ("61.8%", 3 - (618 # 1000) * (3 - 1));
                          ("78.6%", 3 - (786 # 1000) * (3 - 1));
                          ("100.0%", 1) ];
                      Report.cluster_minimi := [] |};
                 Report.r_rsi := {| Report.valore := 50;
                                    Report.divergenza := "nessuna" |};
                 Report.r_volumi := {| Report.sopra_media_perc := 0;
                                       Report.spike_supporto_perc := 0 |};
                 Report.r_montecarlo :=
                   {| Report.prob_Bx_gt_target := 50; Report.bull_case := 2;
                      Report.base_case := 2; Report.bear_case := 2;
                      Report.volatilita_giornaliera := 1 |} |}
              None 0 [] eq_refl eq_refl)
    as (hi & lo & Hmax & Hmin & _).
  exists hi, lo. split; [exact Hmax|]. split; [exact Hmin|].
  destruct Hmax as [Hi Hu], Hmin as [Hj Hl]. cbn in Hi, Hj.
  split; apply Qle_antisym.
  - destruct Hi as [<- | [<- | [<- | []]]]; discriminate.
  - apply Hu. cbn. tauto.
  - apply Hl. cbn. tauto.
  - destruct Hj as [<- | [<- | [<- | []]]]; discriminate.
Defined.

(** ** From the analysis to the chat *)

Lemma try_block_valid
    (py_int : string -> Py.result Z) (A : Type)
    (calc : Z -> Z -> Z -> Z -> string -> Py.result A)
    (text p0 p1 p2 p3 symbol : string) (s apy t deal : Z) :
  Py.split "," text = [p0; p1; p2; p3; symbol] ->
  py_int p0 = inr s -> py_int p1 = inr apy ->
  py_int p2 = inr t -> py_int p3 = inr deal ->
  (0 < s)%Z -> (0 < apy)%Z -> (0 < t)%Z -> (0 < deal)%Z ->
  (3 <= Py.len symbol)%nat ->
  Main.try_block py_int A calc text = calc s apy t deal symbol.
Proof.
  intros Hsplit H0 H1 H2 H3 Hs Ha Ht Hd Hl.
  unfold Main.try_block. rewrite Hsplit. cbn [List.length Nat.eqb negb nth].
  rewrite H0, H1, H2, H3. cbn [Py.bind].
  apply Z.leb_gt in Hs, Ha, Ht, Hd. apply Nat.ltb_ge in Hl.
  now rewrite Hs, Ha, Ht, Hd, Hl.
Qed.

(** An amount that no float can hold stops the evaluator before the
    analysis is called. *)
Lemma calculate_net_gain_overflow
    (fmt : Q -> string)
    (analysis : string -> string -> Z -> Z -> Py.result Report.t)
    (s apy t deal : Z) (symbol : string) :
  Props.amounts_fit_floats s apy t deal = false ->
  Calculator.calculate_net_gain fmt analysis s apy t deal symbol
  = inl Py.OverflowError.
Proof.
  unfold Props.amounts_fit_floats, Calculator.calculate_net_gain,
    Py.int_truediv, Py.float_of_int.
  change (inject_Z 100) with 100. change (inject_Z 365) with 365.
  cbn [Z.eqb].
  destruct (Py.in_range (inject_Z apy / 100)); [|reflexivity].
  destruct (Py.in_range (inject_Z t / 365)); [|reflexivity].
  destruct (Py.in_range (inject_Z s)); [|reflexivity].
  destruct (Py.in_range (inject_Z deal)); [discriminate | reflexivity].
Qed.

(** With amounts that floats can hold the evaluator is its arithmetic. *)
Lemma calculate_net_gain_fits
    (fmt : Q -> string)
    (analysis : string -> string -> Z -> Z -> Py.result Report.t)
    (s apy t deal : Z) (symbol : string) :
  Props.amounts_fit_floats s apy t deal = true ->
  Calculator.calculate_net_gain fmt analysis s apy t deal symbol
  = (let interest_rate := (inject_Z apy / 100) * (inject_Z t / 365) in
     let interest := inject_Z s * interest_rate in
     let breakeven_price := inject_Z deal * (1 - interest_rate) in
     analysis_report <- analysis symbol "1h" (t * 2)%Z deal ;;
     analysis_feedback <-
       Feedback.ta_report_feedback fmt analysis_report None ;;
     let predicted_price :=
       Report.base_case (Report.r_montecarlo analysis_report) in
     purchase_loss <-
       (if Qle_bool predicted_price (inject_Z deal) then
          if (deal =? 0)%Z then Py.raise Py.ZeroDivisionError
          else Py.ret (inject_Z s * (1 - predicted_price / inject_Z deal))
        else Py.ret 0) ;;
     let net_gain := interest - purchase_loss in
     Py.ret {| Calculator.investment_amount := s;
               Calculator.apy := apy;
               Calculator.time_period := t;
               Calculator.deal_price := deal;
               Calculator.interest_rate := interest_rate;
               Calculator.interest := interest;
               Calculator.analysis_feedback := analysis_feedback;
               Calculator.breakeven_price := breakeven_price;
               Calculator.predicted_price := predicted_price;
               Calculator.purchase_loss := purchase_loss;
               Calculator.net_gain := net_gain |}).
Proof.
  unfold Props.amounts_fit_floats. intro H.
  apply andb_true_iff in H. destruct H as [H Hd].
  apply andb_true_iff in H. destruct H as [H Hs].
  apply andb_true_iff in H. destruct H as [Ha Ht].
  unfold Calculator.calculate_net_gain, Py.int_truediv, Py.float_of_int.
  change (inject_Z 100) with 100. change (inject_Z 365) with 365.
  cbn [Z.eqb]. rewrite Ha, Ht, Hs, Hd. reflexivity.
Qed.

(** Amounts up to [2 ^ 53] are held exactly. *)
Lemma small_amounts_fit (s apy t deal : Z) :
  (0 <= s <= Py.max_exact_int)%Z -> (0 <= apy <= Py.max_exact_int)%Z ->
  (0 <= t <= Py.max_exact_int)%Z -> (0 <= deal <= Py.max_exact_int)%Z ->
  Props.amounts_fit_floats s apy t deal = true.
Proof.
  intros Hs Ha Ht Hd. unfold Props.amounts_fit_floats.
  assert (Hq : forall n : Z, (0 <= n <= Py.max_exact_int)%Z ->
                             0 <= inject_Z n <= inject_Z Py.max_exact_int).
  { intros n [H0 H1]. split; [change 0 with (inject_Z 0)|];
      now rewrite <- Zle_Qle. }
  assert (Hdiv : forall (n : Z) (c : Q),
             (0 <= n <= Py.max_exact_int)%Z -> 1 <= c ->
             Py.in_range (inject_Z n / c) = true).
  { intros n c Hn Hc. destruct (Hq n Hn) as [H0 H1].
    set (M := inject_Z Py.max_exact_int) in *.
    apply in_range_small.
    - apply Qle_shift_div_l; Lqa.lra.
    - apply Qle_shift_div_r; [Lqa.lra|]. fold M. Lqa.nra. }
  rewrite (Hdiv apy 100 Ha), (Hdiv t 365 Ht) by discriminate.
  rewrite !in_range_small; try reflexivity; apply Hq; assumption.
Qed.

Lemma calculate_net_gain_returns
    (fmt : Q -> string)
    (analysis : string -> string -> Z -> Z -> Py.result Report.t)
    (s apy t deal : Z) (symbol : string) (report : Report.t) :
  (0 < deal)%Z ->
  Props.amounts_fit_floats s apy t deal = true ->
  analysis symbol "1h" (t * 2)%Z deal = inr report ->
  Report.fibonacci (Report.r_supporti report) <> [] ->
  exists res,
    Calculator.calculate_net_gain fmt analysis s apy t deal symbol = inr res
    /\ Calculator.predicted_price res
       = Report.base_case (Report.r_montecarlo report)
    /\ Feedback.ta_report_feedback fmt report None
       = inr (Calculator.analysis_feedback res).
Proof.
  intros Hdeal Hfit Hrep Hne. rewrite (calculate_net_gain_fits _ _ _ _ _ _ _ Hfit).
  cbv zeta. rewrite Hrep. cbn [Py.bind].
  destruct (ta_report_feedback_returns fmt report None Hne) as (d & Hd & _).
  rewrite Hd. cbn [Py.bind].
  assert (Hz : (deal =? 0)%Z = false) by (apply Z.eqb_neq; lia). rewrite Hz.
  destruct (Qle_bool _ _); cbn [Py.bind Py.ret]; eexists;
    (split; [reflexivity|]); split; reflexivity.
Qed.



(** ** The deal evaluator: sign and bounds *)

Lemma net_gain_arith (S D rate p : Q) :
  0 < S -> 0 < D -> 0 < rate ->
  let loss := if Qle_bool p D then S * (1 - p / D) else 0 in
  (0 <= S * rate - loss <-> D * (1 - rate) <= p)
  /\ 0 <= loss
  /\ (0 <= p -> loss <= S)
  /\ D * (1 - rate) < D
  /\ S * rate - loss <= S * rate
  /\ 0 < S * rate.
Proof.
  intros HS HD Hr loss.
  assert (Hinv : D * / D == 1) by (apply Qmult_inv_r; Lqa.lra).
  assert (HSr : 0 < S * rate) by (apply Qmult_lt_0_compat; assumption).
  assert (HDr : 0 < D * rate) by (apply Qmult_lt_0_compat; assumption).
  subst loss. unfold Qdiv. set (i := / D) in *.
  assert (Hi : 0 < i) by (subst i; apply Qinv_lt_0_compat; exact HD).
  destruct (Qle_bool p D) eqn:E.
  - apply Qle_bool_iff in E.
    assert (Hq : p * i <= 1).
    { setoid_replace 1 with (D * i) by (symmetry; exact Hinv).
      apply Qmult_le_compat_r; Lqa.lra. }
    assert (Hloss : 0 <= S * (1 - p * i)).
    { apply Qmult_le_0_compat; Lqa.lra. }
    repeat split; try Lqa.lra.
    + intro H.
      assert (Hx : 0 <= rate - 1 + p * i).
      { apply Qnot_lt_le. intro Hneg.
        assert (0 < S * (- (rate - 1 + p * i)))
          by (apply Qmult_lt_0_compat; Lqa.lra).
        Lqa.lra. }
      assert (Hy : 0 <= D * (rate - 1 + p * i))
        by (apply Qmult_le_0_compat; Lqa.lra).
      setoid_replace (D * (rate - 1 + p * i))
        with (D * rate - D + p * (D * i)) in Hy by ring.
      rewrite Hinv in Hy. Lqa.lra.
    + intro H.
      assert (Hy : 0 <= i * (p - D * (1 - rate)))
        by (apply Qmult_le_0_compat; Lqa.lra).
      setoid_replace (i * (p - D * (1 - rate)))
        with (p * i - (D * i) * (1 - rate)) in Hy by ring.
      rewrite Hinv in Hy.
      assert (Hz : 0 <= S * (rate - 1 + p * i))
        by (apply Qmult_le_0_compat; Lqa.lra).
      Lqa.lra.
    + intro Hp. assert (0 <= p * i) by (apply Qmult_le_0_compat; Lqa.lra).
      assert (0 <= S * (p * i)) by (apply Qmult_le_0_compat; Lqa.lra). Lqa.lra.
  - apply Qle_bool_false in E. repeat split; intros; try Lqa.lra.
Qed.

Lemma inject_Z_pos (z : Z) : (0 < z)%Z -> 0 < inject_Z z.
Proof. intro H. rewrite Zlt_Qlt in H. exact H. Qed.

Lemma term_rate_pos (apy t : Z) :
  (0 < apy)%Z -> (0 < t)%Z -> 0 < (inject_Z apy / 100) * (inject_Z t / 365).
Proof.
  intros Ha Ht. apply inject_Z_pos in Ha, Ht.
  apply Qmult_lt_0_compat; apply Qlt_shift_div_l;
    try reflexivity; rewrite Qmult_0_l; assumption.
Qed.

(** What a returned result holds, read back from the inputs. *)
Lemma calculate_net_gain_inv
    (fmt : Q -> string)
    (analysis : string -> string -> Z -> Z -> Py.result Report.t)
    (s apy t deal : Z) (symbol : string) (res : Calculator.net_gain_result) :
  Calculator.calculate_net_gain fmt analysis s apy t deal symbol = inr res ->
  let rate := (inject_Z apy / 100) * (inject_Z t / 365) in
  let p := Calculator.predicted_price res in
  Calculator.interest res = inject_Z s * rate
  /\ Calculator.breakeven_price res = inject_Z deal * (1 - rate)
  /\ Calculator.purchase_loss res
     = (if Qle_bool p (inject_Z deal)
        then inject_Z s * (1 - p / inject_Z deal) else 0)
  /\ Calculator.net_gain res
     = Calculator.interest res - Calculator.purchase_loss res.
Proof.
  destruct (Props.amounts_fit_floats s apy t deal) eqn:Hfit;
    [|now rewrite (calculate_net_gain_overflow fmt analysis _ _ _ _ symbol
                     Hfit)].
  rewrite (calculate_net_gain_fits fmt analysis _ _ _ _ symbol Hfit).
  cbv zeta.
  destruct (analysis symbol "1h" (t * 2)%Z deal) as [e | report];
    [discriminate|]. cbn [Py.bind].
  destruct (Feedback.ta_report_feedback fmt report None) as [e | d];
    [discriminate|]. cbn [Py.bind].
  destruct (Qle_bool _ (inject_Z deal)) eqn:E.
  - destruct (deal =? 0)%Z; [discriminate|]. cbn [Py.bind Py.ret].
    intro H. injection H as <-.
    cbn [Calculator.interest Calculator.breakeven_price
         Calculator.purchase_loss Calculator.net_gain
         Calculator.predicted_price].
    rewrite E. now repeat split.
  - cbn [Py.bind Py.ret]. intro H. injection H as <-.
    cbn [Calculator.interest Calculator.breakeven_price
         Calculator.purchase_loss Calculator.net_gain
         Calculator.predicted_price].
    rewrite E. now repeat split.
Qed.



(** ** The fields of the parameter message *)

Lemma split_length (sep : ascii) (text : string) :
  List.length (Py.split sep text) = S (Vocabulary.count_char sep text).
Proof.
  induction text as [|a rest IH]; [reflexivity|].
  cbn [Py.split Vocabulary.count_char].
  destruct (Ascii.eqb a sep).
  - cbn [List.length]. now rewrite IH.
  - destruct (Py.split sep rest) as [|w ws]; [discriminate IH|]. exact IH.
Qed.

Lemma split_concat (sep : ascii) (text : string) :
  String.concat (String sep EmptyString) (Py.split sep text) = text.
Proof.
  induction text as [|a rest IH]; [reflexivity|].
  cbn [Py.split]. destruct (Ascii.eqb a sep) eqn:E.
  - apply Ascii.eqb_eq in E. subst a.
    pose proof (split_length sep rest) as Hl.
    destruct (Py.split sep rest) as [|w ws]; [discriminate Hl|].
    cbn [String.concat String.append] in *. now rewrite IH.
  - pose proof (split_length sep rest) as Hl.
    destruct (Py.split sep rest) as [|w ws]; [discriminate Hl|].
    destruct ws as [|w' ws'].
    + cbn [String.concat] in *. now rewrite IH.
    + cbn [String.concat String.append] in *. now rewrite IH.
Qed.

Lemma split_fields_clean (sep : ascii) (text field : string) :
  In field (Py.split sep text) -> Vocabulary.count_char sep field = O.
Proof.
  revert field. induction text as [|a rest IH]; intros field Hin.
  - destruct Hin as [<- | []]. reflexivity.
  - cbn [Py.split] in Hin. destruct (Ascii.eqb a sep) eqn:E.
    + destruct Hin as [<- | Hin]; [reflexivity | now apply IH].
    + destruct (Py.split sep rest) as [|w ws].
      * destruct Hin as [<- | []]. cbn [Vocabulary.count_char]. now rewrite E.
      * destruct Hin as [<- | Hin].
        -- cbn [Vocabulary.count_char]. rewrite E. apply IH. now left.
        -- apply IH. now right.
Qed.

(** X10: the number of commas decides the field count.  A message that does
    not hold exactly four commas is answered with the wrong-count error and
    the bot keeps waiting, whatever [int] and the calculation would do; a
    message with exactly four commas is read as five comma-free fields that,
    joined by commas, give the message back. *)
Theorem comma_count_decides_field_count :
  forall (py_int : string -> Py.result Z) (A : Type)
         (calculate_net_gain : Z -> Z -> Z -> Z -> string -> Py.result A)
         (text : string),
    (Vocabulary.count_char "," text <> 4%nat ->
     Main.process_parameters py_int A calculate_net_gain text
     = (Main.ErrorReply Main.msg_wrong_count, Main.AWAITING_PARAMETERS))
    /\ (Vocabulary.count_char "," text = 4%nat ->
        exists p0 p1 p2 p3 symbol : string,
          Py.split "," text = [p0; p1; p2; p3; symbol]
          /\ String.concat "," [p0; p1; p2; p3; symbol] = text
          /\ Forall (fun f => Vocabulary.count_char "," f = O)
                    [p0; p1; p2; p3; symbol]).
Proof.
  intros py_int A calc text. split; intro H.
  - unfold Main.process_parameters, Main.try_block.
    rewrite split_length.
    assert (E : (S (Vocabulary.count_char "," text) =? 5)%nat = false)
      by (apply Nat.eqb_neq; lia).
    now rewrite E.
  - pose proof (split_length "," text) as Hl. rewrite H in Hl.
    pose proof (split_concat "," text) as Hc.
    pose proof (split_fields_clean "," text) as Hf.
    destruct (Py.split "," text) as [|p0 [|p1 [|p2 [|p3 [|p4 [|p5 l]]]]]];
      try discriminate Hl.
    exists p0, p1, p2, p3, p4. split; [reflexivity|]. split; [exact Hc|].
    repeat constructor; apply Hf; cbn; tauto.
Qed.

(** ** Momentum: edge cases and monotone series *)

Lemma all_defined_nan (xs : list TechnicalAnalysis.nanfloat) :
  In None xs -> TechnicalAnalysis.all_defined xs = None.
Proof.
  induction xs as [|[x|] rest IH]; intro H.
  - destruct H.
  - destruct H as [H | H]; [discriminate|].
    cbn [TechnicalAnalysis.all_defined]. now rewrite (IH H).
  - reflexivity.
Qed.

Lemma np_mean_nan (xs : list TechnicalAnalysis.nanfloat) :
  In None xs -> TechnicalAnalysis.np_mean xs = None.
Proof.
  intro H. unfold TechnicalAnalysis.np_mean. now rewrite (all_defined_nan xs H).
Qed.

Lemma divergence_nan_l (o : TechnicalAnalysis.nanfloat) :
  TechnicalAnalysis.divergence None o = "nessuna".
Proof. reflexivity. Qed.

Lemma divergence_nan_r (p : TechnicalAnalysis.nanfloat) :
  TechnicalAnalysis.divergence p None = "nessuna".
Proof.
  unfold TechnicalAnalysis.divergence. destruct p as [p|]; [|reflexivity].
  cbn [TechnicalAnalysis.nan_lt]. now rewrite !andb_false_r.
Qed.

Lemma trend_short (xs : list Q) :
  (List.length xs <= 5)%nat ->
  TechnicalAnalysis.trend (map (@Some Q) xs) = None.
Proof.
  intro H. unfold TechnicalAnalysis.trend, Py.slice_from_end.
  rewrite length_map.
  replace (List.length xs - 5)%nat with 0%nat by lia.
  cbn [Nat.sub firstn TechnicalAnalysis.np_mean TechnicalAnalysis.all_defined].
  now destruct (TechnicalAnalysis.np_mean _).
Qed.

(** The edge cases of the array part of [rsi_analysis]. *)
Lemma rsi_analysis_on_array :
  forall (talib_RSI : list Q -> nat -> list TechnicalAnalysis.nanfloat)
         (closes : list Q) (period : nat),
    let rsi := talib_RSI closes period in
    (rsi = [] ->
     TechnicalAnalysis.rsi_analysis talib_RSI closes period
     = inl Py.IndexError)
    /\ (forall (front : list TechnicalAnalysis.nanfloat)
               (current : TechnicalAnalysis.nanfloat),
          rsi = (front ++ [current])%list ->
          (exists label,
             TechnicalAnalysis.rsi_analysis talib_RSI closes period
             = inr (current, label)
             /\ (label = "positiva" \/ label = "negativa"
                 \/ label = "nessuna"))
          /\ ((List.length closes <= 5)%nat
              \/ In None (Py.last_n 5 rsi)
              \/ In None (Py.slice_from_end 10 5 rsi) ->
              TechnicalAnalysis.rsi_analysis talib_RSI closes period
              = inr (current, "nessuna"))).
Proof.
  intros talib closes period rsi. split.
  - intro H. unfold TechnicalAnalysis.rsi_analysis. fold rsi. now rewrite H.
  - intros front current H.
    assert (Hlast : TechnicalAnalysis.last_item rsi = inr current).
    { unfold TechnicalAnalysis.last_item. rewrite H, rev_app_distr.
      reflexivity. }
    assert (Hrun : TechnicalAnalysis.rsi_analysis talib closes period
                   = inr (current,
                          TechnicalAnalysis.divergence
                            (TechnicalAnalysis.trend (map (@Some Q) closes))
                            (TechnicalAnalysis.trend rsi))).
    { unfold TechnicalAnalysis.rsi_analysis. fold rsi. now rewrite Hlast. }
    split.
    + eexists. split; [exact Hrun|]. apply divergence_values.
    + intro Hedge. rewrite Hrun.
      assert (Hd : TechnicalAnalysis.divergence
                     (TechnicalAnalysis.trend (map (@Some Q) closes))
                     (TechnicalAnalysis.trend rsi) = "nessuna");
        [|now rewrite Hd].
      destruct Hedge as [Hshort | [Hnan | Hnan]].
      * rewrite (trend_short closes Hshort).
        apply divergence_nan_l.
      * unfold TechnicalAnalysis.trend at 2. rewrite (np_mean_nan _ Hnan).
        apply divergence_nan_r.
      * unfold TechnicalAnalysis.trend at 2. rewrite (np_mean_nan _ Hnan).
        destruct (TechnicalAnalysis.np_mean _); apply divergence_nan_r.
Qed.

(** On a frame that does not have exactly one row the conversion to an
    array succeeds and hands the column over as it is. *)
Lemma rsi_analysis_frame_rows
    (talib_RSI : list Q -> nat -> list TechnicalAnalysis.nanfloat)
    (closes : list Q) (period : nat) :
  List.length closes <> 1%nat ->
  TechnicalAnalysis.rsi_analysis_frame talib_RSI closes period
  = TechnicalAnalysis.rsi_analysis talib_RSI closes period.
Proof.
  intro H. unfold TechnicalAnalysis.rsi_analysis_frame,
    TechnicalAnalysis.close_array.
  destruct closes as [|a [|b rest]]; [reflexivity | | reflexivity].
  exfalso. apply H. reflexivity.
Qed.

(** X11: the edge cases of [rsi_analysis].  On a frame of exactly one row
    it raises [AttributeError], whatever the oscillator.  On any other
    frame an empty oscillator series raises [IndexError]; otherwise the
    current value is the last oscillator value, and the divergence is
    "nessuna" whenever there are at most five closes, or one of the
    oscillator values in the two compared windows (the last five and the
    five before them) is not a number, as during the oscillator's
    warm-up. *)
Theorem rsi_analysis_edge_cases :
  forall (talib_RSI : list Q -> nat -> list TechnicalAnalysis.nanfloat)
         (closes : list Q) (period : nat),
    let rsi := talib_RSI closes period in
    let run :=
      TechnicalAnalysis.rsi_analysis_frame talib_RSI closes period in
    (List.length closes = 1%nat -> run = inl Py.AttributeError)
    /\ (List.length closes <> 1%nat ->
        (rsi = [] -> run = inl Py.IndexError)
        /\ (forall (front : list TechnicalAnalysis.nanfloat)
                   (current : TechnicalAnalysis.nanfloat),
              rsi = (front ++ [current])%list ->
              (exists label,
                 run = inr (current, label)
                 /\ (label = "positiva" \/ label = "negativa"
                     \/ label = "nessuna"))
              /\ ((List.length closes <= 5)%nat
                  \/ In None (Py.last_n 5 rsi)
                  \/ In None (Py.slice_from_end 10 5 rsi) ->
                  run = inr (current, "nessuna")))).
Proof.
  intros talib closes period rsi run. split.
  - intro H. subst run.
    destruct closes as [|a [|b rest]]; try discriminate H. reflexivity.
  - intro H. subst run. rewrite (rsi_analysis_frame_rows talib closes period H).
    exact (rsi_analysis_on_array talib closes period).
Qed.

Lemma all_defined_some (xs : list Q) :
  TechnicalAnalysis.all_defined (map (@Some Q) xs) = Some xs.
Proof.
  induction xs as [|x rest IH]; [reflexivity|].
  cbn [map TechnicalAnalysis.all_defined]. now rewrite IH.
Qed.

Lemma np_mean_some (xs : list Q) :
  xs <> [] ->
  TechnicalAnalysis.np_mean (map (@Some Q) xs)
  = Some (TechnicalAnalysis.Qsum xs / inject_Z (Z.of_nat (List.length xs))).
Proof.
  intro H. unfold TechnicalAnalysis.np_mean. rewrite all_defined_some.
  destruct xs; [congruence | reflexivity].
Qed.

Lemma last_n_map {A B : Type} (f : A -> B) (n : nat) (xs : list A) :
  Py.last_n n (map f xs) = map f (Py.last_n n xs).
Proof.
  destruct n; [reflexivity|]. cbn [Py.last_n].
  now rewrite length_map, skipn_map.
Qed.

Lemma slice_from_end_map {A B : Type} (f : A -> B) (a b : nat)
    (xs : list A) :
  Py.slice_from_end a b (map f xs) = map f (Py.slice_from_end a b xs).
Proof.
  unfold Py.slice_from_end. now rewrite length_map, skipn_map, firstn_map.
Qed.

Lemma Qsum_le_bound (xs : list Q) (c : Q) :
  (forall x, In x xs -> x <= c) ->
  TechnicalAnalysis.Qsum xs <= inject_Z (Z.of_nat (List.length xs)) * c.
Proof.
  induction xs as [|x rest IH]; intro H.
  - cbn [TechnicalAnalysis.Qsum fold_right List.length Z.of_nat].
    change (inject_Z 0) with 0. Lqa.lra.
  - cbn [TechnicalAnalysis.Qsum fold_right List.length].
    fold (TechnicalAnalysis.Qsum rest).
    rewrite Nat2Z.inj_succ, <- Z.add_1_r, inject_Z_plus.
    assert (x <= c) by (apply H; now left).
    assert (TechnicalAnalysis.Qsum rest
            <= inject_Z (Z.of_nat (List.length rest)) * c)
      by (apply IH; intros y Hy; apply H; now right).
    change (inject_Z 1) with 1. Lqa.lra.
Qed.

Lemma Qsum_ge_bound (xs : list Q) (c : Q) :
  (forall x, In x xs -> c <= x) ->
  inject_Z (Z.of_nat (List.length xs)) * c <= TechnicalAnalysis.Qsum xs.
Proof.
  induction xs as [|x rest IH]; intro H.
  - cbn [TechnicalAnalysis.Qsum fold_right List.length Z.of_nat].
    change (inject_Z 0) with 0. Lqa.lra.
  - cbn [TechnicalAnalysis.Qsum fold_right List.length].
    fold (TechnicalAnalysis.Qsum rest).
    rewrite Nat2Z.inj_succ, <- Z.add_1_r, inject_Z_plus.
    assert (c <= x) by (apply H; now left).
    assert (inject_Z (Z.of_nat (List.length rest)) * c
            <= TechnicalAnalysis.Qsum rest)
      by (apply IH; intros y Hy; apply H; now right).
    change (inject_Z 1) with 1. Lqa.lra.
Qed.

Lemma length_pos_Q {A : Type} (xs : list A) :
  xs <> [] -> 0 < inject_Z (Z.of_nat (List.length xs)).
Proof.
  intro H. apply inject_Z_pos. destruct xs; [congruence | cbn; lia].
Qed.

(** When no entry of [xs] exceeds any entry of [ys], the mean of [xs] does
    not exceed the mean of [ys]. *)
Lemma mean_le_mean (xs ys : list Q) :
  xs <> [] -> ys <> [] ->
  (forall x y, In x xs -> In y ys -> x <= y) ->
  TechnicalAnalysis.Qsum xs / inject_Z (Z.of_nat (List.length xs))
  <= TechnicalAnalysis.Qsum ys / inject_Z (Z.of_nat (List.length ys)).
Proof.
  intros Hx Hy Hxy.
  destruct xs as [|x0 xs']; [congruence|].
  destruct (fold_Qmax_is_maximum xs' x0) as [Hin Hub].
  set (top := fold_left Qmax xs' x0) in *.
  apply Qle_trans with top.
  - apply Qle_shift_div_r; [apply length_pos_Q; discriminate|].
    rewrite Qmult_comm. apply Qsum_le_bound. exact Hub.
  - apply Qle_shift_div_l; [apply length_pos_Q; exact Hy|].
    rewrite Qmult_comm. apply Qsum_ge_bound.
    intros y Hiny. apply Hxy; assumption.
Qed.

Lemma In_firstn_skipn {A : Type} (x : A) (k lo : nat) (xs : list A) :
  In x (firstn k (skipn lo xs)) -> In x (firstn (lo + k) xs).
Proof.
  revert xs. induction lo as [|lo IH]; intros xs H; [exact H|].
  destruct xs as [|a rest]; [now rewrite firstn_nil in H|].
  cbn [skipn] in H. cbn [Nat.add firstn]. right. now apply IH.
Qed.

Lemma non_decreasing_tail (x : Q) (xs : list Q) :
  Vocabulary.non_decreasing (x :: xs) -> Vocabulary.non_decreasing xs.
Proof. destruct xs as [|y ys]; [trivial | now intros [_ H]]. Qed.

Lemma non_decreasing_head (x : Q) (xs : list Q) :
  Vocabulary.non_decreasing (x :: xs) -> forall y, In y xs -> x <= y.
Proof.
  revert x. induction xs as [|z zs IH]; intros x H y Hy; [destruct Hy|].
  destruct H as [Hxz Hrest]. destruct Hy as [<- | Hy]; [exact Hxz|].
  apply Qle_trans with z; [exact Hxz | now apply IH].
Qed.

Lemma non_decreasing_cross (front back : list Q) :
  Vocabulary.non_decreasing (front ++ back) ->
  forall x y, In x front -> In y back -> x <= y.
Proof.
  induction front as [|a front IH]; intros H x y Hx Hy; [destruct Hx|].
  cbn [app] in H. destruct Hx as [<- | Hx].
  - apply (non_decreasing_head a (front ++ back) H). apply in_or_app. now right.
  - apply IH; [exact (non_decreasing_tail _ _ H) | assumption | assumption].
Qed.

Lemma non_increasing_tail (x : Q) (xs : list Q) :
  Props.non_increasing (x :: xs) -> Props.non_increasing xs.
Proof. destruct xs as [|y ys]; [trivial | now intros [_ H]]. Qed.

Lemma non_increasing_head (x : Q) (xs : list Q) :
  Props.non_increasing (x :: xs) -> forall y, In y xs -> y <= x.
Proof.
  revert x. induction xs as [|z zs IH]; intros x H y Hy; [destruct Hy|].
  destruct H as [Hxz Hrest]. destruct Hy as [<- | Hy]; [exact Hxz|].
  apply Qle_trans with z; [now apply IH | exact Hxz].
Qed.

Lemma non_increasing_cross (front back : list Q) :
  Props.non_increasing (front ++ back) ->
  forall x y, In x front -> In y back -> y <= x.
Proof.
  induction front as [|a front IH]; intros H x y Hx Hy; [destruct Hx|].
  cbn [app] in H. destruct Hx as [<- | Hx].
  - apply (non_increasing_head a (front ++ back) H). apply in_or_app. now right.
  - apply IH; [exact (non_increasing_tail _ _ H) | assumption | assumption].
Qed.

(** The price trend of more than five closes, and where its two windows
    lie in the series. *)
Lemma price_trend_windows (closes : list Q) :
  (5 < List.length closes)%nat ->
  let early := Py.slice_from_end 10 5 closes in
  let late := Py.last_n 5 closes in
  early <> [] /\ late <> []
  /\ (forall x, In x early ->
        In x (firstn (List.length closes - 5) closes))
  /\ late = skipn (List.length closes - 5) closes
  /\ TechnicalAnalysis.trend (map (@Some Q) closes)
     = Some (TechnicalAnalysis.Qsum late
               / inject_Z (Z.of_nat (List.length late))
             - TechnicalAnalysis.Qsum early
               / inject_Z (Z.of_nat (List.length early))).
Proof.
  intros Hn early late.
  assert (He : early <> []).
  { intro H. apply (f_equal (@List.length Q)) in H. subst early.
    unfold Py.slice_from_end in H.
    rewrite length_firstn, length_skipn in H. cbn [List.length] in H. lia. }
  assert (Hl : late <> []).
  { intro H. apply (f_equal (@List.length Q)) in H. subst late.
    cbn [Py.last_n] in H. rewrite length_skipn in H.
    cbn [List.length] in H. lia. }
  split; [exact He|]. split; [exact Hl|]. split; [|split].
  - intros x Hx. subst early. unfold Py.slice_from_end in Hx.
    apply In_firstn_skipn in Hx.
    replace (List.length closes - 10
             + (List.length closes - 5 - (List.length closes - 10)))%nat
      with (List.length closes - 5)%nat in Hx by lia.
    exact Hx.
  - reflexivity.
  - unfold TechnicalAnalysis.trend.
    rewrite last_n_map, slice_from_end_map.
    fold early. fold late.
    pose proof (np_mean_some late Hl) as El.
    pose proof (np_mean_some early He) as Ee.
    unfold TechnicalAnalysis.nanfloat in *. now rewrite El, Ee.
Qed.

(** X12: a series that never falls is never given a bullish ("positiva")
    divergence, and a series that never rises is never given a bearish
    ("negativa") one, whatever the oscillator says. *)
Theorem monotone_series_divergence :
  forall (talib_RSI : list Q -> nat -> list TechnicalAnalysis.nanfloat)
         (closes : list Q) (period : nat)
         (current : TechnicalAnalysis.nanfloat) (label : string),
    TechnicalAnalysis.rsi_analysis talib_RSI closes period
    = inr (current, label) ->
    (Vocabulary.non_decreasing closes -> label <> "positiva")
    /\ (Props.non_increasing closes -> label <> "negativa").
Proof.
  intros talib closes period current label Hrun.
  unfold TechnicalAnalysis.rsi_analysis in Hrun.
  destruct (TechnicalAnalysis.last_item (talib closes period)) as [e | cur];
    [discriminate|]. cbn [Py.bind Py.ret] in Hrun.
  injection Hrun as _ <-.
  destruct (le_lt_dec (List.length closes) 5) as [Hshort | Hlong].
  { rewrite (trend_short closes Hshort), divergence_nan_l.
    split; intros _; discriminate. }
  destruct (price_trend_windows closes Hlong) as (He & Hl & Hin & Hlate & ->).
  set (early := Py.slice_from_end 10 5 closes) in *.
  set (late := Py.last_n 5 closes) in *.
  pose proof (firstn_skipn (List.length closes - 5) closes) as Hsplit.
  rewrite <- Hlate in Hsplit.
  unfold TechnicalAnalysis.divergence.
  set (o := TechnicalAnalysis.trend (talib closes period)).
  cbn [TechnicalAnalysis.nan_lt].
  split; intro Hmono; rewrite <- Hsplit in Hmono.
  - assert (Hle : TechnicalAnalysis.Qsum early
                    / inject_Z (Z.of_nat (List.length early))
                  <= TechnicalAnalysis.Qsum late
                     / inject_Z (Z.of_nat (List.length late))).
    { apply mean_le_mean; [exact He | exact Hl|].
      intros x y Hx Hy.
      exact (non_decreasing_cross _ _ Hmono x y (Hin x Hx) Hy). }
    match goal with
    | |- context [Py.Qlt_bool ?a 0] =>
        assert (E : Py.Qlt_bool a 0 = false)
          by (apply Qlt_bool_false; Lqa.lra);
        rewrite E
    end.
    cbn [andb]. destruct (_ && _); discriminate.
  - assert (Hle : TechnicalAnalysis.Qsum late
                    / inject_Z (Z.of_nat (List.length late))
                  <= TechnicalAnalysis.Qsum early
                     / inject_Z (Z.of_nat (List.length early))).
    { apply mean_le_mean; [exact Hl | exact He|].
      intros y x Hy Hx.
      exact (non_increasing_cross _ _ Hmono x y (Hin x Hx) Hy). }
    match goal with
    | |- context [Py.Qlt_bool 0 ?a] =>
        assert (E : Py.Qlt_bool 0 a = false)
          by (apply Qlt_bool_false; Lqa.lra);
        rewrite E
    end.
    cbn [andb]. destruct (_ && _); discriminate.
Qed.

Lemma monotone_series_divergence_witness :
  let rsi := fun (_ : list Q) (_ : nat) =>
               [Some 80; Some 70; Some 60; Some 50; Some 40;
                Some 30; Some 20; Some 10; Some 5; Some 1] in
  TechnicalAnalysis.rsi_analysis rsi [1; 2; 3; 4; 5; 6; 7; 8; 9; 10; 11] 14
  = inr (Some 1, "negativa")
  /\ "negativa" <> "positiva".
Proof.
  intro rsi. split; [reflexivity|].
  apply (monotone_series_divergence rsi
           [1; 2; 3; 4; 5; 6; 7; 8; 9; 10; 11] 14 (Some 1) "negativa"
           eq_refl).
  cbn. repeat split; discriminate.
Defined.

(** ** Support clusters *)

Lemma In_insert (a x : Q) (xs : list Q) :
  In x (Indicators.insert a xs) <-> x = a \/ In x xs.
Proof.
  induction xs as [|y ys IH]; cbn [Indicators.insert].
  - cbn. intuition congruence.
  - destruct (Qle_bool a y); cbn [In].
    + intuition congruence.
    + rewrite IH. intuition congruence.
Qed.

Lemma In_sorted (x : Q) (xs : list Q) :
  In x (Indicators.sorted xs) <-> In x xs.
Proof.
  unfold Indicators.sorted. induction xs as [|a rest IH]; [reflexivity|].
  cbn [fold_right In]. rewrite In_insert, IH. intuition congruence.
Qed.

Lemma strictly_ascending_cons (x : Q) (xs : list Q) :
  Vocabulary.strictly_ascending (x :: xs)
  <-> (forall y, In y xs -> x < y) /\ Vocabulary.strictly_ascending xs.
Proof.
  revert x. induction xs as [|z zs IH]; intro x.
  - cbn. intuition.
  - change (Vocabulary.strictly_ascending (x :: z :: zs))
      with (x < z /\ Vocabulary.strictly_ascending (z :: zs)).
    rewrite (IH z). split.
    + intros [Hxz [Hz Hs]]. split; [|now split].
      intros y [<- | Hy]; [exact Hxz|].
      apply Qlt_trans with z; [exact Hxz | now apply Hz].
    + intros [Hall [Hz Hs]]. split; [apply Hall; now left | now split].
Qed.

Lemma insert_ascending (a : Q) (xs : list Q) :
  Vocabulary.strictly_ascending xs ->
  (forall y, In y xs -> ~ a == y) ->
  Vocabulary.strictly_ascending (Indicators.insert a xs).
Proof.
  induction xs as [|y ys IH]; intros Hs Hne; [exact I|].
  cbn [Indicators.insert]. apply strictly_ascending_cons in Hs.
  destruct Hs as [Hy Hs]. destruct (Qle_bool a y) eqn:E.
  - apply Qle_bool_iff in E.
    assert (Hlt : a < y).
    { apply Qle_lt_or_eq in E. destruct E as [E | E]; [exact E|].
      exfalso. apply (Hne y); [now left | exact E]. }
    apply strictly_ascending_cons. split.
    + intros z [<- | Hz]; [exact Hlt|].
      apply Qlt_trans with y; [exact Hlt | now apply Hy].
    + apply strictly_ascending_cons. now split.
  - apply Qle_bool_false in E. apply strictly_ascending_cons. split.
    + intros z Hz. apply In_insert in Hz.
      destruct Hz as [-> | Hz]; [exact E | now apply Hy].
    + apply IH; [exact Hs|]. intros z Hz. apply Hne. now right.
Qed.

(** The entries of [set(xs)] are entries of [xs], pairwise different, and
    every entry of [xs] has its value among them. *)
Lemma In_set_of (x : Q) (xs : list Q) :
  In x (Indicators.set_of xs) -> In x xs.
Proof.
  revert x. induction xs as [|a rest IH]; intros x H; [exact H|].
  cbn [Indicators.set_of] in H. destruct H as [<- | H]; [now left|].
  apply filter_In in H. right. apply IH, H.
Qed.

Lemma set_of_covers (x : Q) (xs : list Q) :
  In x xs -> exists y, In y (Indicators.set_of xs) /\ y == x.
Proof.
  induction xs as [|a rest IH]; intro H; [destruct H|].
  cbn [Indicators.set_of]. destruct H as [<- | H].
  - exists a. split; [now left | reflexivity].
  - destruct (IH H) as (y & Hy & Hyx).
    destruct (Qeq_bool a y) eqn:E.
    + exists a. split; [now left|]. apply Qeq_bool_iff in E.
      now rewrite E.
    + exists y. split; [|exact Hyx]. right. apply filter_In.
      split; [exact Hy | now rewrite E].
Qed.

Lemma filter_pairwise_different (f : Q -> bool) (xs : list Q) :
  Vocabulary.pairwise_different xs -> Vocabulary.pairwise_different (filter f xs).
Proof.
  induction xs as [|a rest IH]; intro H; [exact I|].
  destruct H as [Ha Hr]. cbn [filter]. destruct (f a).
  - split; [|now apply IH].
    intros y Hy. apply filter_In in Hy. apply Ha, Hy.
  - now apply IH.
Qed.

Lemma set_of_pairwise_different (xs : list Q) :
  Vocabulary.pairwise_different (Indicators.set_of xs).
Proof.
  induction xs as [|a rest IH]; [exact I|].
  cbn [Indicators.set_of]. split.
  - intros y Hy. apply filter_In in Hy. destruct Hy as [_ Hy].
    intro Heq. apply Qeq_bool_iff in Heq. rewrite Heq in Hy. discriminate.
  - now apply filter_pairwise_different.
Qed.

Lemma sorted_ascending (xs : list Q) :
  Vocabulary.pairwise_different xs ->
  Vocabulary.strictly_ascending (Indicators.sorted xs).
Proof.
  unfold Indicators.sorted. induction xs as [|a rest IH]; intro H; [exact I|].
  destruct H as [Ha Hr]. cbn [fold_right]. apply insert_ascending.
  - now apply IH.
  - intros y Hy. apply Ha. exact (proj1 (In_sorted y rest) Hy).
Qed.

Lemma round_hundreds_eq (a b : Q) :
  Indicators.round_hundreds a == Indicators.round_hundreds b ->
  Indicators.round_hundreds a = Indicators.round_hundreds b.
Proof.
  unfold Indicators.round_hundreds.
  generalize (Py.round_half_even (a / 100)) (Py.round_half_even (b / 100)).
  intros k k' H.
  assert (E : k = k').
  { unfold Qeq, Qmult, inject_Z in H. cbn [Qnum Qden] in H. lia. }
  now rewrite E.
Qed.

(** X13: the cluster list is strictly ascending, hence free of duplicates,
    and each of its prices is a whole multiple of 100. *)
Theorem clusters_ascending_hundreds :
  forall (lows : list Q) (window : nat) (min_touches : Z) (tolerance : Q),
    let clusters :=
      Indicators.find_support_clusters lows window min_touches tolerance in
    Vocabulary.strictly_ascending clusters
    /\ forall c, In c clusters -> exists k : Z, c = inject_Z k * 100.
Proof.
  intros lows window mt tol clusters. subst clusters.
  unfold Indicators.find_support_clusters. split.
  - apply sorted_ascending, set_of_pairwise_different.
  - intros c Hc. apply (proj1 (In_sorted _ _)) in Hc.
    apply In_set_of, in_map_iff in Hc.
    destruct Hc as (low & <- & _). eexists. reflexivity.
Qed.

Lemma In_find_support_clusters :
  forall (lows : list Q) (window : nat) (min_touches : Z) (tolerance : Q)
         (c : Q),
    let recent := Py.last_n (window * 24) lows in
    In c (Indicators.find_support_clusters lows window min_touches tolerance)
    <-> exists low,
          In low recent
          /\ (min_touches
              <= Z.of_nat
                   (List.length
                      (filter (fun other =>
                                 Py.Qlt_bool (Qabs (other - low))
                                             (low * tolerance))
                              recent)))%Z
          /\ c = Indicators.round_hundreds low.
Proof.
  intros lows window mt tol c recent.
  unfold Indicators.find_support_clusters. fold recent.
  rewrite In_sorted. split.
  - intro H. apply In_set_of, in_map_iff in H.
    destruct H as (low & <- & Hlow). apply filter_In in Hlow.
    destruct Hlow as [Hin Ht]. exists low. split; [exact Hin|].
    split; [|reflexivity]. apply Z.leb_le in Ht. exact Ht.
  - intros (low & Hin & Ht & ->).
    assert (Hmap : In (Indicators.round_hundreds low)
                     (map Indicators.round_hundreds
                        (filter (fun price =>
                                   (mt <=? Z.of_nat
                                             (Indicators.touches recent price
                                                tol))%Z) recent))).
    { apply in_map. apply filter_In. split; [exact Hin|].
      apply Z.leb_le. exact Ht. }
    destruct (set_of_covers _ _ Hmap) as (y & Hy & Hyx).
    pose proof (In_set_of _ _ Hy) as Hy'. apply in_map_iff in Hy'.
    destruct Hy' as (low' & <- & _).
    rewrite <- (round_hundreds_eq _ _ Hyx). exact Hy.
Qed.

Lemma filter_none {A : Type} (f : A -> bool) (xs : list A) :
  (forall x, In x xs -> f x = false) -> filter f xs = [].
Proof.
  induction xs as [|a rest IH]; intro H; [reflexivity|].
  cbn [filter]. rewrite (H a) by now left.
  apply IH. intros x Hx. apply H. now right.
Qed.

Lemma touches_le_length (lows : list Q) (price tolerance : Q) :
  (Indicators.touches lows price tolerance <= List.length lows)%nat.
Proof. unfold Indicators.touches. apply filter_length_le. Qed.

Lemma touches_nonpositive (lows : list Q) (price tolerance : Q) :
  price <= 0 -> 0 <= tolerance ->
  Indicators.touches lows price tolerance = O.
Proof.
  intros Hp Ht. unfold Indicators.touches. rewrite filter_none; [reflexivity|].
  intros low _. apply Qlt_bool_false.
  apply Qle_trans with 0; [|apply Qabs_nonneg].
  assert (H : 0 <= (- price) * tolerance)
    by (apply Qmult_le_0_compat; [Lqa.lra | exact Ht]).
  setoid_replace ((- price) * tolerance) with (- (price * tolerance)) in H
    by ring.
  Lqa.lra.
Qed.

Lemma touches_itself (lows : list Q) (price tolerance : Q) :
  In price lows -> 0 < price -> 0 < tolerance ->
  (1 <= Indicators.touches lows price tolerance)%nat.
Proof.
  intros Hin Hp Ht. unfold Indicators.touches.
  assert (H : In price
                (filter (fun low => Py.Qlt_bool (Qabs (low - price))
                                                (price * tolerance)) lows)).
  { apply filter_In. split; [exact Hin|]. apply Qlt_bool_true.
    setoid_replace (price - price) with 0 by ring.
    change (Qabs 0) with 0. apply Qmult_lt_0_compat; assumption. }
  destruct (filter _ lows); [destruct H | cbn; lia].
Qed.

Lemma clusters_of_nothing (recent : list Q) (f : Q -> bool) :
  (forall x, In x recent -> f x = false) ->
  Indicators.sorted
    (Indicators.set_of (map Indicators.round_hundreds (filter f recent)))
  = [].
Proof. intro H. now rewrite (filter_none f recent H). Qed.

(** X15: the counting rules of the clusters.  An empty column gives no
    cluster; so does a [min_touches] above the number of lows in the
    window; with a non-negative tolerance and [min_touches] of at least 1,
    lows that are zero or negative give none either, because such a low
    does not even touch itself; and with a positive tolerance and
    [min_touches] of at most 1 every positive low of the window gives its
    rounding as a cluster, because it does touch itself. *)
Theorem clusters_counting_rules :
  forall (lows : list Q) (window : nat) (min_touches : Z) (tolerance : Q),
    let recent := Py.last_n (window * 24) lows in
    let clusters :=
      Indicators.find_support_clusters lows window min_touches tolerance in
    (lows = [] -> clusters = [])
    /\ ((Z.of_nat (List.length recent) < min_touches)%Z -> clusters = [])
    /\ (0 <= tolerance -> (1 <= min_touches)%Z ->
        (forall low, In low recent -> low <= 0) -> clusters = [])
    /\ (0 < tolerance -> (min_touches <= 1)%Z ->
        forall low, In low recent -> 0 < low ->
                    In (Indicators.round_hundreds low) clusters).
Proof.
  intros lows window mt tol recent clusters.
  subst clusters. unfold Indicators.find_support_clusters. fold recent.
  split; [|split; [|split]].
  - intros ->. subst recent. now destruct (window * 24)%nat.
  - intro H. apply clusters_of_nothing. intros x _. apply Z.leb_gt.
    pose proof (touches_le_length recent x tol). lia.
  - intros Ht Hm Hall. apply clusters_of_nothing. intros x Hx.
    apply Z.leb_gt. rewrite (touches_nonpositive recent x tol (Hall x Hx) Ht).
    cbn. lia.
  - intros Ht Hm low Hin Hpos.
    apply (In_find_support_clusters lows window mt tol).
    exists low. split; [exact Hin|]. split; [|reflexivity].
    pose proof (touches_itself recent low tol Hin Hpos Ht) as H1.
    unfold Indicators.touches in H1. fold recent. lia.
Qed.

(** ** Volumes *)

Lemma last_item_nonempty {A : Type} (xs : list A) :
  xs <> [] ->
  exists x, TechnicalAnalysis.last_item xs = inr x /\ In x xs.
Proof.
  intro H. unfold TechnicalAnalysis.last_item.
  destruct (rev xs) as [|x rest] eqn:E.
  - apply (f_equal (@rev A)) in E. rewrite rev_involutive in E. contradiction.
  - exists x. split; [reflexivity|]. apply in_rev. rewrite E. now left.
Qed.

Lemma In_last_n {A : Type} (x : A) (n : nat) (xs : list A) :
  In x (Py.last_n n xs) -> In x xs.
Proof.
  destruct n; [trivial|]. cbn [Py.last_n]. intro H.
  rewrite <- (firstn_skipn (List.length xs - S n) xs).
  apply in_or_app. now right.
Qed.

Lemma rolling_mean_length (w : nat) (xs : list Q) :
  List.length (Indicators.rolling_mean w xs) = List.length xs.
Proof. unfold Indicators.rolling_mean. now rewrite length_map, length_seq. Qed.

Lemma rolling_mean_warm_up (w : nat) (xs : list Q) :
  w = O \/ (List.length xs < w)%nat ->
  forall m, In m (Indicators.rolling_mean w xs) -> m = None.
Proof.
  intros H m Hm. unfold Indicators.rolling_mean in Hm.
  apply in_map_iff in Hm. destruct Hm as (i & <- & Hi).
  apply in_seq in Hi.
  destruct H as [-> | H]; [reflexivity|].
  assert (E : (i + 1 <? w)%nat = true) by (apply Nat.ltb_lt; lia).
  rewrite E. now rewrite orb_true_r.
Qed.

Lemma rolling_mean_recent_nan (w : nat) (xs : list Q) :
  xs <> [] -> (List.length xs - 10 + 1 < w)%nat ->
  In None (Py.last_n 10 (Indicators.rolling_mean w xs)).
Proof.
  intros Hne H. unfold Indicators.rolling_mean.
  rewrite last_n_map. cbn [Py.last_n]. rewrite length_seq, skipn_seq.
  cbn [Nat.add].
  assert (Hlen : (0 < List.length xs)%nat)
    by (destruct xs; [congruence | cbn; lia]).
  destruct (List.length xs - (List.length xs - 10))%nat as [|k] eqn:E; [lia|].
  cbn [seq map]. left.
  assert (E' : (List.length xs - 10 + 1 <? w)%nat = true)
    by (apply Nat.ltb_lt; exact H).
  rewrite E'. now rewrite orb_true_r.
Qed.

(** The two figures [volume_analysis] returns on a non-empty column. *)
Lemma volume_analysis_anatomy (volumes : list Q) (window : nat) :
  volumes <> [] ->
  let vol := Py.last_n window volumes in
  let ma := Indicators.rolling_mean (window / 3) vol in
  exists (current_vol : Q) (current_ma : TechnicalAnalysis.nanfloat),
    In current_vol vol /\ In current_ma ma
    /\ Indicators.volume_analysis volumes window
       = inr (match current_ma with
              | Some m => if Py.Qlt_bool 0 m
                          then 100 * (current_vol - m) / m else 0
              | None => 0
              end,
              match TechnicalAnalysis.np_mean (Py.last_n 10 ma),
                    TechnicalAnalysis.series_max (Py.last_n 10 vol) with
              | Some m, Some top =>
                  if Py.Qlt_bool 0 m then 100 * (top - m) / m else 0
              | _, _ => 0
              end).
Proof.
  intros Hne vol ma.
  assert (Hvol : vol <> []) by (apply last_n_nonempty; exact Hne).
  assert (Hma : ma <> []).
  { intro H. apply (f_equal (@List.length _)) in H. subst ma.
    rewrite rolling_mean_length in H. destruct vol; [congruence | discriminate]. }
  destruct (last_item_nonempty vol Hvol) as (cv & Ecv & Hcv).
  destruct (last_item_nonempty ma Hma) as (cm & Ecm & Hcm).
  exists cv, cm. split; [exact Hcv|]. split; [exact Hcm|].
  unfold Indicators.volume_analysis. fold vol. fold ma.
  rewrite Ecv. cbn [Py.bind]. rewrite Ecm. reflexivity.
Qed.

(** X16: the edge cases of [volume_analysis].  It raises [IndexError]
    exactly on an empty column.  While the window holds fewer rows than
    the moving average needs (a third of the window), both figures are 0;
    and the spike is 0 as long as one of the last ten moving averages is
    still missing. *)
Theorem volume_analysis_edge_cases :
  forall (volumes : list Q) (window : nat),
    let vol := Py.last_n window volumes in
    let w := (window / 3)%nat in
    (Indicators.volume_analysis volumes window = inl Py.IndexError
     <-> volumes = [])
    /\ (volumes <> [] ->
        (List.length vol < w)%nat ->
        Indicators.volume_analysis volumes window = inr (0, 0))
    /\ (volumes <> [] ->
        (List.length vol - 10 + 1 < w)%nat ->
        exists perc,
          Indicators.volume_analysis volumes window = inr (perc, 0)).
Proof.
  intros volumes window vol w. split; [|split].
  - split.
    + intro H. destruct volumes as [|v rest]; [reflexivity|].
      assert (Hne : v :: rest <> []) by discriminate.
      destruct (volume_analysis_anatomy (v :: rest) window Hne)
        as (cv & cm & _ & _ & E).
      rewrite E in H. discriminate H.
    + intros ->. unfold Indicators.volume_analysis.
      now destruct window.
  - intros Hne Hshort.
    destruct (volume_analysis_anatomy volumes window Hne)
      as (cv & cm & _ & Hcm & E).
    fold vol in Hcm, E. fold w in Hcm, E. rewrite E.
    pose proof (rolling_mean_warm_up w vol (or_intror Hshort)) as Hnan.
    rewrite (Hnan cm Hcm).
    assert (Hrec : Py.last_n 10 (Indicators.rolling_mean w vol) <> []).
    { apply last_n_nonempty. intro H.
      apply (f_equal (@List.length _)) in H.
      rewrite rolling_mean_length in H.
      assert (vol <> []) by (apply last_n_nonempty; exact Hne).
      destruct vol; [congruence | discriminate]. }
    assert (Hin : In None (Py.last_n 10 (Indicators.rolling_mean w vol))).
    { destruct (Py.last_n 10 (Indicators.rolling_mean w vol))
        as [|m rest] eqn:El; [congruence|].
      left. apply Hnan. apply (In_last_n m 10). rewrite El. now left. }
    now rewrite (np_mean_nan _ Hin).
  - intros Hne Hwarm.
    destruct (volume_analysis_anatomy volumes window Hne)
      as (cv & cm & _ & _ & E).
    fold vol in E. fold w in E. rewrite E.
    assert (Hvol : vol <> []) by (apply last_n_nonempty; exact Hne).
    rewrite (np_mean_nan _ (rolling_mean_recent_nan w vol Hvol Hwarm)).
    eexists. reflexivity.
Qed.

(** ** The forecaster: a horizon of zero steps *)

Section ForecastBounds.

Import Forecast.
Local Open Scope R_scope.

Lemma simulate_length (gauss : nat -> R) (mu sg S0 : R) (days n_sim k : nat) :
  List.length (simulate gauss mu sg S0 days n_sim k) = n_sim.
Proof.
  revert k. induction n_sim as [|n IH]; intro k; [reflexivity|].
  cbn [simulate]. destruct (path gauss mu sg days S0 k) as [price k'].
  cbn [List.length]. now rewrite IH.
Qed.

Lemma simulate_zero_days (gauss : nat -> R) (mu sg S0 : R) (n_sim k : nat) :
  simulate gauss mu sg S0 0 n_sim k = repeat S0 n_sim.
Proof.
  revert k. induction n_sim as [|n IH]; intro k; [reflexivity|].
  cbn [simulate path repeat]. now rewrite IH.
Qed.

Lemma exceed_fraction_all (results : list R) (target : R) :
  results <> [] -> (forall r, In r results -> target < r) ->
  exceed_fraction results target = 1.
Proof.
  intros Hne Hall. unfold exceed_fraction.
  assert (Hf : filter (fun r => if Rlt_dec target r then true else false)
                      results = results).
  { clear Hne. induction results as [|a rest IH]; [reflexivity|].
    cbn [filter]. destruct (Rlt_dec target a) as [_ | H].
    - rewrite IH; [reflexivity|]. intros r Hr. apply Hall. now right.
    - exfalso. apply H, Hall. now left. }
  rewrite Hf. field. apply not_0_INR. destruct results; [congruence | discriminate].
Qed.

Lemma exceed_fraction_none (results : list R) (target : R) :
  (forall r, In r results -> r <= target) ->
  exceed_fraction results target = 0.
Proof.
  intro Hall. unfold exceed_fraction.
  assert (Hf : filter (fun r => if Rlt_dec target r then true else false)
                      results = []).
  { induction results as [|a rest IH]; [reflexivity|].
    cbn [filter]. destruct (Rlt_dec target a) as [H | _].
    - exfalso. assert (a <= target) by (apply Hall; now left). rlra.
    - apply IH. intros r Hr. apply Hall. now right. }
  rewrite Hf. cbn [List.length INR]. unfold Rdiv. ring.
Qed.

(** What a returned forecast was computed from. *)
Lemma monte_carlo_forecast_anatomy
    (gauss : nat -> R) (closes : list R) (days n_sim : nat) (target : R)
    (f : forecast) :
  monte_carlo_forecast gauss closes days n_sim target = Some f ->
  exists (mu sg : R) (results : list R),
    results = simulate gauss mu sg (last closes 0) days n_sim 0
    /\ results <> []
    /\ min_sigma <= sg
    /\ f = Props.summary results target sg.
Proof.
  intro H. pose proof (monte_carlo_forecast_simulates _ _ _ _ _ _ H) as Hf.
  cbv zeta in Hf.
  exists (mean (log_returns closes)), (clamp_sigma (std (log_returns closes))).
  eexists. split; [reflexivity|]. split; [|split].
  - intro Hnil. apply (f_equal (@List.length R)) in Hnil.
    rewrite simulate_length in Hnil. cbn in Hnil. subst n_sim.
    unfold monte_carlo_forecast in H.
    destruct (log_returns closes) as [|r1 [|r2 lr]]; discriminate.
  - apply clamp_sigma_floor.
  - exact Hf.
Qed.

End ForecastBounds.

(** X21: with a horizon of zero steps nothing is simulated: the three
    scenarios are the last close, and the exceedance fraction is 1 when the
    last close is above the target and 0 otherwise. *)
Theorem zero_horizon_forecast :
  forall (gauss : nat -> R) (closes : list R) (n_sim : nat) (target : R)
         (f : Forecast.forecast),
    Forecast.monte_carlo_forecast gauss closes 0 n_sim target = Some f ->
    Forecast.bear f = last closes 0%R
    /\ Forecast.base f = last closes 0%R
    /\ Forecast.bull f = last closes 0%R
    /\ ((target < last closes 0)%R -> Forecast.prob f = 1%R)
    /\ ((last closes 0 <= target)%R -> Forecast.prob f = 0%R).
Proof.
  intros gauss closes n_sim target f H.
  destruct (monte_carlo_forecast_anatomy _ _ _ _ _ _ H)
    as (mu & sg & results & Hres & Hne & _ & ->).
  rewrite simulate_zero_days in Hres.
  assert (Hn : (0 < n_sim)%nat).
  { destruct n_sim; [|lia]. subst results. now contradiction Hne. }
  cbn [Props.summary Forecast.sigma Forecast.prob Forecast.bear
       Forecast.base Forecast.bull].
  rewrite Hres in *. rewrite !np_percentile_repeat by lia.
  do 3 (split; [reflexivity|]). split.
  - intro Ht. apply exceed_fraction_all; [exact Hne|].
    intros r Hr. apply repeat_spec in Hr. now subst r.
  - intro Ht. apply exceed_fraction_none.
    intros r Hr. apply repeat_spec in Hr. now subst r.
Qed.

Lemma zero_horizon_forecast_witness :
  exists f,
    Forecast.monte_carlo_forecast (fun _ => 1%R) (repeat 100%R 3) 0 7 50%R
    = Some f
    /\ Forecast.base f = last (repeat 100%R 3) 0%R
    /\ Forecast.prob f = 1%R.
Proof.
  assert (H100 : (100 <> 0)%R) by rlra.
  assert (H3 : (3 <= 3)%nat) by lia.
  assert (H7 : (0 < 7)%nat) by lia.
  pose proof (constant_series_forecast 1 100 50 3 0 7 H100 H3 H7) as E.
  cbv zeta in E.
  destruct (zero_horizon_forecast _ _ _ _ _ E) as (_ & Hbase & _ & Hp & _).
  eexists. split; [exact E|]. split; [exact Hbase|].
  apply Hp. cbn. rlra.
Defined.

(** ** What the scorer reads *)

(** X22: the volume filter is silent exactly when the volume lies within
    10% of its average and the spike does not exceed 20: only then does it
    return the score and the warnings untouched.  It gives its point exactly
    above +10%; it warns of a spike exactly above 20, and that warning
    comes last. *)
Theorem volumes_fb_silent_band :
  forall (r : Report.t) (s : Q) (ws : list string),
    let vol := Report.sopra_media_perc (Report.r_volumi r) in
    let spike := Report.spike_supporto_perc (Report.r_volumi r) in
    (Feedback.volumes_fb r s ws = (s, ws)
     <-> -10 <= vol /\ vol <= 10 /\ spike <= 20)
    /\ (fst (Feedback.volumes_fb r s ws) == s + 1 <-> 10 < vol)
    /\ (In Feedback.w_vol_spike (snd (Feedback.volumes_fb r 0 []))
        <-> 20 < spike)
    /\ (20 < spike ->
        exists front,
          snd (Feedback.volumes_fb r s ws)
          = (front ++ [Feedback.w_vol_spike])%list).
Proof.
  intros r s ws vol spike. unfold Feedback.volumes_fb. fold vol. fold spike.
  rewrite !append_app.
  assert (Hone : forall (x : Q) (w : string),
             (x, (ws ++ [w])%list) <> (s, ws)).
  { intros x w H. injection H as _ H. exact (app_one_neq ws w H). }
  assert (Htwo : forall (x : Q) (w w' : string),
             (x, ((ws ++ [w]) ++ [w'])%list) <> (s, ws)).
  { intros x w w' H. injection H as _ H.
    apply (f_equal (@List.length string)) in H.
    rewrite !length_app in H. cbn in H. lia. }
  split; [|split; [|split]].
  - lt_cases; split; intro H;
      try (exfalso; eapply Hone; exact H);
      try (exfalso; eapply Htwo; exact H);
      try (destruct H as (? & ? & ?); exfalso; Lqa.lra);
      try reflexivity.
    repeat split; Lqa.lra.
  - lt_cases; cbn [fst]; split; intro H;
      try reflexivity; try assumption; exfalso; Lqa.lra.
  - lt_cases; cbn [snd In Py.append app]; split; intro H;
      try assumption; try (now left); try (now right; left);
      try (exfalso; Lqa.lra);
      repeat match goal with
             | H : _ \/ _ |- _ => destruct H as [H | H]
             | H : False |- _ => destruct H
             | H : _ = Feedback.w_vol_spike |- _ => discriminate H
             end.
  - intro H. apply Qlt_bool_true in H. rewrite H.
    destruct (Py.Qlt_bool 10 vol); [|destruct (Py.Qlt_bool vol (-10))];
      cbn [snd]; eexists; reflexivity.
Qed.

(** X23: the scorer reads the Fibonacci levels, the momentum reading, the
    volume profile, the exceedance probability and the price it is given
    (the base case only when no price is supplied), and nothing else: two
    reports that agree on these get the same decision, whatever their
    support clusters, bull and bear cases and volatility. *)
Theorem scorer_reads_only_its_inputs :
  forall (fmt : Q -> string) (r r' : Report.t) (cp : option Q),
    Report.fibonacci (Report.r_supporti r)
    = Report.fibonacci (Report.r_supporti r') ->
    Report.r_rsi r = Report.r_rsi r' ->
    Report.r_volumi r = Report.r_volumi r' ->
    Report.prob_Bx_gt_target (Report.r_montecarlo r)
    = Report.prob_Bx_gt_target (Report.r_montecarlo r') ->
    Props.price_used cp r = Props.price_used cp r' ->
    Feedback.ta_report_feedback fmt r cp
    = Feedback.ta_report_feedback fmt r' cp.
Proof.
  intros fmt r r' cp Hfib Hrsi Hvol Hprob Hprice.
  unfold Feedback.ta_report_feedback, Feedback.rsi_fb, Feedback.fibo_fb,
    Feedback.volumes_fb, Feedback.montecarlo_fb.
  fold (Props.price_used cp r). fold (Props.price_used cp r').
  now rewrite Hfib, Hrsi, Hvol, Hprob, Hprice.
Qed.

Lemma scorer_reads_only_its_inputs_witness :
  let r := Props.sample_report 100 50 "nessuna" 15 0 70 in
  let r' :=
    {| Report.r_supporti :=
         {| Report.fibonacci := Props.flat_levels 100;
            Report.cluster_minimi := [100; 200] |};
       Report.r_rsi := Report.r_rsi r;
       Report.r_volumi := Report.r_volumi r;
       Report.r_montecarlo :=
         {| Report.prob_Bx_gt_target := 70; Report.bull_case := 500;
            Report.base_case := 7; Report.bear_case := 1;
            Report.volatilita_giornaliera := 9 |} |} in
  Feedback.ta_report_feedback Props.no_fmt r (Some 101)
  = Feedback.ta_report_feedback Props.no_fmt r' (Some 101).
Proof.
  intros r r'.
  apply (scorer_reads_only_its_inputs Props.no_fmt r r' (Some 101));
    reflexivity.
Defined.
